(** * The Nexus central scheduler (src/nexus/scheduler/scheduler.cpp)

    A shallow embedding of the scheduler's control plane: the session
    registry, the allocator ([FindBestBackend],
    [AllocateUnassignedWorkloads]), the RPC handlers ([LoadModel],
    [RegisterFrontend], [RegisterBackend]), node removal and the two
    periodic passes ([BeaconCheck], [EpochSchedule]).

    Conventions.
    - [float] and [double] values are modelled by the rational they
      denote ([Q]); comparisons are exact, rounding of arithmetic results
      is not modelled, and neither are NaN and the infinities.
    - [std::unordered_map] and [std::unordered_set] are association lists
      and lists whose order is the container's iteration order; new keys
      are appended.
    - [std::shared_ptr<SessionInfo>] is an index into a heap of
      [SessionInfo] records, so that the sessions of one prefix group
      alias the same record.
    - [BackendDelegatePtr] is the key under which the delegate is stored
      in [backends_] together with the delegate read through it.
    - the classes declared outside scheduler.cpp (BackendDelegate, the
      model database, the model-session helpers) are interfaces
      ([Class]es); scheduler.cpp only reaches them through their
      methods. *)

From Stdlib Require Import ZArith QArith Qminmax List String Bool Lia.
From Stdlib Require Import Permutation Sorted Lqa.
Import ListNotations.
Local Open Scope Z_scope.

Set Implicit Arguments.
Set Warnings "-notation-for-abbreviation".

(** ** Rational comparisons as the code writes them *)

Definition Qltb (x y : Q) : bool := negb (Qle_bool y x).

(** Conversion to [uint32_t]. *)
Definition to_uint32 (z : Z) : Z := z mod 2 ^ 32.

(** ** Containers *)

Module AMap.
Section Defs.
Context {K V : Type} (eqb : K -> K -> bool).

(** [m.find(k)] *)
Fixpoint find (k : K) (m : list (K * V)) : option V :=
  match m with
  | [] => None
  | (k', v) :: m' => if eqb k k' then Some v else find k m'
  end.

(** [m.count(k) > 0] *)
Definition mem (k : K) (m : list (K * V)) : bool :=
  match find k m with Some _ => true | None => false end.

(** [m.emplace(k, v)]: no effect when the key is present. *)
Definition emplace (k : K) (v : V) (m : list (K * V)) : list (K * V) :=
  if mem k m then m else m ++ [(k, v)].

(** [m.erase(k)] *)
Fixpoint erase (k : K) (m : list (K * V)) : list (K * V) :=
  match m with
  | [] => []
  | (k', v) :: m' => if eqb k k' then erase k m' else (k', v) :: erase k m'
  end.

(** A write through [m.at(k)] or through a pointer stored under [k]. *)
Fixpoint update (k : K) (f : V -> V) (m : list (K * V)) : list (K * V) :=
  match m with
  | [] => []
  | (k', v) :: m' =>
      if eqb k k' then (k', f v) :: m' else (k', v) :: update k f m'
  end.

(** [m[k] = v] *)
Definition set (k : K) (v : V) (m : list (K * V)) : list (K * V) :=
  if mem k m then update k (fun _ => v) m else m ++ [(k, v)].
End Defs.
End AMap.

(** [std::unordered_set<uint32_t>] *)
Module ZSet.
Definition mem (x : Z) (s : list Z) : bool := existsb (Z.eqb x) s.
Definition insert (x : Z) (s : list Z) : list Z :=
  if mem x s then s else s ++ [x].
Definition erase (x : Z) (s : list Z) : list Z :=
  filter (fun y => negb (Z.eqb x y)) s.
End ZSet.

Module SSet.
Definition mem (x : string) (s : list string) : bool :=
  existsb (String.eqb x) s.
Definition insert (x : string) (s : list string) : list string :=
  if mem x s then s else s ++ [x].
End SSet.

Module NSet.
Definition mem (x : nat) (s : list nat) : bool := existsb (Nat.eqb x) s.
Definition insert (x : nat) (s : list nat) : list nat :=
  if mem x s then s else s ++ [x].
End NSet.

(** ** Messages and plain data *)

Definition NodeId := Z.

Inductive CtrlStatus : Type :=
| CTRL_OK
| MODEL_NOT_FOUND
| CTRL_SERVER_NOT_REGISTERED
| NOT_ENOUGH_BACKENDS
| CTRL_FRONTEND_NODE_ID_CONFLICT
| CTRL_BACKEND_NODE_ID_CONFLICT.

Record ModelSession : Type := mkModelSession {
  framework : string;
  model_name : string;
  version : Z;
  latency_sla : Z;
  image_height : Z;
  image_width : Z
}.

Definition set_image_height (h : Z) (s : ModelSession) : ModelSession :=
  mkModelSession (framework s) (model_name s) (version s) (latency_sla s)
                 h (image_width s).
Definition set_image_width (w : Z) (s : ModelSession) : ModelSession :=
  mkModelSession (framework s) (model_name s) (version s) (latency_sla s)
                 (image_height s) w.
Definition set_latency_sla (l : Z) (s : ModelSession) : ModelSession :=
  mkModelSession (framework s) (model_name s) (version s) l
                 (image_height s) (image_width s).

(** A default-constructed [ModelSession] protobuf message. *)
Definition ModelSession_default : ModelSession :=
  mkModelSession EmptyString EmptyString 0 0 0 0.

Definition SessionGroup := list ModelSession.

(** The plan of one model on one backend.  scheduler.cpp reads
    [throughput] and [batch]; [inst_session] is the session the plan was
    prepared for. *)
Record InstanceInfo : Type := mkInstanceInfo {
  inst_session : ModelSession;
  batch : Z;
  max_batch : Z;
  throughput : Q;
  memory_bytes : Z
}.

(** A default-constructed [InstanceInfo] (the value of an [InstanceInfo]
    local before [FindBestBackend] assigns it). *)
Definition InstanceInfo_default : InstanceInfo :=
  mkInstanceInfo ModelSession_default 0 0 0%Q 0.

Record BackendInfo : Type := mkBackendInfo {
  info_node_id : NodeId;
  info_ip : string;
  info_server_port : string;
  info_rpc_port : string
}.

Record ModelRouteProto : Type := mkModelRoute {
  model_session_id : string;
  backend_rate : list (BackendInfo * Q)
}.

(** The metadata record [GetModelInfo] returns, as far as [LoadModel]
    reads it. *)
Record ModelInfo : Type := mkModelInfo {
  resizable : bool;
  info_image_height : Z;
  info_image_width : Z
}.

(** An entry of the static workload file (a YAML node). *)
Definition YamlNode := string.

(** ** Collaborators declared outside scheduler.cpp *)

(** nexus/common/model_db.h and the model-session helpers. *)
Class ModelDatabase : Type := {
  GetModelInfo : string -> option ModelInfo;
  GetPrefixShareModels : string -> list string;
  ModelSessionToModelID : ModelSession -> string;
  ModelSessionToString : ModelSession -> string;
  ParseModelID : string -> ModelSession -> ModelSession;
  ParseModelSession : string -> ModelSession;
  RemoveFromSessionGroup : SessionGroup -> string -> SessionGroup
}.

(** The methods of [BackendDelegate] that scheduler.cpp calls.  A method
    that mutates the delegate returns the new delegate; [IsAlive] and the
    constructor read the clock, passed as their last argument.  The
    constructor's other arguments are those of [Scheduler::Register]:
    node id, ip, server port, rpc port, gpu device name, gpu memory,
    beacon interval and epoch interval.  [Assign] returns [None] for
    [false]. *)
Class BackendDelegateOps (B : Type) : Type := {
  new_BackendDelegate :
    NodeId -> string -> string -> string -> string -> Z -> Z -> Z -> Z -> B;
  node_id : B -> NodeId;
  workload_id : B -> Z;
  set_workload_id : B -> Z -> B;
  IsAlive : B -> Z -> bool;
  IsIdle : B -> bool;
  GetInfo : B -> BackendInfo;
  PrepareLoadModel : B -> ModelSession -> Q -> option (InstanceInfo * Q);
  LoadModel_inst : B -> InstanceInfo -> B;
  LoadModel_yaml : B -> YamlNode -> B;
  LoadPrefixModel : B -> ModelSession -> ModelSession -> B;
  UnloadModel : B -> string -> B;
  UpdateModelThroughput : B -> string -> Q -> Q * B;
  overload : B -> bool;
  SpillOutWorkload : B -> list (SessionGroup * Q) * B;
  GetModelSessions : B -> list string;
  GetBackupModelSessions : B -> list string;
  GetModelThroughput : B -> string -> Q;
  GetModelRps : B -> string -> Q;
  AddBackupForModel : B -> string -> BackendInfo -> B;
  RemoveBackupForModel : B -> string -> NodeId -> B;
  Assign : B -> B -> option B;
  UpdateModelTableRpc : B -> B
}.

(** Modelled from the spec: FrontendDelegate (spec 3, FrontendState, and
    4.C).  Its constructor takes the node id, the address and the beacon
    interval (see [Scheduler::Register]) and reads the clock for the
    first [last_time]; [IsAlive] holds while
    [now - last_beacon <= 2 * beacon_interval]. *)
Module FrontendDelegate.
Record t : Type := mk {
  node_id : NodeId;
  ip : string;
  server_port : string;
  rpc_port : string;
  beacon_sec : Z;
  last_time : Z;
  subscribe_models : list string
}.

Definition new (id : NodeId) (ip sp rp : string) (beacon now : Z) : t :=
  mk id ip sp rp beacon now [].

Definition SubscribeModel (f : t) (model_sess_id : string) : t :=
  mk (node_id f) (ip f) (server_port f) (rpc_port f) (beacon_sec f)
     (last_time f) (SSet.insert model_sess_id (subscribe_models f)).

Definition Tick (f : t) (now : Z) : t :=
  mk (node_id f) (ip f) (server_port f) (rpc_port f) (beacon_sec f)
     now (subscribe_models f).

Definition IsAlive (f : t) (now : Z) : bool :=
  now - last_time f <=? 2 * beacon_sec f.
End FrontendDelegate.

(** ** Scheduler state *)

Definition SessionInfoPtr := nat.

Record SessionInfo : Type := mkSessionInfo {
  model_sessions : SessionGroup;
  backend_throughputs : list (NodeId * Q);
  backup_backends : list NodeId;
  rps_history : list Q;
  unassigned_workload : Q;
  has_static_workload : bool
}.

(** [std::make_shared<SessionInfo>()] *)
Definition SessionInfo_new : SessionInfo :=
  mkSessionInfo [] [] [] [] 0%Q false.

Definition set_model_sessions (v : SessionGroup) (s : SessionInfo) :=
  mkSessionInfo v (backend_throughputs s) (backup_backends s)
                (rps_history s) (unassigned_workload s)
                (has_static_workload s).
Definition set_backend_throughputs (v : list (NodeId * Q)) (s : SessionInfo) :=
  mkSessionInfo (model_sessions s) v (backup_backends s)
                (rps_history s) (unassigned_workload s)
                (has_static_workload s).
Definition set_backup_backends (v : list NodeId) (s : SessionInfo) :=
  mkSessionInfo (model_sessions s) (backend_throughputs s) v
                (rps_history s) (unassigned_workload s)
                (has_static_workload s).
Definition set_rps_history (v : list Q) (s : SessionInfo) :=
  mkSessionInfo (model_sessions s) (backend_throughputs s)
                (backup_backends s) v (unassigned_workload s)
                (has_static_workload s).
Definition set_unassigned_workload (v : Q) (s : SessionInfo) :=
  mkSessionInfo (model_sessions s) (backend_throughputs s)
                (backup_backends s) (rps_history s) v
                (has_static_workload s).
Definition set_has_static_workload (v : bool) (s : SessionInfo) :=
  mkSessionInfo (model_sessions s) (backend_throughputs s)
                (backup_backends s) (rps_history s)
                (unassigned_workload s) v.

(** Modelled from the spec: [SessionInfo::total_throughput()] is declared
    in scheduler.h; by the invariant of spec section 3 it is the sum of
    [backend_throughputs]. *)
Definition total_throughput (s : SessionInfo) : Q :=
  fold_left (fun acc e => (acc + snd e)%Q) (backend_throughputs s) 0%Q.

(** The calls scheduler.cpp makes on a backend delegate that change what
    the backend serves, in the order they are made. *)
Inductive Instr : Type :=
| ILoadModel (inst : InstanceInfo)
| ILoadModelYaml (node : YamlNode)
| ILoadPrefixModel (tail head : ModelSession)
| IUnloadModel (model_sess_id : string)
| IAssign (from : NodeId)
| IUpdateModelTableRpc.

Record Scheduler (B : Type) : Type := mkScheduler {
  beacon_interval_sec_ : Z;
  epoch_interval_sec_ : Z;
  enable_epoch_schedule_ : bool;
  enable_prefix_batch_ : bool;
  min_history_len_ : Z;
  history_len_ : Z;
  static_workloads_ : list (list YamlNode);
  assigned_static_workloads_ : list (Z * NodeId);
  frontends_ : list (NodeId * FrontendDelegate.t);
  backends_ : list (NodeId * B);
  session_table_ : list (string * SessionInfoPtr);
  heap_ : list SessionInfo;
  session_subscribers_ : list (string * list NodeId);
  issued_ : list (NodeId * Instr)
}.

Arguments mkScheduler {B}.

Section Setters.
Context {B : Type}.
Definition set_assigned_static_workloads (v : list (Z * NodeId))
           (s : Scheduler B) : Scheduler B :=
  mkScheduler (beacon_interval_sec_ s) (epoch_interval_sec_ s)
    (enable_epoch_schedule_ s) (enable_prefix_batch_ s)
    (min_history_len_ s) (history_len_ s) (static_workloads_ s)
    v (frontends_ s) (backends_ s) (session_table_ s) (heap_ s)
    (session_subscribers_ s) (issued_ s).
Definition set_frontends (v : list (NodeId * FrontendDelegate.t))
           (s : Scheduler B) : Scheduler B :=
  mkScheduler (beacon_interval_sec_ s) (epoch_interval_sec_ s)
    (enable_epoch_schedule_ s) (enable_prefix_batch_ s)
    (min_history_len_ s) (history_len_ s) (static_workloads_ s)
    (assigned_static_workloads_ s) v (backends_ s) (session_table_ s)
    (heap_ s) (session_subscribers_ s) (issued_ s).
Definition set_backends (v : list (NodeId * B))
           (s : Scheduler B) : Scheduler B :=
  mkScheduler (beacon_interval_sec_ s) (epoch_interval_sec_ s)
    (enable_epoch_schedule_ s) (enable_prefix_batch_ s)
    (min_history_len_ s) (history_len_ s) (static_workloads_ s)
    (assigned_static_workloads_ s) (frontends_ s) v (session_table_ s)
    (heap_ s) (session_subscribers_ s) (issued_ s).
Definition set_session_table (v : list (string * SessionInfoPtr))
           (s : Scheduler B) : Scheduler B :=
  mkScheduler (beacon_interval_sec_ s) (epoch_interval_sec_ s)
    (enable_epoch_schedule_ s) (enable_prefix_batch_ s)
    (min_history_len_ s) (history_len_ s) (static_workloads_ s)
    (assigned_static_workloads_ s) (frontends_ s) (backends_ s) v
    (heap_ s) (session_subscribers_ s) (issued_ s).
Definition set_heap (v : list SessionInfo)
           (s : Scheduler B) : Scheduler B :=
  mkScheduler (beacon_interval_sec_ s) (epoch_interval_sec_ s)
    (enable_epoch_schedule_ s) (enable_prefix_batch_ s)
    (min_history_len_ s) (history_len_ s) (static_workloads_ s)
    (assigned_static_workloads_ s) (frontends_ s) (backends_ s)
    (session_table_ s) v (session_subscribers_ s) (issued_ s).
Definition set_session_subscribers (v : list (string * list NodeId))
           (s : Scheduler B) : Scheduler B :=
  mkScheduler (beacon_interval_sec_ s) (epoch_interval_sec_ s)
    (enable_epoch_schedule_ s) (enable_prefix_batch_ s)
    (min_history_len_ s) (history_len_ s) (static_workloads_ s)
    (assigned_static_workloads_ s) (frontends_ s) (backends_ s)
    (session_table_ s) (heap_ s) v (issued_ s).
Definition set_issued (v : list (NodeId * Instr))
           (s : Scheduler B) : Scheduler B :=
  mkScheduler (beacon_interval_sec_ s) (epoch_interval_sec_ s)
    (enable_epoch_schedule_ s) (enable_prefix_batch_ s)
    (min_history_len_ s) (history_len_ s) (static_workloads_ s)
    (assigned_static_workloads_ s) (frontends_ s) (backends_ s)
    (session_table_ s) (heap_ s) (session_subscribers_ s) v.

(** Record one call made on the delegate stored under [key]. *)
Definition issue (key : NodeId) (i : Instr) (s : Scheduler B) :=
  set_issued (issued_ s ++ [(key, i)]) s.

(** A write through a [BackendDelegatePtr]. *)
Definition on_backend (key : NodeId) (f : B -> B) (s : Scheduler B) :=
  set_backends (AMap.update Z.eqb key f (backends_ s)) s.

(** Reads and writes through a [SessionInfoPtr]. *)
Definition deref (s : Scheduler B) (p : SessionInfoPtr)
  : option SessionInfo := nth_error (heap_ s) p.

Fixpoint list_update {A} (n : nat) (f : A -> A) (l : list A) : list A :=
  match l, n with
  | [], _ => []
  | x :: l', O => f x :: l'
  | x :: l', S n' => x :: list_update n' f l'
  end.

Definition on_session (p : SessionInfoPtr) (f : SessionInfo -> SessionInfo)
           (s : Scheduler B) :=
  set_heap (list_update p f (heap_ s)) s.

(** [std::make_shared<SessionInfo>()]: a fresh record and its address. *)
Definition make_shared_SessionInfo (init : SessionInfo) (s : Scheduler B)
  : SessionInfoPtr * Scheduler B :=
  (List.length (heap_ s), set_heap (heap_ s ++ [init]) s).
End Setters.

(** The outcome of a handler: a value; an abnormal end ([Throw]: a C++
    exception escaping it, as from the [.at()] of a missing key, or
    undefined behaviour that kills the process, as the use of a null
    delegate pointer, an access out of a vector's range, an integer
    division by zero); or a loop that used up the iterations the model
    grants it. *)
Inductive result (A : Type) : Type :=
| Ok (a : A)
| Throw
| OutOfFuel.
Arguments Ok {A} a.
Arguments Throw {A}.
Arguments OutOfFuel {A}.

Definition bind {A C} (r : result A) (k : A -> result C) : result C :=
  match r with
  | Ok a => k a
  | Throw => Throw
  | OutOfFuel => OutOfFuel
  end.

Notation "x <- c ;; k" := (bind c (fun x => k))
  (at level 61, c at next level, right associativity).
Notation "' p <- c ;; k" := (bind c (fun p => k))
  (at level 61, p pattern, c at next level, right associativity).

Definition of_option {A} (o : option A) : result A :=
  match o with Some a => Ok a | None => Throw end.

Record LoadModelRequest : Type := mkLoadModelRequest {
  req_node_id : NodeId;
  req_model_session : ModelSession;
  estimate_workload : Q
}.

Record LoadModelReply : Type := mkLoadModelReply {
  status : CtrlStatus;
  model_route : option ModelRouteProto
}.

(** [std::max(a, b)]: [b] when [a < b], else [a]. *)
Definition std_max (a b : Q) : Q := if Qltb a b then b else a.

(** [std::sort(first, last, comp)] rearranges the range so that no
    element is ordered before an element that precedes it; the order of
    equivalent elements is unspecified. *)
Class StdSort : Type := {
  std_sort : forall A : Type, (A -> A -> bool) -> list A -> list A
}.

Definition sorted_by {A : Type} (comp : A -> A -> bool) (l : list A) : Prop :=
  StronglySorted (fun x y => comp y x = false) l.

(** The comparator of both sorts in scheduler.cpp: [a] goes before [b]
    when its key is greater. *)
Definition greater_by {A : Type} (key : A -> Q) (a b : A) : bool :=
  Qltb (key b) (key a).

Definition ordered_by {A : Type} (key : A -> Q) (x y : A) : Prop :=
  greater_by key y x = false.

(** What the C++ standard promises of [std::sort] for these comparators. *)
Definition std_sort_contract (S : StdSort) : Prop :=
  forall (A : Type) (key : A -> Q) (l : list A),
    Permutation l (std_sort (greater_by key) l) /\
    sorted_by (greater_by key) (std_sort (greater_by key) l).

(** [sqrt] of <cmath>. *)
Class Libm : Type := { sqrt : Q -> Q }.

(** The value a [float] variable holds after a number is stored in it:
    the number converted to single precision.  [workload] in
    [LoadModel] and [request_rate] in [AllocateUnassignedWorkloads] are
    [float]s, so what their loops test again after [-=] is the rounded
    difference, not the exact one. *)
Class Float32 : Type := { to_float : Q -> Q }.

(** Conversion to IEEE 754 single precision, as the C++ implementations
    the scheduler is built with convert: to the nearest of the numbers
    [m * 2^u] with [|m| < 2^24] and [u >= -149], ties to the even [m].
    [u] is chosen from the binary exponent [e] of the number
    ([2^e <= |q| < 2^(e+1)]) as [max (e - 23) (-149)].  Numbers beyond
    the range of [float] (from [2^128] on) are outside the model. *)
Definition scaled_le (d a e : Z) : bool :=
  if 0 <=? e then d * 2 ^ e <=? a else d <=? a * 2 ^ (- e).

Definition binary_exponent (a d : Z) : Z :=
  let e0 := Z.log2 a - Z.log2 d in
  if scaled_le d a e0 then e0 else e0 - 1.

Definition round_half_even (num den : Z) : Z :=
  let k := num / den in
  let r := num mod den in
  if 2 * r <? den then k
  else if den <? 2 * r then k + 1
       else if Z.even k then k else k + 1.

Definition float_round (q : Q) : Q :=
  let n := Qnum q in
  let d := Z.pos (Qden q) in
  if n =? 0 then 0%Q
  else
    let a := Z.abs n in
    let u := Z.max (binary_exponent a d - 23) (- 149) in
    let m :=
      if 0 <=? u then round_half_even a (d * 2 ^ u)
      else round_half_even (a * 2 ^ (- u)) d in
    let s := Z.sgn n in
    if 0 <=? u then inject_Z (s * m * 2 ^ u)
    else Qred (Qmake (s * m) (Z.to_pos (2 ^ (- u)))).

Definition binary32 : Float32 := {| to_float := float_round |}.


Inductive NodeType : Type := BACKEND_NODE | FRONTEND_NODE.

Record RegisterRequest : Type := mkRegisterRequest {
  node_type : NodeType;
  reg_node_id : NodeId;
  reg_server_port : string;
  reg_rpc_port : string;
  gpu_device_name : string;
  gpu_available_memory : Z
}.

Record RegisterReply : Type := mkRegisterReply {
  reg_status : CtrlStatus;
  beacon_interval_sec : option Z
}.

Section Model.
Context {B : Type} {BO : BackendDelegateOps B} {DB : ModelDatabase}.

(** [Scheduler::GetBackend] and [Scheduler::GetFrontend] ([None] is
    [nullptr]). *)
Definition GetBackend (st : Scheduler B) (id : NodeId) : option B :=
  AMap.find Z.eqb id (backends_ st).

Definition GetFrontend (st : Scheduler B) (id : NodeId)
  : option FrontendDelegate.t :=
  AMap.find Z.eqb id (frontends_ st).

(** [session_table_.at(id)] read through the pointer. *)
Definition session_at (st : Scheduler B) (model_sess_id : string)
  : result (SessionInfoPtr * SessionInfo) :=
  p <- of_option (AMap.find String.eqb model_sess_id (session_table_ st)) ;;
  si <- of_option (deref st p) ;;
  Ok (p, si).

(** [Scheduler::GetModelRoute] *)
Fixpoint route_entries (st : Scheduler B) (tps : list (NodeId * Q))
  : result (list (BackendInfo * Q)) :=
  match tps with
  | [] => Ok []
  | (id, tp) :: rest =>
      b <- of_option (AMap.find Z.eqb id (backends_ st)) ;;
      r <- route_entries st rest ;;
      Ok ((GetInfo b, tp) :: r)
  end.

Definition GetModelRoute (st : Scheduler B) (model_sess_id : string)
  : result ModelRouteProto :=
  ' (_, si) <- session_at st model_sess_id ;;
  r <- route_entries st (backend_throughputs si) ;;
  Ok (mkModelRoute model_sess_id r).

(** [Scheduler::FindBestBackend] *)
Definition ModelLoad : Type :=
  (option (NodeId * B) * InstanceInfo * Q)%type.

Definition ModelLoad_default : ModelLoad :=
  (None, InstanceInfo_default, 0%Q).

Definition load_backend (l : ModelLoad) := fst (fst l).
Definition load_inst (l : ModelLoad) := snd (fst l).
Definition load_occupancy (l : ModelLoad) := snd l.

Definition is_null {A} (o : option A) : bool :=
  match o with Some _ => false | None => true end.

Definition FindBestBackend_visit (model_sess : ModelSession)
           (request_rate : Q) (skips : list NodeId) (now : Z)
           (acc : ModelLoad * ModelLoad) (iter : NodeId * B)
  : ModelLoad * ModelLoad :=
  let '(max_tp_load, max_occ_load) := acc in
  let backend := snd iter in
  if ZSet.mem (node_id backend) skips then acc
  else if negb (IsAlive backend now) || (0 <=? workload_id backend) then acc
  else if Qeq_bool request_rate 0 && negb (IsIdle backend) then acc
  else
    match PrepareLoadModel backend model_sess request_rate with
    | None => acc
    | Some (tmp_info, occupancy) =>
        let max_tp_load' :=
          if is_null (load_backend max_tp_load)
             || Qltb (throughput (load_inst max_tp_load))
                     (throughput tmp_info)
          then (Some iter, tmp_info, occupancy) else max_tp_load in
        let max_occ_load' :=
          if is_null (load_backend max_occ_load)
             || Qltb (load_occupancy max_occ_load) occupancy
          then (Some iter, tmp_info, occupancy) else max_occ_load in
        (max_tp_load', max_occ_load')
    end.

Definition FindBestBackend_scan (model_sess : ModelSession)
           (request_rate : Q) (skips : list NodeId) (now : Z)
           (backends : list (NodeId * B)) (acc : ModelLoad * ModelLoad)
  : ModelLoad * ModelLoad :=
  fold_left (FindBestBackend_visit model_sess request_rate skips now)
            backends acc.

Definition FindBestBackend (st : Scheduler B) (model_sess : ModelSession)
           (request_rate : Q) (skips : list NodeId) (now : Z)
  : option (NodeId * B) * InstanceInfo :=
  let '(max_tp_load, max_occ_load) :=
    FindBestBackend_scan model_sess request_rate skips now (backends_ st)
                         (ModelLoad_default, ModelLoad_default) in
  if Qeq_bool request_rate 0 then
    (load_backend max_tp_load, load_inst max_tp_load)
  else if Qltb (throughput (load_inst max_tp_load)) request_rate then
    (load_backend max_tp_load, load_inst max_tp_load)
  else
    (load_backend max_occ_load, load_inst max_occ_load).

(** ** [Scheduler::LoadModel] *)

(** [frontend->SubscribeModel(id)] through the pointer [GetFrontend]
    returned for [key]. *)
Definition on_frontend (key : NodeId)
           (f : FrontendDelegate.t -> FrontendDelegate.t)
           (st : Scheduler B) : Scheduler B :=
  set_frontends (AMap.update Z.eqb key f (frontends_ st)) st.

(** The subscriber upsert of the duplicate-LoadModel path. *)
Definition subscribers_upsert (model_sess_id : string) (node : NodeId)
           (subs : list (string * list NodeId))
  : list (string * list NodeId) :=
  if negb (AMap.mem String.eqb model_sess_id subs) then
    AMap.emplace String.eqb model_sess_id [node] subs
  else
    AMap.update String.eqb model_sess_id (ZSet.insert node) subs.

(** The session is already in [session_table_]. *)
Definition LoadModel_existing (st : Scheduler B) (node : NodeId)
           (model_sess_id : string)
  : result (Scheduler B * LoadModelReply) :=
  route <- GetModelRoute st model_sess_id ;;
  let st1 :=
    on_frontend node
      (fun f => FrontendDelegate.SubscribeModel f model_sess_id) st in
  let st2 :=
    set_session_subscribers
      (subscribers_upsert model_sess_id node (session_subscribers_ st1))
      st1 in
  Ok (st2, mkLoadModelReply CTRL_OK (Some route)).

(** The scan of [share_prefixes] for a session present in the table;
    [ParseModelID] overwrites the model id of [share_model_sess] at each
    step and the loop stops at the first hit. *)
Fixpoint find_share_session (table : list (string * SessionInfoPtr))
         (share_prefixes : list string) (share_model_sess : ModelSession)
  : option (SessionInfoPtr * ModelSession) :=
  match share_prefixes with
  | [] => None
  | share_model_id :: rest =>
      let share_model_sess := ParseModelID share_model_id share_model_sess in
      match AMap.find String.eqb (ModelSessionToString share_model_sess)
                      table with
      | Some p => Some (p, share_model_sess)
      | None => find_share_session table rest share_model_sess
      end
  end.

Definition share_session_of (st : Scheduler B) (model_sess : ModelSession)
  : option (SessionInfoPtr * ModelSession) :=
  if enable_prefix_batch_ st then
    let model_id := ModelSessionToModelID model_sess in
    let share_prefixes := GetPrefixShareModels model_id in
    let share_model_sess :=
      set_latency_sla (latency_sla model_sess)
        (set_image_width (image_width model_sess)
           (set_image_height (image_height model_sess)
              ModelSession_default)) in
    find_share_session (session_table_ st) share_prefixes share_model_sess
  else None.

(** The loop over [share_session_info->backend_throughputs]. *)
Fixpoint LoadModel_share_loop (tps : list (NodeId * Q))
         (model_sess share_model_sess : ModelSession) (st : Scheduler B)
  : result (Scheduler B) :=
  match tps with
  | [] => Ok st
  | (id, _) :: rest =>
      match GetBackend st id with
      | None => Throw
      | Some _ =>
          let st1 :=
            issue id (ILoadPrefixModel model_sess share_model_sess)
              (on_backend id
                 (fun b => LoadPrefixModel b model_sess share_model_sess)
                 st) in
          let st2 :=
            issue id IUpdateModelTableRpc
                  (on_backend id UpdateModelTableRpc st1) in
          LoadModel_share_loop rest model_sess share_model_sess st2
      end
  end.

(** The session attaches to a loaded session that shares its prefix. *)
Definition LoadModel_prefix (st : Scheduler B) (node : NodeId)
           (model_sess : ModelSession) (model_sess_id : string)
           (share_session_info : SessionInfoPtr)
           (share_model_sess : ModelSession)
  : result (Scheduler B * LoadModelReply) :=
  si <- of_option (deref st share_session_info) ;;
  st1 <- LoadModel_share_loop (backend_throughputs si) model_sess
                              share_model_sess st ;;
  let st2 :=
    on_session share_session_info
      (fun s => set_model_sessions (model_sessions s ++ [model_sess]) s)
      st1 in
  let st3 :=
    set_session_table
      (AMap.emplace String.eqb model_sess_id share_session_info
                    (session_table_ st2)) st2 in
  let st4 :=
    on_frontend node
      (fun f => FrontendDelegate.SubscribeModel f model_sess_id) st3 in
  let st5 :=
    set_session_subscribers
      (AMap.emplace String.eqb model_sess_id [node]
                    (session_subscribers_ st4)) st4 in
  route <- GetModelRoute st5 model_sess_id ;;
  Ok (st5, mkLoadModelReply CTRL_OK (Some route)).

Context {FL : Float32}.

(** The allocation loop; [Ok None] is the early
    [NOT_ENOUGH_BACKENDS] return.  [workload == 0] asks once.
    [workload] is a [float]: [workload -= inst_info.throughput] stores
    the rounded difference. *)
Fixpoint LoadModel_allocate_loop (fuel : nat) (st : Scheduler B)
         (model_sess : ModelSession) (now : Z) (workload : Q)
         (used : list NodeId)
         (assign_backends : list ((NodeId * B) * InstanceInfo))
  : result (option (list ((NodeId * B) * InstanceInfo))) :=
  if Qltb 0 workload then
    match fuel with
    | O => OutOfFuel
    | S fuel' =>
        match FindBestBackend st model_sess workload used now with
        | (None, _) => Ok None
        | (Some backend, inst_info) =>
            LoadModel_allocate_loop fuel' st model_sess now
              (to_float (workload - throughput inst_info)%Q)
              (ZSet.insert (node_id (snd backend)) used)
              (assign_backends ++ [(backend, inst_info)])
        end
    end
  else Ok (Some assign_backends).

Definition LoadModel_allocate (st : Scheduler B) (model_sess : ModelSession)
           (now : Z) (workload : Q)
  : result (option (list ((NodeId * B) * InstanceInfo))) :=
  if Qeq_bool workload 0 then
    match FindBestBackend st model_sess workload [] now with
    | (None, _) => Ok None
    | (Some backend, inst_info) => Ok (Some [(backend, inst_info)])
    end
  else
    LoadModel_allocate_loop (S (List.length (backends_ st))) st model_sess
                            now workload [] [].

(** One round of the loop that loads the models on the chosen backends. *)
Definition LoadModel_load (session_info : SessionInfoPtr)
           (st : Scheduler B) (iter : (NodeId * B) * InstanceInfo)
  : Scheduler B :=
  let key := fst (fst iter) in
  let backend := snd (fst iter) in
  let inst_info := snd iter in
  let st1 :=
    issue key (ILoadModel inst_info)
          (on_backend key (fun b => LoadModel_inst b inst_info) st) in
  let st2 :=
    issue key IUpdateModelTableRpc
          (on_backend key UpdateModelTableRpc st1) in
  on_session session_info
    (fun s => set_backend_throughputs
                (AMap.emplace Z.eqb (node_id backend)
                              (throughput inst_info)
                              (backend_throughputs s)) s)
    st2.

(** A new session: allocate, then load and register. *)
Definition LoadModel_new (st : Scheduler B) (node : NodeId)
           (model_sess : ModelSession) (model_sess_id : string)
           (workload : Q) (now : Z)
  : result (Scheduler B * LoadModelReply) :=
  alloc <- LoadModel_allocate st model_sess now workload ;;
  match alloc with
  | None => Ok (st, mkLoadModelReply NOT_ENOUGH_BACKENDS None)
  | Some assign_backends =>
      let '(session_info, st0) :=
        make_shared_SessionInfo SessionInfo_new st in
      let st1 :=
        fold_left (LoadModel_load session_info) assign_backends st0 in
      let st2 :=
        on_session session_info
          (fun s => set_model_sessions (model_sessions s ++ [model_sess]) s)
          st1 in
      let st3 :=
        set_session_table
          (AMap.emplace String.eqb model_sess_id session_info
                        (session_table_ st2)) st2 in
      let st4 :=
        on_frontend node
          (fun f => FrontendDelegate.SubscribeModel f model_sess_id) st3 in
      let st5 :=
        set_session_subscribers
          (AMap.emplace String.eqb model_sess_id [node]
                        (session_subscribers_ st4)) st4 in
      route <- GetModelRoute st5 model_sess_id ;;
      Ok (st5, mkLoadModelReply CTRL_OK (Some route))
  end.

(** The session the handler works with: the request's, with the default
    image size of a resizable model filled in. *)
Definition LoadModel_session (info : ModelInfo) (model_sess : ModelSession)
  : ModelSession :=
  if resizable info && (image_height model_sess =? 0) then
    set_image_width (info_image_width info)
      (set_image_height (info_image_height info) model_sess)
  else model_sess.

Definition LoadModel (st : Scheduler B) (request : LoadModelRequest)
           (now : Z) : result (Scheduler B * LoadModelReply) :=
  match GetModelInfo (ModelSessionToModelID (req_model_session request)) with
  | None => Ok (st, mkLoadModelReply MODEL_NOT_FOUND None)
  | Some info =>
      let model_sess := LoadModel_session info (req_model_session request) in
      let model_sess_id := ModelSessionToString model_sess in
      let workload := estimate_workload request in
      match GetFrontend st (req_node_id request) with
      | None => Ok (st, mkLoadModelReply CTRL_SERVER_NOT_REGISTERED None)
      | Some _ =>
          if AMap.mem String.eqb model_sess_id (session_table_ st) then
            LoadModel_existing st (req_node_id request) model_sess_id
          else
            match share_session_of st model_sess with
            | Some (share_session_info, share_model_sess) =>
                LoadModel_prefix st (req_node_id request) model_sess
                                 model_sess_id share_session_info
                                 share_model_sess
            | None =>
                LoadModel_new st (req_node_id request) model_sess
                              model_sess_id workload now
            end
      end
  end.

(** ** [Scheduler::UpdateModelRoutes]

    The routes pushed to each subscribed frontend; the push itself
    ([UpdateModelRoutesRpc]) leaves the scheduler state as it is.
    [sessions] is the set of changed session records. *)
Fixpoint routes_for_subscribers (st : Scheduler B) (model_sess_id : string)
         (subs : list NodeId)
         (frontend_updates : list (NodeId * list ModelRouteProto))
  : result (list (NodeId * list ModelRouteProto)) :=
  match subs with
  | [] => Ok frontend_updates
  | frontend_id :: rest =>
      let frontend_updates :=
        AMap.emplace Z.eqb frontend_id [] frontend_updates in
      route <- GetModelRoute st model_sess_id ;;
      routes_for_subscribers st model_sess_id rest
        (AMap.update Z.eqb frontend_id (fun l => l ++ [route])
                     frontend_updates)
  end.

Fixpoint routes_for_group (st : Scheduler B) (group : SessionGroup)
         (frontend_updates : list (NodeId * list ModelRouteProto))
  : result (list (NodeId * list ModelRouteProto)) :=
  match group with
  | [] => Ok frontend_updates
  | model_sess :: rest =>
      let model_sess_id := ModelSessionToString model_sess in
      match AMap.find String.eqb model_sess_id (session_subscribers_ st) with
      | None => routes_for_group st rest frontend_updates
      | Some subs =>
          fu <- routes_for_subscribers st model_sess_id subs
                                       frontend_updates ;;
          routes_for_group st rest fu
      end
  end.

Fixpoint routes_for_sessions (st : Scheduler B)
         (sessions : list SessionInfoPtr)
         (frontend_updates : list (NodeId * list ModelRouteProto))
  : result (list (NodeId * list ModelRouteProto)) :=
  match sessions with
  | [] => Ok frontend_updates
  | p :: rest =>
      si <- of_option (deref st p) ;;
      fu <- routes_for_group st (model_sessions si) frontend_updates ;;
      routes_for_sessions st rest fu
  end.

Fixpoint push_updates (st : Scheduler B)
         (frontend_updates : list (NodeId * list ModelRouteProto))
  : result unit :=
  match frontend_updates with
  | [] => Ok tt
  | (id, _) :: rest =>
      _ <- of_option (AMap.find Z.eqb id (frontends_ st)) ;;
      push_updates st rest
  end.

Definition UpdateModelRoutes (st : Scheduler B)
           (sessions : list SessionInfoPtr)
  : result (list (NodeId * list ModelRouteProto)) :=
  fu <- routes_for_sessions st sessions [] ;;
  _ <- push_updates st fu ;;
  Ok fu.

(** ** [Scheduler::AllocateUnassignedWorkloads] *)

Context {SS : StdSort}.

Fixpoint result_fold {A X : Type} (f : A -> X -> result A) (l : list X)
         (a : A) : result A :=
  match l with
  | [] => Ok a
  | x :: l' => a' <- f a x ;; result_fold f l' a'
  end.

(** [session_info->unassigned_workload] *)
Definition unassigned_of (st : Scheduler B) (p : SessionInfoPtr) : Q :=
  match deref st p with
  | Some si => unassigned_workload si
  | None => 0%Q
  end.

(** The first loop: every session record once, those with a positive
    residual kept. *)
Fixpoint collect_unassigned (st : Scheduler B)
         (table : list (string * SessionInfoPtr))
         (visited : list SessionInfoPtr) : list SessionInfoPtr :=
  match table with
  | [] => []
  | (_, session_info) :: rest =>
      if NSet.mem session_info visited then
        collect_unassigned st rest visited
      else if Qltb 0 (unassigned_of st session_info) then
        session_info
          :: collect_unassigned st rest (NSet.insert session_info visited)
      else
        collect_unassigned st rest (NSet.insert session_info visited)
  end.

(** The changed sessions, and the changed backends when the caller
    passed a set for them. *)
Definition Changed : Type :=
  (list SessionInfoPtr * option (list NodeId))%type.

(** [for (int i = 1; i < sessions.size(); ++i)
      backend->LoadPrefixModel(sessions[i], sessions[0])] *)
Definition load_siblings (key : NodeId) (head : ModelSession)
           (siblings : list ModelSession) (st : Scheduler B)
  : Scheduler B :=
  fold_left
    (fun st sibling =>
       issue key (ILoadPrefixModel sibling head)
             (on_backend key (fun b => LoadPrefixModel b sibling head) st))
    siblings st.

(** One round of the [while (request_rate > 0)] loop, after
    [FindBestBackend] returned [backend]. *)
Definition Allocate_assign (session_info : SessionInfoPtr)
           (head : ModelSession) (siblings : list ModelSession)
           (backend : NodeId * B) (inst_info : InstanceInfo)
           (acc : Scheduler B * Changed) : Scheduler B * Changed :=
  let st := fst acc in
  let key := fst backend in
  let st1 :=
    issue key (ILoadModel inst_info)
          (on_backend key (fun b => LoadModel_inst b inst_info) st) in
  let st2 := load_siblings key head siblings st1 in
  let st3 :=
    on_session session_info
      (fun s => set_backend_throughputs
                  (AMap.emplace Z.eqb (node_id (snd backend))
                                (throughput inst_info)
                                (backend_throughputs s)) s)
      st2 in
  (st3, (NSet.insert session_info (fst (snd acc)),
         option_map (ZSet.insert key) (snd (snd acc)))).

Fixpoint Allocate_while (fuel : nat) (session_info : SessionInfoPtr)
         (head : ModelSession) (siblings : list ModelSession) (now : Z)
         (request_rate : Q) (acc : Scheduler B * Changed)
  : result (Q * (Scheduler B * Changed)) :=
  if Qltb 0 request_rate then
    match fuel with
    | O => OutOfFuel
    | S fuel' =>
        match FindBestBackend (fst acc) head request_rate [] now with
        | (None, _) => Ok (request_rate, acc)
        | (Some backend, inst_info) =>
            Allocate_while fuel' session_info head siblings now
              (to_float (request_rate - throughput inst_info)%Q)
              (Allocate_assign session_info head siblings backend
                               inst_info acc)
        end
    end
  else Ok (request_rate, acc).

(** The body of the loop over the sorted sessions.  [sessions[0]] of
    an empty group is an access out of the vector's range.
    [float request_rate = session_info->unassigned_workload] converts
    the stored rate to [float]. *)
Definition Allocate_session (fuel : nat) (now : Z)
           (acc : Scheduler B * Changed) (session_info : SessionInfoPtr)
  : result (Scheduler B * Changed) :=
  si <- of_option (deref (fst acc) session_info) ;;
  let request_rate := to_float (unassigned_workload si) in
  match model_sessions si with
  | [] =>
      if Qltb 0 request_rate then Throw
      else
        Ok (on_session session_info
              (set_unassigned_workload (std_max 0 request_rate)) (fst acc),
            snd acc)
  | head :: siblings =>
      r <- Allocate_while fuel session_info head siblings now
                          request_rate acc ;;
      Ok (on_session session_info
            (set_unassigned_workload (std_max 0 (fst r))) (fst (snd r)),
          snd (snd r))
  end.

Definition AllocateUnassignedWorkloads (fuel : nat) (now : Z)
           (acc : Scheduler B * Changed) : result (Scheduler B * Changed) :=
  let st := fst acc in
  let unassigned_workloads :=
    collect_unassigned st (session_table_ st) [] in
  match unassigned_workloads with
  | [] => Ok acc
  | _ :: _ =>
      result_fold (Allocate_session fuel now)
        (std_sort (greater_by (unassigned_of st)) unassigned_workloads)
        acc
  end.

(** ** [Scheduler::AddBackend] *)

(** [for (auto b : changed_backends) b->UpdateModelTableRpc()] *)
Definition update_model_tables (keys : list NodeId) (st : Scheduler B)
  : Scheduler B :=
  fold_left
    (fun st k =>
       issue k IUpdateModelTableRpc (on_backend k UpdateModelTableRpc st))
    keys st.

(** Steps 3/4 of [AddBackend], 4/5 of [RemoveBackend]. *)
Definition push_changes (st : Scheduler B) (changed_sessions : list SessionInfoPtr)
           (changed_backends : list NodeId) : result (Scheduler B) :=
  let st' := update_model_tables changed_backends st in
  _ <- UpdateModelRoutes st' changed_sessions ;;
  Ok st'.

(** The first static workload slot that no backend fills. *)
Definition first_free_slot (st : Scheduler B) : option Z :=
  List.find
    (fun id => negb (AMap.mem Z.eqb id (assigned_static_workloads_ st)))
    (map Z.of_nat (seq 0 (List.length (static_workloads_ st)))).

(** The loop over [backend->GetModelSessions()]. *)
Definition AddBackend_session (key : NodeId)
           (acc : Scheduler B * list SessionInfoPtr) (model_sess_id : string)
  : result (Scheduler B * list SessionInfoPtr) :=
  let st := fst acc in
  backend <- of_option (GetBackend st key) ;;
  let st1 :=
    if negb (AMap.mem String.eqb model_sess_id (session_table_ st)) then
      let fresh :=
        make_shared_SessionInfo
          (set_model_sessions [ParseModelSession model_sess_id]
             (set_has_static_workload true SessionInfo_new)) st in
      set_session_table
        (AMap.emplace String.eqb model_sess_id (fst fresh)
                      (session_table_ (snd fresh))) (snd fresh)
    else st in
  ps <- session_at st1 model_sess_id ;;
  Ok (on_session (fst ps)
        (fun s => set_backend_throughputs
                    (AMap.emplace Z.eqb (node_id backend)
                       (GetModelThroughput backend model_sess_id)
                       (backend_throughputs s)) s) st1,
      NSet.insert (fst ps) (snd acc)).

Definition add_backup_on (model_sess_id : string) (info : BackendInfo)
           (acc : Scheduler B * list NodeId) (iter : NodeId * Q)
  : Scheduler B * list NodeId :=
  match GetBackend (fst acc) (fst iter) with
  | None => acc
  | Some _ =>
      (on_backend (fst iter)
         (fun b => AddBackupForModel b model_sess_id info) (fst acc),
       ZSet.insert (fst iter) (snd acc))
  end.

(** The loop over [backend->GetBackupModelSessions()]. *)
Definition AddBackend_backup (key : NodeId)
           (acc : Scheduler B * list NodeId) (model_sess_id : string)
  : result (Scheduler B * list NodeId) :=
  let st := fst acc in
  backend <- of_option (GetBackend st key) ;;
  match AMap.find String.eqb model_sess_id (session_table_ st) with
  | None => Ok acc
  | Some p =>
      si <- of_option (deref st p) ;;
      if ZSet.mem (node_id backend) (backup_backends si) then Ok acc
      else
        let st1 :=
          on_session p
            (fun s => set_backup_backends
                        (ZSet.insert (node_id backend) (backup_backends s))
                        s) st in
        Ok (fold_left (add_backup_on model_sess_id (GetInfo backend))
                      (backend_throughputs si) (st1, snd acc))
  end.

Definition AddBackend (fuel : nat) (now : Z) (key : NodeId)
           (st : Scheduler B) : result (Scheduler B) :=
  match first_free_slot st with
  | Some assign_load_id =>
      backend0 <- of_option (GetBackend st key) ;;
      let st1 :=
        set_assigned_static_workloads
          (AMap.set Z.eqb assign_load_id (node_id backend0)
                    (assigned_static_workloads_ st)) st in
      let workload :=
        nth (Z.to_nat assign_load_id) (static_workloads_ st1) [] in
      let st2 :=
        fold_left
          (fun st n =>
             issue key (ILoadModelYaml n)
                   (on_backend key (fun b => LoadModel_yaml b n) st))
          workload st1 in
      let st3 :=
        on_backend key (fun b => set_workload_id b assign_load_id) st2 in
      backend <- of_option (GetBackend st3 key) ;;
      r4 <- result_fold (AddBackend_session key)
                        (GetModelSessions backend) (st3, []) ;;
      r5 <- result_fold (AddBackend_backup key)
                        (GetBackupModelSessions backend) (fst r4, [key]) ;;
      push_changes (fst r5) (snd r4) (snd r5)
  | None =>
      r <- AllocateUnassignedWorkloads fuel now (st, ([], Some [])) ;;
      push_changes (fst r) (fst (snd r))
                   (match snd (snd r) with Some l => l | None => [] end)
  end.

(** ** Registration *)

(** The constant of nexus/common/config.h. *)
Variable BEACON_INTERVAL_SEC : Z.

Definition RegisterFrontend (frontend : FrontendDelegate.t)
           (st : Scheduler B) : Scheduler B * RegisterReply :=
  if AMap.mem Z.eqb (FrontendDelegate.node_id frontend) (frontends_ st) then
    (st, mkRegisterReply CTRL_FRONTEND_NODE_ID_CONFLICT None)
  else
    (set_frontends
       (AMap.set Z.eqb (FrontendDelegate.node_id frontend) frontend
                 (frontends_ st)) st,
     mkRegisterReply CTRL_OK (Some BEACON_INTERVAL_SEC)).

Definition RegisterBackend (fuel : nat) (now : Z) (backend : B)
           (st : Scheduler B) : result (Scheduler B * RegisterReply) :=
  if AMap.mem Z.eqb (node_id backend) (backends_ st) then
    Ok (st, mkRegisterReply CTRL_BACKEND_NODE_ID_CONFLICT None)
  else
    let st1 :=
      set_backends
        (AMap.set Z.eqb (node_id backend) backend (backends_ st)) st in
    st2 <- AddBackend fuel now (node_id backend) st1 ;;
    Ok (st2, mkRegisterReply CTRL_OK (Some BEACON_INTERVAL_SEC)).

(** [Scheduler::Register]; [ip] is the peer address of the call. *)
Definition Register (fuel : nat) (now : Z) (ip : string)
           (request : RegisterRequest) (st : Scheduler B)
  : result (Scheduler B * RegisterReply) :=
  match node_type request with
  | BACKEND_NODE =>
      RegisterBackend fuel now
        (new_BackendDelegate (reg_node_id request) ip
           (reg_server_port request) (reg_rpc_port request)
           (gpu_device_name request) (gpu_available_memory request)
           (beacon_interval_sec_ st) (epoch_interval_sec_ st) now)
        st
  | FRONTEND_NODE =>
      Ok (RegisterFrontend
            (FrontendDelegate.new (reg_node_id request) ip
               (reg_server_port request) (reg_rpc_port request)
               (beacon_interval_sec_ st) now)
            st)
  end.

(** ** [Scheduler::RemoveBackend]

    [backend] is the delegate already erased from [backends_]. *)

(** Step 1: drop the backend from the sessions it served. *)
Definition RemoveBackend_detach (backend : B)
           (acc : Scheduler B * list SessionInfoPtr) (model_sess_id : string)
  : Scheduler B * list SessionInfoPtr :=
  match AMap.find String.eqb model_sess_id (session_table_ (fst acc)) with
  | None => acc
  | Some session_info =>
      if NSet.mem session_info (snd acc) then acc
      else
        (on_session session_info
           (fun s => set_backend_throughputs
                       (AMap.erase Z.eqb (node_id backend)
                                   (backend_throughputs s)) s) (fst acc),
         NSet.insert session_info (snd acc))
  end.

(** Step 2: the first idle backend that accepts the plan, with the
    state [Assign] left it in. *)
Fixpoint find_assignee (backend : B) (backends : list (NodeId * B))
  : option (NodeId * B) :=
  match backends with
  | [] => None
  | (key, b) :: rest =>
      if IsIdle b then
        match Assign b backend with
        | Some b' => Some (key, b')
        | None => find_assignee backend rest
        end
      else find_assignee backend rest
  end.

Definition RemoveBackend_reattach (assigned_key : NodeId)
           (st : Scheduler B) (model_sess_id : string)
  : result (Scheduler B) :=
  ps <- session_at st model_sess_id ;;
  assigned <- of_option (GetBackend st assigned_key) ;;
  Ok (on_session (fst ps)
        (fun s => set_backend_throughputs
                    (AMap.emplace Z.eqb (node_id assigned)
                       (GetModelThroughput assigned model_sess_id)
                       (backend_throughputs s)) s) st).

(** [if (assigned->workload_id()) assigned_static_workloads_.emplace(...)]:
    the test is the truth value of the [int]. *)
Definition RemoveBackend_record_slot (assigned_key : NodeId)
           (st : Scheduler B) : result (Scheduler B) :=
  assigned <- of_option (GetBackend st assigned_key) ;;
  if negb (workload_id assigned =? 0) then
    Ok (set_assigned_static_workloads
          (AMap.emplace Z.eqb (to_uint32 (workload_id assigned))
                        (node_id assigned)
                        (assigned_static_workloads_ st)) st)
  else Ok st.

Definition swap_backup_on (model_sess_id : string) (old : NodeId)
           (info : BackendInfo) (acc : Scheduler B * list NodeId)
           (iter : NodeId * Q) : Scheduler B * list NodeId :=
  match GetBackend (fst acc) (fst iter) with
  | None => acc
  | Some _ =>
      (on_backend (fst iter)
         (fun b => AddBackupForModel
                     (RemoveBackupForModel b model_sess_id old)
                     model_sess_id info) (fst acc),
       ZSet.insert (fst iter) (snd acc))
  end.

Definition RemoveBackend_move_backup (backend : B) (assigned_key : NodeId)
           (acc : Scheduler B * list NodeId) (model_sess_id : string)
  : result (Scheduler B * list NodeId) :=
  let st := fst acc in
  ps <- session_at st model_sess_id ;;
  assigned <- of_option (GetBackend st assigned_key) ;;
  let remove := ZSet.mem (node_id backend) (backup_backends (snd ps)) in
  let erased := ZSet.erase (node_id backend) (backup_backends (snd ps)) in
  let insert := negb (ZSet.mem (node_id assigned) erased) in
  let st1 :=
    on_session (fst ps)
      (set_backup_backends
         (if insert then ZSet.insert (node_id assigned) erased else erased))
      st in
  if negb remove && negb insert then Ok (st1, snd acc)
  else
    Ok (fold_left
          (swap_backup_on model_sess_id (node_id backend) (GetInfo assigned))
          (backend_throughputs (snd ps)) (st1, snd acc)).

Definition remove_backup_on (model_sess_id : string) (old : NodeId)
           (acc : Scheduler B * list NodeId) (iter : NodeId * Q)
  : Scheduler B * list NodeId :=
  match GetBackend (fst acc) (fst iter) with
  | None => acc
  | Some _ =>
      (on_backend (fst iter)
         (fun b => RemoveBackupForModel b model_sess_id old) (fst acc),
       ZSet.insert (fst iter) (snd acc))
  end.

Definition RemoveBackend_drop_backup (backend : B)
           (acc : Scheduler B * list NodeId) (model_sess_id : string)
  : result (Scheduler B * list NodeId) :=
  let st := fst acc in
  ps <- session_at st model_sess_id ;;
  if negb (ZSet.mem (node_id backend) (backup_backends (snd ps))) then Ok acc
  else
    let st1 :=
      on_session (fst ps)
        (fun s => set_backup_backends
                    (ZSet.erase (node_id backend) (backup_backends s)) s)
        st in
    Ok (fold_left (remove_backup_on model_sess_id (node_id backend))
                  (backend_throughputs (snd ps)) (st1, snd acc)).

(** Step 3, dynamic backend: its throughput becomes unassigned again. *)
Definition RemoveBackend_return_workload (backend : B) (st : Scheduler B)
           (model_sess_id : string) : result (Scheduler B) :=
  ps <- session_at st model_sess_id ;;
  Ok (on_session (fst ps)
        (fun s => set_unassigned_workload
                    (unassigned_workload s
                     + GetModelThroughput backend model_sess_id)%Q s) st).

Definition RemoveBackend (fuel : nat) (now : Z) (backend : B)
           (st : Scheduler B) : result (Scheduler B) :=
  if IsIdle backend then Ok st
  else
    let model_sessions := GetModelSessions backend in
    let r1 :=
      fold_left (RemoveBackend_detach backend) model_sessions (st, []) in
    match find_assignee backend (backends_ (fst r1)) with
    | Some assigned =>
        let st2 :=
          issue (fst assigned) (IAssign (node_id backend))
                (on_backend (fst assigned) (fun _ => snd assigned)
                            (fst r1)) in
        st3 <- result_fold (RemoveBackend_reattach (fst assigned))
                           model_sessions st2 ;;
        st4 <- RemoveBackend_record_slot (fst assigned) st3 ;;
        r5 <- result_fold (RemoveBackend_move_backup backend (fst assigned))
                          (GetBackupModelSessions backend)
                          (st4, [fst assigned]) ;;
        push_changes (fst r5) (snd r1) (snd r5)
    | None =>
        r2 <- result_fold (RemoveBackend_drop_backup backend)
                          (GetBackupModelSessions backend) (fst r1, []) ;;
        if 0 <=? workload_id backend then
          push_changes
            (set_assigned_static_workloads
               (AMap.erase Z.eqb (to_uint32 (workload_id backend))
                           (assigned_static_workloads_ (fst r2))) (fst r2))
            (snd r1) (snd r2)
        else
          st3 <- result_fold (RemoveBackend_return_workload backend)
                             model_sessions (fst r2) ;;
          r4 <- AllocateUnassignedWorkloads fuel now
                  (st3, (snd r1, Some (snd r2))) ;;
          push_changes (fst r4) (fst (snd r4))
                       (match snd (snd r4) with Some l => l | None => [] end)
    end.

(** ** [Scheduler::RemoveFrontend] *)

Definition unload_on (model_sess_id : string)
           (acc : Scheduler B * list NodeId) (iter : NodeId * Q)
  : result (Scheduler B * list NodeId) :=
  match GetBackend (fst acc) (fst iter) with
  | None => Throw
  | Some _ =>
      Ok (issue (fst iter) (IUnloadModel model_sess_id)
            (on_backend (fst iter)
               (fun b => UnloadModel b model_sess_id) (fst acc)),
          ZSet.insert (fst iter) (snd acc))
  end.

Definition RemoveFrontend_session (frontend : FrontendDelegate.t)
           (acc : Scheduler B * list NodeId) (model_sess_id : string)
  : result (Scheduler B * list NodeId) :=
  let st := fst acc in
  subs <- of_option
            (AMap.find String.eqb model_sess_id (session_subscribers_ st)) ;;
  let subs' := ZSet.erase (FrontendDelegate.node_id frontend) subs in
  let st1 :=
    set_session_subscribers
      (AMap.update String.eqb model_sess_id (fun _ => subs')
                   (session_subscribers_ st)) st in
  match subs' with
  | _ :: _ => Ok (st1, snd acc)
  | [] =>
      ps <- session_at st1 model_sess_id ;;
      if has_static_workload (snd ps) then Ok (st1, snd acc)
      else
        let st2 :=
          on_session (fst ps)
            (fun s => set_model_sessions
                        (RemoveFromSessionGroup (model_sessions s)
                                                model_sess_id) s) st1 in
        r <- result_fold (unload_on model_sess_id)
                         (backend_throughputs (snd ps)) (st2, snd acc) ;;
        Ok (set_session_table
              (AMap.erase String.eqb model_sess_id
                          (session_table_ (fst r))) (fst r),
            snd r)
  end.

Definition RemoveFrontend (frontend : FrontendDelegate.t)
           (st : Scheduler B) : result (Scheduler B) :=
  r <- result_fold (RemoveFrontend_session frontend)
                   (FrontendDelegate.subscribe_models frontend) (st, []) ;;
  Ok (update_model_tables (snd r) (fst r)).

(** ** Unregistration *)

Definition UnregisterFrontend (id : NodeId) (st : Scheduler B)
  : result (Scheduler B) :=
  match GetFrontend st id with
  | None => Ok st
  | Some frontend =>
      RemoveFrontend frontend
        (set_frontends
           (AMap.erase Z.eqb (FrontendDelegate.node_id frontend)
                       (frontends_ st)) st)
  end.

Definition UnregisterBackend (fuel : nat) (now : Z) (id : NodeId)
           (st : Scheduler B) : result (Scheduler B) :=
  match GetBackend st id with
  | None => Ok st
  | Some backend =>
      RemoveBackend fuel now backend
        (set_backends
           (AMap.erase Z.eqb (node_id backend) (backends_ st)) st)
  end.

(** ** [Scheduler::BeaconCheck] *)

(** [rps += backends_.at(id)->GetModelRps(model_sess_id)] over the
    session's backends. *)
Fixpoint session_rps (st : Scheduler B) (model_sess_id : string)
         (tps : list (NodeId * Q)) (rps : Q) : result Q :=
  match tps with
  | [] => Ok rps
  | backend_iter :: rest =>
      backend <- of_option (AMap.find Z.eqb (fst backend_iter)
                                      (backends_ st)) ;;
      session_rps st model_sess_id rest
                  (rps + GetModelRps backend model_sess_id)%Q
  end.

(** The two [if]s on [rps_history]: push unless the history is empty
    and the reading is not positive, then drop the oldest entry when
    the history is longer than [history_len_]. *)
Definition push_rps (history_len : Z) (history : list Q) (rps : Q)
  : list Q :=
  let pushed :=
    if (0 <? Z.of_nat (List.length history)) || Qltb 0 rps
    then history ++ [rps] else history in
  if history_len <? Z.of_nat (List.length pushed)
  then tl pushed else pushed.

(** Step 2, for one entry of [session_table_]. *)
Definition BeaconCheck_session (st : Scheduler B)
           (iter : string * SessionInfoPtr) : result (Scheduler B) :=
  session_info <- of_option (deref st (snd iter)) ;;
  rps <- session_rps st (fst iter) (backend_throughputs session_info)
                     0%Q ;;
  Ok (on_session (snd iter)
        (fun s => set_rps_history
                    (push_rps (history_len_ st) (rps_history s) rps) s)
        st).

Definition BeaconCheck_frontend (st : Scheduler B)
           (frontend : FrontendDelegate.t) : result (Scheduler B) :=
  RemoveFrontend frontend
    (set_frontends
       (AMap.erase Z.eqb (FrontendDelegate.node_id frontend)
                   (frontends_ st)) st).

Definition BeaconCheck (fuel : nat) (now : Z) (st : Scheduler B)
  : result (Scheduler B) :=
  let dead_frontends :=
    filter (fun f => negb (FrontendDelegate.IsAlive f now))
           (map snd (frontends_ st)) in
  st1 <- result_fold BeaconCheck_frontend dead_frontends st ;;
  st2 <- result_fold BeaconCheck_session (session_table_ st1) st1 ;;
  let dead_backends :=
    filter (fun b => negb (IsAlive b now)) (map snd (backends_ st2)) in
  let st3 :=
    fold_left
      (fun st b =>
         set_backends (AMap.erase Z.eqb (node_id b) (backends_ st)) st)
      dead_backends st2 in
  result_fold (fun st b => RemoveBackend fuel now b st) dead_backends st3.

(** ** [Scheduler::EpochSchedule] *)

Context {LM : Libm}.

Definition sum_rps (history : list Q) : Q :=
  fold_left Qplus history 0%Q.

Definition sum_sq_dev (history : list Q) (rps_mean : Q) : Q :=
  fold_left
    (fun acc rps => (acc + (rps - rps_mean) * (rps - rps_mean))%Q)
    history 0%Q.

(** [n], [rps_mean], [rps_std] and [estimate_rps] of one session. *)
Definition history_size (history : list Q) : Z :=
  to_uint32 (Z.of_nat (List.length history)).

Definition rps_mean_of (history : list Q) : Q :=
  (sum_rps history / inject_Z (history_size history))%Q.

Definition rps_std_of (history : list Q) : Q :=
  sqrt (sum_sq_dev history (rps_mean_of history)
        / inject_Z (to_uint32 (history_size history - 1)))%Q.

Definition estimate_rps_of (history : list Q) : result Q :=
  last_rps <- of_option
                (nth_error history
                   (Z.to_nat (to_uint32 (history_size history - 1)))) ;;
  Ok (std_max (last_rps + rps_std_of history)%Q (1 # 10)%Q).

(** Backends with a static workload stay fixed: their throughput is
    taken off the estimate, the others are collected. *)
Fixpoint split_static (st : Scheduler B) (tps : list (NodeId * Q))
         (estimate_rps : Q) (adjust_backends : list (NodeId * Q))
  : result (Q * list (NodeId * Q)) :=
  match tps with
  | [] => Ok (estimate_rps, adjust_backends)
  | iter :: rest =>
      backend <- of_option (AMap.find Z.eqb (fst iter) (backends_ st)) ;;
      if 0 <=? workload_id backend then
        split_static st rest (estimate_rps - snd iter)%Q adjust_backends
      else
        split_static st rest estimate_rps (adjust_backends ++ [iter])
  end.

Definition shrink_step (session_info : SessionInfoPtr)
           (model_sess_id : string) (acc : Scheduler B * Q)
           (iter : NodeId * Q) : result (Scheduler B * Q) :=
  let st := fst acc in
  let estimate_rps := snd acc in
  if Qle_bool estimate_rps 0 then
    _ <- of_option (AMap.find Z.eqb (fst iter) (backends_ st)) ;;
    Ok (on_session session_info
          (fun s => set_backend_throughputs
                      (AMap.erase Z.eqb (fst iter) (backend_throughputs s))
                      s)
          (issue (fst iter) (IUnloadModel model_sess_id)
             (on_backend (fst iter)
                (fun b => UnloadModel b model_sess_id) st)),
        estimate_rps)
  else if Qltb estimate_rps (snd iter) then
    backend <- of_option (AMap.find Z.eqb (fst iter) (backends_ st)) ;;
    let r := UpdateModelThroughput backend model_sess_id estimate_rps in
    Ok (on_session session_info
          (fun s => set_backend_throughputs
                      (AMap.set Z.eqb (fst iter) (fst r)
                                (backend_throughputs s)) s)
          (on_backend (fst iter) (fun _ => snd r) st),
        (estimate_rps - fst r)%Q)
  else Ok (st, (estimate_rps - snd iter)%Q).

Definition grow_step (session_info : SessionInfoPtr)
           (model_sess_id : string)
           (acc : Scheduler B * Q * list NodeId) (iter : NodeId * Q)
  : result (Scheduler B * Q * list NodeId) :=
  let st := fst (fst acc) in
  let estimate_rps := snd (fst acc) in
  backend <- of_option (AMap.find Z.eqb (fst iter) (backends_ st)) ;;
  let r := UpdateModelThroughput backend model_sess_id estimate_rps in
  Ok (on_session session_info
        (fun s => set_backend_throughputs
                    (AMap.set Z.eqb (fst iter) (fst r)
                              (backend_throughputs s)) s)
        (on_backend (fst iter) (fun _ => snd r) st),
      (estimate_rps - fst r)%Q,
      if overload (snd r) then snd acc ++ [fst iter] else snd acc).

Record EpochAcc : Type := mkEpochAcc {
  e_state : Scheduler B;
  e_visited : list SessionInfoPtr;
  e_changed_sessions : list SessionInfoPtr;
  e_overload_backends : list NodeId
}.

(** The shrink and grow branches of step 1; [acc] holds the state in
    which the residual has been set. *)
Definition EpochSchedule_resize (model_sess_id : string)
           (p : SessionInfoPtr) (session_info : SessionInfo)
           (estimate_rps : Q) (acc : EpochAcc) : result EpochAcc :=
  let st1 := e_state acc in
  let throughput := total_throughput session_info in
  if Qltb estimate_rps (throughput * (97 # 100))%Q then
    sp <- split_static st1 (backend_throughputs session_info)
                       estimate_rps [] ;;
    r <- result_fold (shrink_step p model_sess_id)
           (std_sort (greater_by (@snd NodeId Q)) (snd sp))
           (st1, fst sp) ;;
    Ok (mkEpochAcc (fst r) (e_visited acc)
                   (NSet.insert p (e_changed_sessions acc))
                   (e_overload_backends acc))
  else if Qltb throughput estimate_rps then
    sp <- split_static st1 (backend_throughputs session_info)
                       estimate_rps [] ;;
    r <- result_fold (grow_step p model_sess_id)
           (std_sort (greater_by (@snd NodeId Q)) (snd sp))
           (st1, fst sp, e_overload_backends acc) ;;
    let st2 := fst (fst r) in
    let st3 :=
      if Qltb 0 (snd (fst r)) then
        on_session p (set_unassigned_workload (snd (fst r))) st2
      else st2 in
    Ok (mkEpochAcc st3 (e_visited acc)
                   (NSet.insert p (e_changed_sessions acc)) (snd r))
  else Ok acc.

(** Step 1 for a session record with enough history: estimate, set
    the residual, then shrink or grow. *)
Definition EpochSchedule_adjust (model_sess_id : string)
           (p : SessionInfoPtr) (session_info : SessionInfo)
           (acc : EpochAcc) : result EpochAcc :=
  let throughput := total_throughput session_info in
  estimate_rps <- estimate_rps_of (rps_history session_info) ;;
  let st1 :=
    on_session p
      (set_unassigned_workload (std_max 0 (estimate_rps - throughput)%Q))
      (e_state acc) in
  EpochSchedule_resize model_sess_id p session_info estimate_rps
    (mkEpochAcc st1 (e_visited acc) (e_changed_sessions acc)
                (e_overload_backends acc)).

(** The body of the first loop of [EpochSchedule]. *)
Definition EpochSchedule_session (acc : EpochAcc)
           (iter : string * SessionInfoPtr) : result EpochAcc :=
  if NSet.mem (snd iter) (e_visited acc) then Ok acc
  else
    let acc1 :=
      mkEpochAcc (e_state acc) (NSet.insert (snd iter) (e_visited acc))
                 (e_changed_sessions acc) (e_overload_backends acc) in
    session_info <- of_option (deref (e_state acc) (snd iter)) ;;
    if history_size (rps_history session_info)
       <? min_history_len_ (e_state acc)
    then Ok acc1
    else EpochSchedule_adjust (fst iter) (snd iter) session_info acc1.

Definition spill_entry (node : NodeId) (st : Scheduler B)
           (iter : SessionGroup * Q) : result (Scheduler B) :=
  match fst iter with
  | [] => Throw
  | head :: _ =>
      ps <- session_at st (ModelSessionToString head) ;;
      Ok (on_session (fst ps)
            (fun s => set_unassigned_workload
                        (unassigned_workload s + snd iter)%Q
                        (set_backend_throughputs
                           (AMap.erase Z.eqb node (backend_throughputs s))
                           s)) st)
  end.

Definition EpochSchedule_spill (st : Scheduler B) (key : NodeId)
  : result (Scheduler B) :=
  backend <- of_option (GetBackend st key) ;;
  let r := SpillOutWorkload backend in
  result_fold (spill_entry (node_id (snd r))) (fst r)
              (on_backend key (fun _ => snd r) st).

(** [EpochSchedule] up to the route updates; the call of
    [DisplayModelTable] that ends it is left out. *)
Definition EpochSchedule (fuel : nat) (now : Z) (st : Scheduler B)
  : result (Scheduler B) :=
  r1 <- result_fold EpochSchedule_session (session_table_ st)
                    (mkEpochAcc st [] [] []) ;;
  st2 <- result_fold EpochSchedule_spill (e_overload_backends r1)
                     (e_state r1) ;;
  r3 <- AllocateUnassignedWorkloads fuel now
          (st2, (e_changed_sessions r1, None)) ;;
  let st4 := update_model_tables (map fst (backends_ (fst r3))) (fst r3) in
  _ <- UpdateModelRoutes st4 (fst (snd r3)) ;;
  Ok st4.

(** ** Construction *)

(** [Scheduler::Scheduler]: the intervals come from the flags
    [--beacon] and [--epoch].  The members are declared in
    scheduler.h; they are taken to be [uint32_t].  [Scheduler_new] is
    the object the constructor leaves when it returns;
    [Scheduler_construct] below is the constructor with its failure. *)
Definition Scheduler_new (FLAGS_beacon FLAGS_epoch : Z)
           (FLAGS_epoch_schedule FLAGS_prefix_batch : bool) : Scheduler B :=
  let beacon := to_uint32 FLAGS_beacon in
  let epoch := to_uint32 FLAGS_epoch in
  let min_history_len := to_uint32 (epoch + beacon - 1) / beacon in
  mkScheduler beacon epoch FLAGS_epoch_schedule FLAGS_prefix_batch
              min_history_len (to_uint32 (min_history_len * 2))
              [] [] [] [] [] [] [] [].

(** The constructor divides by [beacon_interval_sec_]: with a beacon
    interval of zero the division is undefined and the process is
    killed before a scheduler exists. *)
Definition Scheduler_construct (FLAGS_beacon FLAGS_epoch : Z)
           (FLAGS_epoch_schedule FLAGS_prefix_batch : bool)
  : result (Scheduler B) :=
  if to_uint32 FLAGS_beacon =? 0 then Throw
  else Ok (Scheduler_new FLAGS_beacon FLAGS_epoch FLAGS_epoch_schedule
                         FLAGS_prefix_batch).

(** [Scheduler::LoadWorkloadFile], from the parsed YAML sequence. *)
Definition LoadWorkloadFile (config : list (list YamlNode))
           (s : Scheduler B) : Scheduler B :=
  mkScheduler (beacon_interval_sec_ s) (epoch_interval_sec_ s)
    (enable_epoch_schedule_ s) (enable_prefix_batch_ s)
    (min_history_len_ s) (history_len_ s) (static_workloads_ s ++ config)
    (assigned_static_workloads_ s) (frontends_ s) (backends_ s)
    (session_table_ s) (heap_ s) (session_subscribers_ s) (issued_ s).
End Model.

(** ** [Scheduler::Run]: the control loop

    The loop keeps three second counters.  An iteration reads
    [std::chrono::system_clock::now()], runs the passes that are due,
    computes [next_sec] and calls [std::this_thread::sleep_until] with
    the reading plus [next_sec - elapse_sec] seconds. *)

Inductive Clock : Type := system_clock | steady_clock.

Inductive Pass : Type := PBeaconCheck | PEpochSchedule.

Record RunState : Type := mkRunState {
  elapse_sec : Z;
  last_beacon : Z;
  last_epoch : Z
}.

Definition Run_initial : RunState := mkRunState 0 0 0.

(** A [sleep_until] call: the clock of its time point and the time point. *)
Record SleepUntil : Type := mkSleepUntil {
  sleep_clock : Clock;
  sleep_deadline : Z
}.

Definition to_int32 (z : Z) : Z := (z + 2 ^ 31) mod 2 ^ 32 - 2 ^ 31.
Definition to_uint64 (z : Z) : Z := z mod 2 ^ 64.
Definition to_int64 (z : Z) : Z := (z + 2 ^ 63) mod 2 ^ 64 - 2 ^ 63.

Section Run.
Variables beacon_interval_sec epoch_interval_sec : Z.
Variable enable_epoch_schedule : bool.

Definition beacon_due (r : RunState) : bool :=
  (0 <? elapse_sec r) && (elapse_sec r mod beacon_interval_sec =? 0).

Definition epoch_due (r : RunState) : bool :=
  (0 <? elapse_sec r) && (elapse_sec r mod epoch_interval_sec =? 0).

(** The passes an iteration runs, in order. *)
Definition Run_passes (r : RunState) : list Pass :=
  (if beacon_due r then [PBeaconCheck] else [])
    ++ (if epoch_due r && enable_epoch_schedule
        then [PEpochSchedule] else []).

Definition Run_marks (r : RunState) : RunState :=
  mkRunState (elapse_sec r)
             (if beacon_due r then elapse_sec r else last_beacon r)
             (if epoch_due r then elapse_sec r else last_epoch r).

(** [int next_sec = std::min(last_beacon + beacon, last_epoch + epoch)] *)
Definition Run_next_sec (r : RunState) : Z :=
  let m := Run_marks r in
  to_int32 (Z.min (to_uint64 (last_beacon m + beacon_interval_sec))
                  (to_uint64 (last_epoch m + epoch_interval_sec))).

(** [std::chrono::seconds(next_sec - elapse_sec)] *)
Definition Run_interval (r : RunState) : Z :=
  to_int64 (to_uint64 (Run_next_sec r - elapse_sec r)).

(** One iteration: [now] is the reading of [system_clock] it starts
    with. *)
Definition Run_iteration (now : Z) (r : RunState)
  : list Pass * SleepUntil * RunState :=
  let m := Run_marks r in
  (Run_passes r,
   mkSleepUntil system_clock (now + Run_interval r),
   mkRunState (to_uint64 (Run_next_sec r)) (last_beacon m) (last_epoch m)).
End Run.

(** The instant a [sleep_until] returns.  Instants are seconds of true
    (monotonic) time; [reading c t] is what clock [c] shows at instant
    [t].  The thread is released at the first instant, from [t] on, at
    which the clock of the time point shows the deadline or more. *)
Fixpoint wake_instant (fuel : nat) (reading : Clock -> Z -> Z)
         (s : SleepUntil) (t : Z) : option Z :=
  if sleep_deadline s <=? reading (sleep_clock s) t then Some t
  else
    match fuel with
    | O => None
    | S fuel' => wake_instant fuel' reading s (t + 1)
    end.

(** What sleeping on a monotonic clock would mean for an iteration of
    [Run]: whatever the system clock shows, the thread is released
    [Run_interval] seconds of true time after the iteration started. *)
Definition sleeps_for_interval (beacon epoch : Z) (enable : bool) : Prop :=
  forall (reading : Clock -> Z -> Z) (r : RunState) (t : Z) (fuel : nat),
    (forall t', reading steady_clock t' = t') ->
    0 <= Run_interval beacon epoch r ->
    (Z.to_nat (Run_interval beacon epoch r) <= fuel)%nat ->
    wake_instant fuel reading
      (snd (fst (Run_iteration beacon epoch enable
                               (reading system_clock t) r))) t
    = Some (t + Run_interval beacon epoch r).

(** A system clock that shows 1000 at instant 0 and is set back by an
    hour right after; the steady clock shows true time. *)
Definition clock_set_back (c : Clock) (t : Z) : Z :=
  match c with
  | steady_clock => t
  | system_clock => if t <? 1 then 1000 + t else 1000 + t - 3600
  end.

(** ** An executable BackendDelegate

    The theorems below hold for every implementation of
    [BackendDelegateOps]; this one runs the model on concrete inputs. *)

(** Modelled from the spec: BackendDelegate is implemented outside
    scheduler.cpp.  This is the BackendState of spec section 3 with the
    operations of section 4.B, as far as the spec pins them down: the
    profile lookup and the batch solver of [PrepareLoadModel] are replaced
    by a table [profile] giving, per GPU and session, the peak throughput
    and the memory of an instance; backup tables, overload and spill-out
    are left empty. *)
Module SpecBackend.
Record t : Type := mk {
  b_node_id : NodeId;
  b_ip : string;
  b_server_port : string;
  b_rpc_port : string;
  b_gpu_name : string;
  b_gpu_total_mem : Z;
  b_beacon_sec : Z;
  b_epoch_sec : Z;
  b_last_time : Z;
  b_workload_id : Z;
  b_model_table : list (string * InstanceInfo);
  b_rps : list (string * Q)
}.

Definition with_plan (wid : Z) (table : list (string * InstanceInfo))
           (b : t) : t :=
  mk (b_node_id b) (b_ip b) (b_server_port b) (b_rpc_port b)
     (b_gpu_name b) (b_gpu_total_mem b) (b_beacon_sec b) (b_epoch_sec b)
     (b_last_time b) wid table (b_rps b).

Definition with_table (table : list (string * InstanceInfo)) (b : t) : t :=
  with_plan (b_workload_id b) table b.

Definition gpu_used_mem (b : t) : Z :=
  fold_left (fun acc e => acc + memory_bytes (snd e)) (b_model_table b) 0.

Section Ops.
Context {DB : ModelDatabase}.
Variable profile : string -> ModelSession -> option (Q * Z).
Variable static_plan : YamlNode -> option InstanceInfo.

Definition new (id : NodeId) (ip sp rp gpu : string)
           (mem beacon epoch now : Z) : t :=
  mk id ip sp rp gpu mem beacon epoch now (-1) [] [].

(** [IsAlive <-> now - last_beacon <= 2 * beacon_interval] *)
Definition is_alive (b : t) (now : Z) : bool :=
  now - b_last_time b <=? 2 * b_beacon_sec b.

(** [IsIdle <-> model_table.empty() /\ workload_id == -1] *)
Definition is_idle (b : t) : bool :=
  match b_model_table b with
  | [] => b_workload_id b =? -1
  | _ :: _ => false
  end.

(** Steps 4 and 5 of [PrepareLoadModel]: reject when the memory does
    not fit; the packing score is [memory / gpu_total_mem].  The plan
    sustains [request_rate] when the peak throughput allows it. *)
Definition prepare (b : t) (sess : ModelSession) (request_rate : Q)
  : option (InstanceInfo * Q) :=
  match profile (b_gpu_name b) sess with
  | None => None
  | Some (peak, mem) =>
      if b_gpu_total_mem b - gpu_used_mem b <? mem then None
      else
        Some (mkInstanceInfo sess 1 1
                (if Qltb 0 request_rate && Qltb request_rate peak
                 then request_rate else peak) mem,
              (inject_Z mem / inject_Z (b_gpu_total_mem b))%Q)
  end.

Definition load (b : t) (inst : InstanceInfo) : t :=
  with_table
    (AMap.set String.eqb (ModelSessionToString (inst_session inst)) inst
              (b_model_table b)) b.

Definition load_yaml (b : t) (node : YamlNode) : t :=
  match static_plan node with
  | Some inst => load b inst
  | None => b
  end.

(** The head must already be loaded; the tail then shares its plan. *)
Definition load_prefix (b : t) (tail head : ModelSession) : t :=
  match AMap.find String.eqb (ModelSessionToString head)
                  (b_model_table b) with
  | None => b
  | Some inst =>
      with_table
        (AMap.emplace String.eqb (ModelSessionToString tail)
           (mkInstanceInfo tail (batch inst) (max_batch inst)
                           (throughput inst) 0)
           (b_model_table b)) b
  end.

Definition unload (b : t) (model_sess_id : string) : t :=
  with_table (AMap.erase String.eqb model_sess_id (b_model_table b)) b.

Definition model_throughput (b : t) (model_sess_id : string) : Q :=
  match AMap.find String.eqb model_sess_id (b_model_table b) with
  | Some inst => throughput inst
  | None => 0%Q
  end.

Definition update_throughput (b : t) (model_sess_id : string) (rate : Q)
  : Q * t :=
  (rate,
   with_table
     (AMap.update String.eqb model_sess_id
        (fun i => mkInstanceInfo (inst_session i) (batch i) (max_batch i)
                                 rate (memory_bytes i))
        (b_model_table b)) b).

Definition model_rps (b : t) (model_sess_id : string) : Q :=
  match AMap.find String.eqb model_sess_id (b_rps b) with
  | Some r => r
  | None => 0%Q
  end.

(** [Assign(other)]: accept the other backend's whole model table,
    and its static slot, if the GPU is the same and the memory fits. *)
Definition assign (b other : t) : option t :=
  if String.eqb (b_gpu_name b) (b_gpu_name other)
     && (gpu_used_mem other <=? b_gpu_total_mem b)
  then Some (with_plan (b_workload_id other) (b_model_table other) b)
  else None.

Definition ops : BackendDelegateOps t := {|
  new_BackendDelegate := new;
  node_id := b_node_id;
  workload_id := b_workload_id;
  set_workload_id := fun b wid => with_plan wid (b_model_table b) b;
  IsAlive := is_alive;
  IsIdle := is_idle;
  GetInfo := fun b =>
    mkBackendInfo (b_node_id b) (b_ip b) (b_server_port b) (b_rpc_port b);
  PrepareLoadModel := prepare;
  LoadModel_inst := load;
  LoadModel_yaml := load_yaml;
  LoadPrefixModel := load_prefix;
  UnloadModel := unload;
  UpdateModelThroughput := update_throughput;
  overload := fun _ => false;
  SpillOutWorkload := fun b => ([], b);
  GetModelSessions := fun b => map fst (b_model_table b);
  GetBackupModelSessions := fun _ => [];
  GetModelThroughput := model_throughput;
  GetModelRps := model_rps;
  AddBackupForModel := fun b _ _ => b;
  RemoveBackupForModel := fun b _ _ => b;
  Assign := assign;
  UpdateModelTableRpc := fun b => b
|}.
End Ops.
End SpecBackend.

(** ** Sorting algorithms that meet the contract of [std::sort] *)

Section Sorts.
Context {A : Type} (comp : A -> A -> bool).


(** Insertion before the first element that is not ordered before [x]. *)
Fixpoint insert_before (x : A) (l : list A) : list A :=
  match l with
  | [] => [x]
  | y :: l' => if comp y x then y :: insert_before x l' else x :: l
  end.

(** Equal elements keep their order. *)
Definition stable_sort (l : list A) : list A :=
  fold_right insert_before [] l.

End Sorts.

Definition StableSort : StdSort := {| std_sort := @stable_sort |}.


(** ** Predicates used to state the properties *)

Section Candidates.
Context {B : Type} {BO : BackendDelegateOps B}.
Variables (model_sess : ModelSession) (request_rate : Q)
          (skips : list NodeId) (now : Z).

(** A backend [FindBestBackend] may return, with the plan and the
    occupancy [PrepareLoadModel] computed for it: alive, dynamic, not
    skipped, accepted by [PrepareLoadModel], and idle when the request
    rate is zero. *)
Definition eligible (c : (NodeId * B) * InstanceInfo * Q) : Prop :=
  let b := snd (fst (fst c)) in
  ~ In (node_id b) skips /\
  IsAlive b now = true /\
  workload_id b < 0 /\
  PrepareLoadModel b model_sess request_rate = Some (snd (fst c), snd c) /\
  ((request_rate == 0)%Q -> IsIdle b = true).

Definition candidate_in (backends : list (NodeId * B))
           (c : (NodeId * B) * InstanceInfo * Q) : Prop :=
  In (fst (fst c)) backends /\ eligible c.

(** What the scan knows after the backends [seen]. *)
Definition best_of (score : (NodeId * B) * InstanceInfo * Q -> Q)
           (seen : list (NodeId * B)) (l : ModelLoad (B:=B)) : Prop :=
  match load_backend l with
  | None => forall c, ~ candidate_in seen c
  | Some e =>
      candidate_in seen (e, load_inst l, load_occupancy l) /\
      forall c, candidate_in seen c ->
                (score c <= score (e, load_inst l, load_occupancy l))%Q
  end.

Definition by_throughput (c : (NodeId * B) * InstanceInfo * Q) : Q :=
  throughput (snd (fst c)).
Definition by_occupancy (c : (NodeId * B) * InstanceInfo * Q) : Q := snd c.
End Candidates.

(** The allocation loop of [LoadModel] meets a [FindBestBackend] that
    returns no backend: at its first call, or after calls that returned
    backends. *)
Section AllocationFails.
Context {B : Type} {BO : BackendDelegateOps B} {FL : Float32}.
Variables (st : Scheduler B) (model_sess : ModelSession) (now : Z).

Inductive loop_fails : Q -> list NodeId -> Prop :=
| loop_fails_now : forall workload used inst,
    (0 < workload)%Q ->
    FindBestBackend st model_sess workload used now = (None, inst) ->
    loop_fails workload used
| loop_fails_later : forall workload used backend inst,
    (0 < workload)%Q ->
    FindBestBackend st model_sess workload used now
    = (Some backend, inst) ->
    loop_fails (to_float (workload - throughput inst)%Q)
               (ZSet.insert (node_id (snd backend)) used) ->
    loop_fails workload used.

(** The backends chosen so far: distinct node ids of [backends_]. *)
Definition used_ok (used : list NodeId) : Prop :=
  NoDup used /\
  incl used (map (fun e => node_id (snd e)) (backends_ st)).

Definition allocation_fails (workload : Q) : Prop :=
  ((workload == 0)%Q /\
   fst (FindBestBackend st model_sess workload [] now) = None)
  \/ (~ (workload == 0)%Q /\ loop_fails workload []).
End AllocationFails.

(** The delegates of a session's serving backends, and the sum of the
    request rates they report for a session. *)
Section ServingBackends.
Context {B : Type} {BO : BackendDelegateOps B}.

Fixpoint serving_backends (st : Scheduler B) (tps : list (NodeId * Q))
  : option (list B) :=
  match tps with
  | [] => Some []
  | e :: rest =>
      match AMap.find Z.eqb (fst e) (backends_ st),
            serving_backends st rest with
      | Some b, Some bs => Some (b :: bs)
      | _, _ => None
      end
  end.

Definition rps_sum (model_sess_id : string) (bs : list B) (from : Q) : Q :=
  fold_left (fun acc b => (acc + GetModelRps b model_sess_id)%Q) bs from.

(** The session ids that [table] maps to the record [p], in the order
    of the table. *)
Definition ids_of (table : list (string * SessionInfoPtr))
           (p : SessionInfoPtr) : list string :=
  map fst (filter (fun e => Nat.eqb (snd e) p) table).

(** The history of a record served by [bs] after one reading for each
    of [ids], in this order. *)
Definition pushed_history (history_len : Z) (bs : list B)
           (ids : list string) (history : list Q) : list Q :=
  fold_left (fun h id => push_rps history_len h (rps_sum id bs 0%Q))
            ids history.

(** Every session record keeps at most [history_len_] readings. *)
Definition history_bounded (st : Scheduler B) : Prop :=
  forall p si, deref st p = Some si ->
               Z.of_nat (List.length (rps_history si)) <= history_len_ st.
End ServingBackends.

(** ** The prefix precondition on the calls issued to the backends

    Read along the log: the heads each backend has been told to load
    with [LoadModel] and not to unload since.  A backend that was handed
    a plan by a static workload entry or by [Assign] holds sessions the
    log does not name; nothing is required of it. *)
Section PrefixPrecondition.
Context {DB : ModelDatabase}.

Record Loaded : Type := mkLoaded {
  heads : list (NodeId * string);
  opaque : list NodeId
}.

Definition Loaded_empty : Loaded := mkLoaded [] [].

Definition same_head (b : NodeId) (id : string) (e : NodeId * string)
  : bool :=
  Z.eqb b (fst e) && String.eqb id (snd e).

Definition prefix_step (s : Loaded) (e : NodeId * Instr) : option Loaded :=
  let b := fst e in
  match snd e with
  | ILoadModel inst =>
      Some (mkLoaded
              ((b, ModelSessionToString (inst_session inst)) :: heads s)
              (opaque s))
  | ILoadPrefixModel _ head =>
      if ZSet.mem b (opaque s)
         || existsb (same_head b (ModelSessionToString head)) (heads s)
      then Some s else None
  | IUnloadModel id =>
      Some (mkLoaded
              (filter (fun h => negb (same_head b id h)) (heads s))
              (opaque s))
  | ILoadModelYaml _ | IAssign _ =>
      Some (mkLoaded (heads s) (b :: opaque s))
  | IUpdateModelTableRpc => Some s
  end.

Fixpoint prefix_run (s : Loaded) (log : list (NodeId * Instr))
  : option Loaded :=
  match log with
  | [] => Some s
  | e :: rest =>
      match prefix_step s e with
      | Some s' => prefix_run s' rest
      | None => None
      end
  end.

(** Every [LoadPrefixModel(tail, head)] of the log comes after a
    [LoadModel(head)] on the same backend and no [UnloadModel(head)]
    in between. *)
Definition prefix_ok (log : list (NodeId * Instr)) : bool :=
  match prefix_run Loaded_empty log with
  | Some _ => true
  | None => false
  end.

(** The same for a stretch of a log, whatever came before it. *)
Definition prefix_safe (log : list (NodeId * Instr)) : Prop :=
  forall s, exists s', prefix_run s log = Some s'.
End PrefixPrecondition.

(** [PrepareLoadModel] plans the session it is asked for. *)
Definition prepares_requested {B : Type} {BO : BackendDelegateOps B}
           {DB : ModelDatabase} : Prop :=
  forall (b : B) sess rate inst occ,
    PrepareLoadModel b sess rate = Some (inst, occ) ->
    ModelSessionToString (inst_session inst) = ModelSessionToString sess.

(** The calls the prefix-attach path of [LoadModel] issues. *)
Definition attach_calls (model_sess share_model_sess : ModelSession)
           (tps : list (NodeId * Q)) : list (NodeId * Instr) :=
  flat_map
    (fun e => [(fst e, ILoadPrefixModel model_sess share_model_sess);
               (fst e, IUpdateModelTableRpc)])
    tps.



(** ** Further predicates *)

(** The loop of [Run] after one iteration per reading of [nows]. *)
Definition Run_loop (beacon epoch : Z) (enable : bool) (nows : list Z)
  : RunState :=
  fold_left (fun r now => snd (Run_iteration beacon epoch enable now r))
            nows Run_initial.

(** The marks are multiples of their intervals, at most one interval
    behind [elapse_sec]. *)
Definition Run_on_schedule (beacon epoch : Z) (r : RunState) : Prop :=
  0 <= last_beacon r <= elapse_sec r /\
  0 <= last_epoch r <= elapse_sec r /\
  last_beacon r mod beacon = 0 /\
  last_epoch r mod epoch = 0 /\
  elapse_sec r <= last_beacon r + beacon /\
  elapse_sec r <= last_epoch r + epoch.

(** Backend [k] is registered as [b], and the record [p] holds [tp] for
    it in [backend_throughputs]. *)
Definition entry_fixed {B : Type} (p : SessionInfoPtr) (k : NodeId)
           (tp : option Q) (b : B) (st : Scheduler B) : Prop :=
  AMap.find Z.eqb k (backends_ st) = Some b /\
  option_map (fun s => AMap.find Z.eqb k (backend_throughputs s))
             (deref st p) = Some tp.

(** What step 1 of [RemoveBackend] does to a record. *)
Definition detached (node : NodeId) (s : SessionInfo) : SessionInfo :=
  set_backend_throughputs
    (AMap.erase Z.eqb node (backend_throughputs s)) s.

(** The throughput a leaving backend reports for the session ids, of
    [model_sessions], that the session table maps to the record [p]. *)
Definition returned_to {B : Type} {BO : BackendDelegateOps B}
           (backend : B) (table : list (string * SessionInfoPtr))
           (model_sessions : list string) (p : SessionInfoPtr) : Q :=
  fold_right
    (fun id acc =>
       match AMap.find String.eqb id table with
       | Some q =>
           if Nat.eqb q p then (GetModelThroughput backend id + acc)%Q
           else acc
       | None => acc
       end)
    0%Q model_sessions.

(** The route [r] is among the updates collected for frontend [fid]. *)
Definition route_pushed (frontend_updates : list (NodeId * list ModelRouteProto))
           (fid : NodeId) (r : ModelRouteProto) : Prop :=
  exists routes,
    AMap.find Z.eqb fid frontend_updates = Some routes /\ In r routes.

(** [r] is the route of a session of the group [group] that frontend
    [fid] subscribes to. *)
Definition route_due_in {B : Type} {BO : BackendDelegateOps B}
           {DB : ModelDatabase} (st : Scheduler B) (group : SessionGroup)
           (fid : NodeId) (r : ModelRouteProto) : Prop :=
  exists model_sess subs,
    In model_sess group /\
    AMap.find String.eqb (ModelSessionToString model_sess)
              (session_subscribers_ st) = Some subs /\
    In fid subs /\
    GetModelRoute st (ModelSessionToString model_sess) = Ok r.

(** The same for a session of one of the changed records. *)
Definition route_due {B : Type} {BO : BackendDelegateOps B}
           {DB : ModelDatabase} (st : Scheduler B)
           (sessions : list SessionInfoPtr)
           (fid : NodeId) (r : ModelRouteProto) : Prop :=
  exists p si,
    In p sessions /\ deref st p = Some si /\
    route_due_in st (model_sessions si) fid r.

(** No record behind [p] lists backend [node]. *)
Definition erased_at {B : Type} (node : NodeId) (st : Scheduler B)
           (p : SessionInfoPtr) : Prop :=
  forall s, deref st p = Some s ->
            AMap.find Z.eqb node (backend_throughputs s) = None.

(** The record behind [p] lists backend [node]. *)
Definition listed_at {B : Type} (node : NodeId) (st : Scheduler B)
           (p : SessionInfoPtr) : Prop :=
  exists s, deref st p = Some s /\
            AMap.mem Z.eqb node (backend_throughputs s) = true.

(** Every frontend is stored under its own node id, and under no other
    key. *)
Definition frontends_keyed {B : Type} (st : Scheduler B) : Prop :=
  (forall e, In e (frontends_ st) ->
             FrontendDelegate.node_id (snd e) = fst e) /\
  NoDup (map fst (frontends_ st)).

(** The frontend [node] is the only subscriber the session has left. *)
Definition last_subscriber {B : Type} (node : NodeId) (st : Scheduler B)
           (model_sess_id : string) : bool :=
  match AMap.find String.eqb model_sess_id (session_subscribers_ st) with
  | Some subs =>
      match ZSet.erase node subs with [] => true | _ :: _ => false end
  | None => false
  end.

(** [session_table_.at(id)->has_static_workload]. *)
Definition session_static {B : Type} (st : Scheduler B)
           (model_sess_id : string) : bool :=
  match session_at st model_sess_id with
  | Ok ps => has_static_workload (snd ps)
  | _ => false
  end.

(** ** A small cluster to run the model on

    Three sessions that differ in the model only; the session id and the
    model id are the model's name.  [vgg16], [vgg_face] and [vgg_s]
    share a prefix.  Every GPU serves every model at up to 100 requests
    per second from 4 units of memory. *)
Module Example.
Local Open Scope string_scope.

Definition session (name : string) : ModelSession :=
  mkModelSession "caffe" name 1 100 0 0.

Definition prefix_group (model_id : string) : list string :=
  if String.eqb model_id "vgg_s" then ["vgg_face"; "vgg16"]
  else if String.eqb model_id "vgg_face" then ["vgg16"; "vgg_s"]
  else if String.eqb model_id "vgg16" then ["vgg_face"; "vgg_s"]
  else [].

Definition DB : ModelDatabase := {|
  GetModelInfo := fun _ => Some (mkModelInfo false 0 0);
  GetPrefixShareModels := prefix_group;
  ModelSessionToModelID := model_name;
  ModelSessionToString := model_name;
  ParseModelID := fun id s =>
    mkModelSession "caffe" id 1 (latency_sla s)
                   (image_height s) (image_width s);
  ParseModelSession := session;
  RemoveFromSessionGroup := fun g id =>
    filter (fun s => negb (String.eqb (model_name s) id)) g
|}.

Definition profile (gpu : string) (sess : ModelSession) : option (Q * Z) :=
  Some (100%Q, 4).

Definition ops : BackendDelegateOps SpecBackend.t :=
  SpecBackend.ops (DB:=DB) profile (fun _ => None).

(** A square root that is exact on ratios of perfect squares. *)
Definition LM : Libm := {|
  sqrt := fun x =>
    let r := Qred x in
    (inject_Z (Z.sqrt (Qnum r)) / inject_Z (Z.sqrt (Z.pos (Qden r))))%Q
|}.

Definition BEACON_INTERVAL_SEC : Z := 2.

Definition FL : Float32 := binary32.

(** The scheduler started with [--beacon 2 --epoch 10]. *)
Definition started : Scheduler SpecBackend.t :=
  Scheduler_new 2 10 true true.

Definition backend_request (id mem : Z) : RegisterRequest :=
  mkRegisterRequest BACKEND_NODE id "8001" "8002" "TITAN" mem.

Definition frontend_request (id : Z) : RegisterRequest :=
  mkRegisterRequest FRONTEND_NODE id "9001" "9002" "" 0.

Definition load_request (frontend : Z) (name : string) (workload : Q)
  : LoadModelRequest :=
  mkLoadModelRequest frontend (session name) workload.

(** The requests a cluster can send, and the scheduler serving them
    one after the other at instant 0. *)
Inductive Request : Type :=
| RRegister (request : RegisterRequest)
| RLoadModel (request : LoadModelRequest)
| RUnregister (type : NodeType) (id : NodeId).

Definition serve (S : StdSort) (st : Scheduler SpecBackend.t) (r : Request)
  : result (Scheduler SpecBackend.t) :=
  match r with
  | RRegister request =>
      x <- Register (BO:=ops) (DB:=DB) (FL:=FL) (SS:=S) BEACON_INTERVAL_SEC
                    16 0 "10.0.0.1" request st ;;
      Ok (fst x)
  | RLoadModel request =>
      x <- LoadModel (BO:=ops) (DB:=DB) (FL:=FL) st request 0 ;;
      Ok (fst x)
  | RUnregister BACKEND_NODE id =>
      UnregisterBackend (BO:=ops) (DB:=DB) (FL:=FL) (SS:=S) 16 0 id st
  | RUnregister FRONTEND_NODE id =>
      UnregisterFrontend (BO:=ops) (DB:=DB) id st
  end.

Definition run (S : StdSort) (requests : list Request)
  : result (Scheduler SpecBackend.t) :=
  result_fold (serve S) requests started.

(** One frontend and two backends, of 8 and 16 units of memory. *)
Definition two_backends : list Request :=
  [RRegister (frontend_request 1);
   RRegister (backend_request 10 8);
   RRegister (backend_request 11 16)].

Definition state_after (S : StdSort) (requests : list Request)
  : Scheduler SpecBackend.t :=
  match run S requests with
  | Ok st => st
  | _ => started
  end.

Definition cluster : Scheduler SpecBackend.t :=
  Eval vm_compute in state_after StableSort two_backends.

(** Frontend 1 has loaded [vgg16] for 50 requests per second; frontend
    2 has registered. *)
Definition serving : Scheduler SpecBackend.t :=
  Eval vm_compute in
    state_after StableSort
      (two_backends
         ++ [RLoadModel (load_request 1 "vgg16" 50%Q);
             RRegister (frontend_request 2)]).

(** Frontend 1 loads [vgg16], then [vgg_face], then [vgg_s]; the
    prefix group of [vgg_s] lists [vgg_face] before [vgg16]. *)
Definition chain : list Request :=
  two_backends
    ++ [RLoadModel (load_request 1 "vgg16" 50%Q);
        RLoadModel (load_request 1 "vgg_face" 50%Q);
        RLoadModel (load_request 1 "vgg_s" 50%Q)].

(** [vgg16] with [vgg_face] attached, and 30 requests per second of
    the group waiting for a backend. *)
Definition pending : Scheduler SpecBackend.t :=
  Eval vm_compute in
    on_session 0%nat (set_unassigned_workload 30%Q)
      (state_after StableSort
         (two_backends
            ++ [RLoadModel (load_request 1 "vgg16" 50%Q);
                RLoadModel (load_request 1 "vgg_face" 50%Q)])).

(** Two sessions of 50 requests per second each, [resnet] and
    [inception], on two backends with room for one instance each; both
    backends leave, and a third one of the same size is put into
    [backends_], as [RegisterBackend] does before it calls
    [AddBackend]. *)
Definition orphaned : Scheduler SpecBackend.t :=
  Eval vm_compute in
    state_after StableSort
      [RRegister (frontend_request 1);
       RRegister (backend_request 10 4);
       RLoadModel (load_request 1 "resnet" 50%Q);
       RRegister (backend_request 11 4);
       RLoadModel (load_request 1 "inception" 50%Q);
       RUnregister BACKEND_NODE 10;
       RUnregister BACKEND_NODE 11].



(** Frontend 1 loads [vgg16] and leaves; frontend 2 registers. *)
Definition abandoned : Scheduler SpecBackend.t :=
  Eval vm_compute in
    state_after StableSort
      (two_backends
         ++ [RLoadModel (load_request 1 "vgg16" 50%Q);
             RUnregister FRONTEND_NODE 1;
             RRegister (frontend_request 2)]).

(** Two static workloads, the first one held by a backend 7; backend
    12 is in [backends_], as [RegisterBackend] leaves it before it
    calls [AddBackend]. *)
Definition configured : Scheduler SpecBackend.t :=
  Eval vm_compute in
    set_backends
      (AMap.set Z.eqb 12
         (SpecBackend.new 12 "10.0.0.1" "8001" "8002" "TITAN" 4 2 10 0)
         [])
      (set_assigned_static_workloads [(0, 7)]
         (LoadWorkloadFile [["vgg16"]; ["resnet"]] started)).

(** [configured] after [AddBackend] gave backend 12 its slot. *)
Definition slotted : Scheduler SpecBackend.t :=
  Eval vm_compute in
    match AddBackend (BO:=ops) (DB:=DB) (SS:=StableSort) 16 0 12
                     configured with
    | Ok st => st
    | _ => configured
    end.

(** [serving], after backend 10 reported 42 requests per second for
    [vgg16]. *)
Definition reporting : Scheduler SpecBackend.t :=
  Eval vm_compute in
    on_backend 10
      (fun b =>
         SpecBackend.mk (SpecBackend.b_node_id b) (SpecBackend.b_ip b)
           (SpecBackend.b_server_port b) (SpecBackend.b_rpc_port b)
           (SpecBackend.b_gpu_name b) (SpecBackend.b_gpu_total_mem b)
           (SpecBackend.b_beacon_sec b) (SpecBackend.b_epoch_sec b)
           (SpecBackend.b_last_time b) (SpecBackend.b_workload_id b)
           (SpecBackend.b_model_table b) [("vgg16", 42%Q)])
      serving.


(** [serving] with backend 10 holding static workload 0, after five
    beacons of 10 requests per second for [vgg16]. *)
Definition pinned : Scheduler SpecBackend.t :=
  Eval vm_compute in
    on_backend 10
      (fun b => SpecBackend.with_plan 0 (SpecBackend.b_model_table b) b)
      (on_session 0%nat (set_rps_history [10; 10; 10; 10; 10]%Q) serving).

(** [serving], with a last beacon of frontend 2 at instant 98. *)
Definition lapsed : Scheduler SpecBackend.t :=
  Eval vm_compute in
    on_frontend 2 (fun f => FrontendDelegate.Tick f 98) serving.

End Example.

(** * Properties *)

Unset Implicit Arguments.

(** ** Rational comparisons *)

Lemma Qltb_lt (x y : Q) : Qltb x y = true <-> (x < y)%Q.
Proof.
  unfold Qltb. rewrite negb_true_iff. split; intro H.
  - apply Qnot_le_lt. intro L. apply Qle_bool_iff in L. congruence.
  - destruct (Qle_bool y x) eqn:E; [|reflexivity].
    apply Qle_bool_iff in E. exfalso. exact (Qlt_not_le _ _ H E).
Qed.

Lemma Qltb_ge (x y : Q) : Qltb x y = false <-> (y <= x)%Q.
Proof.
  unfold Qltb. rewrite negb_false_iff. apply Qle_bool_iff.
Qed.

Lemma ZSet_mem_In (x : Z) (s : list Z) : ZSet.mem x s = true <-> In x s.
Proof.
  unfold ZSet.mem. rewrite existsb_exists. split.
  - intros [y [Hy E]]. apply Z.eqb_eq in E. now subst.
  - intro H. exists x. split; [assumption | apply Z.eqb_refl].
Qed.

Lemma NSet_mem_In (x : nat) (s : list nat) : NSet.mem x s = true <-> In x s.
Proof.
  unfold NSet.mem. rewrite existsb_exists. split.
  - intros [y [Hy E]]. apply Nat.eqb_eq in E. now subst.
  - intro H. exists x. split; [assumption | apply Nat.eqb_refl].
Qed.

(** ** [FindBestBackend] *)

Section FindBestBackendSpec.
Context {B : Type} {BO : BackendDelegateOps B} {FL : Float32}.
Variables (model_sess : ModelSession) (request_rate : Q)
          (skips : list NodeId) (now : Z).

Local Notation elig := (eligible model_sess request_rate skips now).
Local Notation cand_in := (candidate_in model_sess request_rate skips now).
Local Notation best := (best_of model_sess request_rate skips now).

Lemma candidate_in_app_l seen x c :
  cand_in seen c -> cand_in (seen ++ [x]) c.
Proof.
  intros [Hin He]. split; [|exact He]. apply in_or_app. now left.
Qed.

Lemma candidate_in_snoc seen x c :
  cand_in (seen ++ [x]) c ->
  cand_in seen c \/ (fst (fst c) = x /\ elig c).
Proof.
  intros [Hin He]. apply in_app_or in Hin. destruct Hin as [Hin | Hin].
  - left. now split.
  - right. destruct Hin as [Hin | []]. now split.
Qed.

(** Replacing the running best by a strictly better new candidate, or
    keeping it against one that is not better. *)
Lemma best_of_step score seen x l inst occ :
  best score seen l ->
  elig (x, inst, occ) ->
  (forall c, fst (fst c) = x -> elig c -> c = (x, inst, occ)) ->
  best score (seen ++ [x])
    (if is_null (load_backend l)
        || Qltb (score (match load_backend l with
                        | Some e => (e, load_inst l, load_occupancy l)
                        | None => (x, load_inst l, load_occupancy l)
                        end))
                (score (x, inst, occ))
     then (Some x, inst, occ) else l).
Proof.
  intros Hbest Hel Huniq. unfold best in *.
  destruct l as [[lb li] lo]. unfold load_backend, load_inst,
    load_occupancy in *. simpl in *.
  destruct lb as [e|]; simpl.
  - destruct Hbest as [Hc Hmax].
    destruct (Qltb (score (e, li, lo)) (score (x, inst, occ))) eqn:E; simpl.
    + apply Qltb_lt in E. split.
      * split; [apply in_or_app; right; now left | exact Hel].
      * intros c Hcand. apply candidate_in_snoc in Hcand.
        destruct Hcand as [Hold | [Hx Hec]].
        -- apply Qlt_le_weak. eapply Qle_lt_trans; [apply Hmax, Hold | exact E].
        -- rewrite (Huniq c Hx Hec). apply Qle_refl.
    + apply Qltb_ge in E. split.
      * now apply candidate_in_app_l.
      * intros c Hcand. apply candidate_in_snoc in Hcand.
        destruct Hcand as [Hold | [Hx Hec]].
        -- now apply Hmax.
        -- rewrite (Huniq c Hx Hec). exact E.
  - split.
    + split; [apply in_or_app; right; now left | exact Hel].
    + intros c Hcand. apply candidate_in_snoc in Hcand.
      destruct Hcand as [Hold | [Hx Hec]].
      * exfalso. exact (Hbest c Hold).
      * rewrite (Huniq c Hx Hec). apply Qle_refl.
Qed.

Lemma best_of_skip score seen x l :
  best score seen l ->
  (forall c, fst (fst c) = x -> ~ elig c) ->
  best score (seen ++ [x]) l.
Proof.
  intros Hbest Hno. unfold best in *.
  destruct (load_backend l) as [e|].
  - destruct Hbest as [Hc Hmax]. split.
    + now apply candidate_in_app_l.
    + intros c Hcand. apply candidate_in_snoc in Hcand.
      destruct Hcand as [Hold | [Hx Hec]]; [now apply Hmax|].
      exfalso. exact (Hno c Hx Hec).
  - intros c Hcand. apply candidate_in_snoc in Hcand.
    destruct Hcand as [Hold | [Hx Hec]]; [exact (Hbest c Hold)|].
    exact (Hno c Hx Hec).
Qed.

Lemma FindBestBackend_visit_best seen x acc :
  best by_throughput seen (fst acc) ->
  best by_occupancy seen (snd acc) ->
  let acc' := FindBestBackend_visit model_sess request_rate skips now acc x in
  best by_throughput (seen ++ [x]) (fst acc') /\
  best by_occupancy (seen ++ [x]) (snd acc').
Proof.
  intros Htp Hocc. destruct acc as [tp occ]. simpl in Htp, Hocc.
  unfold FindBestBackend_visit.
  assert (Hskip : (forall c, fst (fst c) = x -> ~ elig c) ->
                  best by_throughput (seen ++ [x]) tp /\
                  best by_occupancy (seen ++ [x]) occ).
  { intro Hno. split; now apply best_of_skip. }
  destruct (ZSet.mem (node_id (snd x)) skips) eqn:Es.
  { simpl. apply Hskip. intros [[e i] o] Hx (Hs & _). simpl in *. subst e.
    apply Hs. now apply ZSet_mem_In. }
  destruct (IsAlive (snd x) now) eqn:Ea; simpl.
  2:{ apply Hskip. intros [[e i] o] Hx (_ & Hal & _). simpl in *. subst e.
      congruence. }
  destruct (0 <=? workload_id (snd x)) eqn:Ew; simpl.
  { apply Hskip. intros [[e i] o] Hx (_ & _ & Hw & _). simpl in *. subst e.
    apply Z.leb_le in Ew. lia. }
  destruct (Qeq_bool request_rate 0 && negb (IsIdle (snd x))) eqn:Ei.
  { simpl. apply Hskip. intros [[e i] o] Hx (_ & _ & _ & _ & Hid).
    simpl in *. subst e. apply andb_true_iff in Ei. destruct Ei as [Ez En].
    apply Qeq_bool_iff in Ez. rewrite (Hid Ez) in En. discriminate. }
  destruct (PrepareLoadModel (snd x) model_sess request_rate)
    as [[tmp_info occupancy]|] eqn:Ep.
  2:{ simpl. apply Hskip. intros [[e i] o] Hx (_ & _ & _ & Hp & _).
      simpl in *. subst e. congruence. }
  assert (Hel : elig (x, tmp_info, occupancy)).
  { unfold elig. simpl. repeat split.
    - intro Hin. apply ZSet_mem_In in Hin. congruence.
    - exact Ea.
    - apply Z.leb_gt in Ew. exact Ew.
    - exact Ep.
    - intro Hz. apply Qeq_bool_iff in Hz. rewrite Hz in Ei. simpl in Ei.
      now apply negb_false_iff in Ei. }
  assert (Huniq : forall c, fst (fst c) = x -> elig c ->
                            c = (x, tmp_info, occupancy)).
  { intros [[e i] o] Hx (_ & _ & _ & Hp & _). simpl in *. subst e.
    rewrite Ep in Hp. now inversion Hp. }
  simpl. split.
  - pose proof (@best_of_step by_throughput seen x tp tmp_info occupancy
                             Htp Hel Huniq) as H.
    unfold by_throughput in H. simpl in H.
    destruct (load_backend tp); exact H.
  - pose proof (@best_of_step by_occupancy seen x occ tmp_info occupancy
                             Hocc Hel Huniq) as H.
    unfold by_occupancy in H. simpl in H.
    destruct (load_backend occ); exact H.
Qed.

Lemma FindBestBackend_scan_best backends :
  forall seen acc,
    best by_throughput seen (fst acc) ->
    best by_occupancy seen (snd acc) ->
    let acc' :=
      FindBestBackend_scan model_sess request_rate skips now backends acc in
    best by_throughput (seen ++ backends) (fst acc') /\
    best by_occupancy (seen ++ backends) (snd acc').
Proof.
  induction backends as [|x rest IH]; intros seen acc Htp Hocc.
  - simpl. rewrite app_nil_r. now split.
  - simpl.
    destruct (@FindBestBackend_visit_best seen x acc Htp Hocc) as [Htp' Hocc'].
    specialize (IH (seen ++ [x]) _ Htp' Hocc').
    rewrite <- app_assoc in IH. exact IH.
Qed.

(** A backend that [FindBestBackend] returns is a candidate, with the
    plan returned for it. *)
Lemma FindBestBackend_candidate (st : Scheduler B) e inst :
  FindBestBackend st model_sess request_rate skips now = (Some e, inst) ->
  exists occ, cand_in (backends_ st) (e, inst, occ).
Proof.
  unfold FindBestBackend. intro H.
  assert (H0 : forall score, best score [] (ModelLoad_default (B:=B))).
  { intros score c [[] _]. }
  pose proof (@FindBestBackend_scan_best (backends_ st) []
                (ModelLoad_default, ModelLoad_default)
                (H0 _) (H0 _)) as Hscan.
  simpl in Hscan.
  destruct (FindBestBackend_scan model_sess request_rate skips now
              (backends_ st) (ModelLoad_default, ModelLoad_default))
    as [tp occ].
  simpl in Hscan. destruct Hscan as [Htp Hocc].
  unfold best_of in Htp, Hocc.
  destruct tp as [[tb ti] to]. destruct occ as [[ob oi] oo].
  unfold load_backend, load_inst, load_occupancy in *. simpl in *.
  destruct (Qeq_bool request_rate 0);
    [|destruct (Qltb (throughput ti) request_rate)];
    inversion H; subst.
  - exists to. exact (proj1 Htp).
  - exists to. exact (proj1 Htp).
  - exists oo. exact (proj1 Hocc).
Qed.
End FindBestBackendSpec.

Section FindBestBackendClaim.
Context {B : Type} {BO : BackendDelegateOps B} {FL : Float32}.

(** C3.  [FindBestBackend] returns no backend exactly when no backend
    of [backends_] is alive, dynamic ([workload_id < 0]), outside
    [skips], accepted by [PrepareLoadModel] (and idle when the request
    rate is zero).  Otherwise it returns such a backend with the plan
    [PrepareLoadModel] computed for it, and: when the request rate is
    zero, its throughput is the largest among these candidates; when
    the rate is positive and no candidate reaches it, its throughput
    is the largest; when the rate is positive and some candidate
    reaches it, its occupancy is the largest. *)
Theorem FindBestBackend_selects :
  forall (st : Scheduler B) (model_sess : ModelSession) (request_rate : Q)
         (skips : list NodeId) (now : Z),
    let candidate :=
      candidate_in model_sess request_rate skips now (backends_ st) in
    match FindBestBackend st model_sess request_rate skips now with
    | (None, _) => forall c, ~ candidate c
    | (Some e, inst) =>
        exists occ,
          candidate (e, inst, occ) /\
          ((request_rate == 0)%Q ->
           forall c, candidate c ->
                     (by_throughput c <= throughput inst)%Q) /\
          ((0 < request_rate)%Q ->
           (forall c, candidate c -> (by_throughput c < request_rate)%Q) ->
           forall c, candidate c ->
                     (by_throughput c <= throughput inst)%Q) /\
          ((0 < request_rate)%Q ->
           (exists c, candidate c /\ (request_rate <= by_throughput c)%Q) ->
           forall c, candidate c -> (by_occupancy c <= occ)%Q)
    end.
Proof.
  intros st model_sess request_rate skips now candidate.
  unfold FindBestBackend.
  assert (H0 : forall score,
             best_of model_sess request_rate skips now score []
                     (ModelLoad_default (B:=B))).
  { intros score c [[] _]. }
  pose proof (@FindBestBackend_scan_best B BO model_sess request_rate skips
                now (backends_ st) []
                (ModelLoad_default, ModelLoad_default)
                (H0 _) (H0 _)) as Hscan.
  simpl in Hscan.
  destruct (FindBestBackend_scan model_sess request_rate skips now
              (backends_ st) (ModelLoad_default, ModelLoad_default))
    as [tp occ].
  simpl in Hscan. destruct Hscan as [Htp Hocc].
  unfold best_of in Htp, Hocc.
  destruct tp as [[tb ti] to]. destruct occ as [[ob oi] oo].
  unfold load_backend, load_inst, load_occupancy in *. simpl in *.
  fold candidate in Htp, Hocc.
  assert (Hnone : tb = None -> ob = None).
  { intros ->. destruct ob as [e|]; [|reflexivity].
    destruct Hocc as [Hc _]. exfalso. exact (Htp _ Hc). }
  destruct (Qeq_bool request_rate 0) eqn:Ez.
  - (* request_rate == 0 *)
    apply Qeq_bool_iff in Ez.
    destruct tb as [e|]; [|exact Htp].
    destruct Htp as [Hc Hmax]. exists to. split; [exact Hc|].
    split; [|split].
    + intros _ c Hcand. exact (Hmax c Hcand).
    + intros Hpos. exfalso. rewrite Ez in Hpos.
      exact (Qlt_irrefl _ Hpos).
    + intros Hpos. exfalso. rewrite Ez in Hpos.
      exact (Qlt_irrefl _ Hpos).
  - apply Qeq_bool_neq in Ez.
    destruct (Qltb (throughput ti) request_rate) eqn:El.
    + (* the best throughput is below the request rate *)
      apply Qltb_lt in El.
      destruct tb as [e|]; [|exact Htp].
      destruct Htp as [Hc Hmax]. exists to. split; [exact Hc|].
      split; [|split].
      * intro Hz. contradiction.
      * intros _ _ c Hcand. exact (Hmax c Hcand).
      * intros _ [c [Hcand Hreach]]. exfalso.
        apply (Qlt_irrefl request_rate).
        eapply Qle_lt_trans; [exact Hreach|].
        eapply Qle_lt_trans; [exact (Hmax c Hcand)|exact El].
    + (* some backend reaches the request rate *)
      apply Qltb_ge in El.
      destruct ob as [e|].
      * destruct Hocc as [Hc Hmax]. exists oo. split; [exact Hc|].
        split; [|split].
        -- intro Hz. contradiction.
        -- intros _ Hall c Hcand. exfalso.
           destruct tb as [e'|].
           ++ destruct Htp as [Hc' _].
              apply (Qlt_irrefl request_rate).
              eapply Qle_lt_trans; [exact El|]. exact (Hall _ Hc').
           ++ exact (Htp _ Hcand).
        -- intros _ _ c Hcand. exact (Hmax c Hcand).
      * exact Hocc.
Qed.
End FindBestBackendClaim.

(** [FindBestBackend_selects] on the example cluster: a request for 50
    requests per second is reached by both backends and goes to backend
    10, the one the instance fills most. *)
Lemma FindBestBackend_selects_witness :
  exists e inst,
    FindBestBackend (BO:=Example.ops) Example.cluster
                    (Example.session "vgg16") 50%Q [] 0 = (Some e, inst) /\
    fst e = 10 /\
    forall c,
      candidate_in (BO:=Example.ops) (Example.session "vgg16") 50%Q [] 0
                   (backends_ Example.cluster) c ->
      (by_occupancy c <= 1 # 2)%Q.
Proof.
  pose proof (FindBestBackend_selects (BO:=Example.ops) Example.cluster
                (Example.session "vgg16") 50%Q [] 0) as H.
  cbv zeta in H.
  destruct (FindBestBackend (BO:=Example.ops) Example.cluster
              (Example.session "vgg16") 50%Q [] 0) as [o inst] eqn:E.
  vm_compute in E. inversion E as [[Eo Ei]]. clear E. subst o.
  destruct H as [occ [Hc [_ [_ Hocc]]]].
  eexists. exists inst. split; [rewrite Ei; reflexivity|].
  split; [reflexivity|].
  intros c Hcand.
  assert (Hocc_val : occ = (4 # 8)%Q).
  { destruct Hc as [_ (_ & _ & _ & Hp & _)]. rewrite <- Ei in Hp.
    vm_compute in Hp. now inversion Hp. }
  apply Qle_trans with (y := occ).
  - apply Hocc; [reflexivity | | exact Hcand].
    eexists. split; [exact Hc|]. rewrite <- Ei. vm_compute. discriminate.
  - rewrite Hocc_val. vm_compute. discriminate.
Defined.

(** ** [LoadModel]: the allocation loop *)

Section LoadModelAllocation.
Context {B : Type} {BO : BackendDelegateOps B} {FL : Float32}
        {DB : ModelDatabase}.

(** A backend that [FindBestBackend] returns is one of [backends_] and
    its node id is not among the skipped ones. *)
Lemma FindBestBackend_fresh (st : Scheduler B) model_sess request_rate
      skips now e inst :
  FindBestBackend st model_sess request_rate skips now = (Some e, inst) ->
  In e (backends_ st) /\ ~ In (node_id (snd e)) skips.
Proof.
  intro E.
  destruct (FindBestBackend_candidate _ _ _ _ _ _ _ E)
    as [occ [Hin (Hs & _)]].
  simpl in *. now split.
Qed.

Lemma ZSet_insert_fresh (x : Z) (s : list Z) :
  ~ In x s -> ZSet.insert x s = s ++ [x].
Proof.
  intro H. unfold ZSet.insert.
  destruct (ZSet.mem x s) eqn:E; [|reflexivity].
  apply ZSet_mem_In in E. contradiction.
Qed.

Lemma used_ok_insert st used e :
  used_ok st used -> In e (backends_ st) ->
  ~ In (node_id (snd e)) used ->
  used_ok st (ZSet.insert (node_id (snd e)) used).
Proof.
  intros [Hnd Hincl] Hin Hfresh. rewrite (ZSet_insert_fresh _ _ Hfresh).
  split.
  - apply NoDup_rev in Hnd. rewrite <- (rev_involutive (used ++ _)).
    apply NoDup_rev. rewrite rev_app_distr. simpl. constructor.
    + rewrite <- in_rev. exact Hfresh.
    + exact Hnd.
  - intros x Hx. apply in_app_or in Hx. destruct Hx as [Hx | [Hx | []]].
    + now apply Hincl.
    + subst x. apply in_map_iff. now exists e.
Qed.

Lemma used_ok_length st used :
  used_ok st used -> (List.length used <= List.length (backends_ st))%nat.
Proof.
  intros [Hnd Hincl].
  rewrite <- (length_map (fun e => node_id (snd e)) (backends_ st)).
  now apply NoDup_incl_length.
Qed.

(** With as many rounds as there are backends, plus one, the loop
    never stops for lack of rounds: every round uses a new backend. *)
Lemma LoadModel_allocate_loop_fails st model_sess now workload used :
  loop_fails st model_sess now workload used ->
  forall fuel assign_backends,
    used_ok st used ->
    (List.length (backends_ st) < fuel + List.length used)%nat ->
    LoadModel_allocate_loop fuel st model_sess now workload used
                            assign_backends = Ok None.
Proof.
  induction 1 as [workload used inst Hpos Hfind
                 | workload used backend inst Hpos Hfind Hrest IH];
    intros fuel assign_backends Hok Hfuel.
  - pose proof (used_ok_length _ _ Hok) as Hlen.
    destruct fuel as [|fuel]; [lia|]. simpl.
    apply Qltb_lt in Hpos. rewrite Hpos, Hfind. reflexivity.
  - destruct (FindBestBackend_fresh _ _ _ _ _ _ _ Hfind) as [Hin Hfresh].
    pose proof (used_ok_insert _ _ _ Hok Hin Hfresh) as Hok'.
    pose proof (used_ok_length _ _ Hok') as Hlen.
    rewrite (ZSet_insert_fresh _ _ Hfresh) in Hlen.
    rewrite length_app in Hlen. simpl in Hlen.
    destruct fuel as [|fuel]; [unfold NodeId in *; lia|]. simpl.
    apply Qltb_lt in Hpos. rewrite Hpos, Hfind.
    apply IH; [exact Hok'|].
    rewrite (ZSet_insert_fresh _ _ Hfresh), length_app. simpl.
    unfold NodeId in *. lia.
Qed.

Lemma LoadModel_allocate_fails st model_sess now workload :
  allocation_fails st model_sess now workload ->
  LoadModel_allocate st model_sess now workload = Ok None.
Proof.
  intros [[Hz Hnone] | [Hnz Hloop]]; unfold LoadModel_allocate.
  - apply Qeq_bool_iff in Hz. rewrite Hz.
    destruct (FindBestBackend st model_sess workload [] now) as [[e|] i];
      [discriminate | reflexivity].
  - destruct (Qeq_bool workload 0) eqn:E.
    + apply Qeq_bool_iff in E. contradiction.
    + apply LoadModel_allocate_loop_fails; [exact Hloop | | simpl; lia].
      split; [constructor | intros x []].
Qed.

(** C1.  A LoadModel request of a registered frontend for a session
    that is not in the session table and attaches to no prefix-sharing
    session, whose allocation meets a [FindBestBackend] without a
    backend (at the only call when the workload is zero, at any round
    of the loop otherwise), is answered NOT_ENOUGH_BACKENDS and leaves
    the scheduler state as it was: backends, the calls issued to them,
    session table, frontends and subscribers. *)
Theorem LoadModel_not_enough_backends :
  forall (st : Scheduler B) (request : LoadModelRequest) (now : Z)
         (info : ModelInfo) (frontend : FrontendDelegate.t),
    GetModelInfo (ModelSessionToModelID (req_model_session request))
    = Some info ->
    GetFrontend st (req_node_id request) = Some frontend ->
    let model_sess := LoadModel_session info (req_model_session request) in
    AMap.find String.eqb (ModelSessionToString model_sess)
              (session_table_ st) = None ->
    share_session_of st model_sess = None ->
    allocation_fails st model_sess now (estimate_workload request) ->
    LoadModel st request now
    = Ok (st, mkLoadModelReply NOT_ENOUGH_BACKENDS None).
Proof.
  intros st request now info frontend Hinfo Hfront model_sess Hnew Hshare
         Hfails.
  unfold LoadModel. rewrite Hinfo, Hfront. fold model_sess.
  unfold AMap.mem. rewrite Hnew, Hshare.
  unfold LoadModel_new.
  rewrite (LoadModel_allocate_fails _ _ _ _ Hfails). reflexivity.
Qed.
End LoadModelAllocation.

(** Evaluate the left-hand side of an equation whose right-hand side is
    still to be determined. *)
Ltac run_to_value :=
  lazymatch goal with
  | |- ?l = _ =>
      let v := eval vm_compute in l in
      transitivity v; [vm_compute; reflexivity | reflexivity]
  end.

(** [LoadModel_not_enough_backends] on the example cluster: 250
    requests per second need three backends of 100; the loop finds two
    backends and then none, and nothing is loaded. *)
Lemma LoadModel_not_enough_backends_witness :
  LoadModel (BO:=Example.ops) (FL:=Example.FL) (DB:=Example.DB) Example.cluster
            (Example.load_request 1 "vgg16" 250%Q) 0
  = Ok (Example.cluster, mkLoadModelReply NOT_ENOUGH_BACKENDS None).
Proof.
  eapply (LoadModel_not_enough_backends (BO:=Example.ops) (FL:=Example.FL) (DB:=Example.DB)
Example.cluster (Example.load_request 1 "vgg16" 250%Q) 0).
- reflexivity.
- reflexivity.
- reflexivity.
- reflexivity.
- right. split.
+ intro H. vm_compute in H. discriminate H.
+ eapply loop_fails_later; [| run_to_value |];
[vm_compute; reflexivity|].
eapply loop_fails_later; [| run_to_value |];
[vm_compute; reflexivity|].
eapply loop_fails_now; [| run_to_value]. vm_compute. reflexivity.
Defined.

(** ** Association lists *)

Section AMapFacts.
Context {K V : Type} (eqb : K -> K -> bool).
Hypothesis eqb_eq : forall a b, eqb a b = true <-> a = b.

Lemma eqb_refl_of (a : K) : eqb a a = true.
Proof. now apply eqb_eq. Qed.

Lemma eqb_neq_of (a b : K) : a <> b -> eqb a b = false.
Proof.
  intro H. destruct (eqb a b) eqn:E; [|reflexivity].
  apply eqb_eq in E. contradiction.
Qed.

Lemma find_update_same (k : K) (f : V -> V) (m : list (K * V)) :
  AMap.find eqb k (AMap.update eqb k f m) = option_map f (AMap.find eqb k m).
Proof.
  induction m as [|[k' v] m IH]; simpl; [reflexivity|].
  destruct (eqb k k') eqn:E; simpl; rewrite E; [reflexivity | exact IH].
Qed.

Lemma find_update_other (k k' : K) (f : V -> V) (m : list (K * V)) :
  k <> k' ->
  AMap.find eqb k' (AMap.update eqb k f m) = AMap.find eqb k' m.
Proof.
  intro Hne. induction m as [|[k0 v] m IH]; simpl; [reflexivity|].
  destruct (eqb k k0) eqn:E; simpl.
  - apply eqb_eq in E. subst k0.
    rewrite (eqb_neq_of k' k); [reflexivity | congruence].
  - destruct (eqb k' k0); [reflexivity | exact IH].
Qed.

Lemma find_app (k : K) (m m' : list (K * V)) :
  AMap.find eqb k (m ++ m')
  = match AMap.find eqb k m with
    | Some v => Some v
    | None => AMap.find eqb k m'
    end.
Proof.
  induction m as [|[k0 v] m IH]; simpl; [reflexivity|].
  destruct (eqb k k0); [reflexivity | exact IH].
Qed.

Lemma find_emplace_same (k : K) (v : V) (m : list (K * V)) :
  AMap.find eqb k (AMap.emplace eqb k v m)
  = match AMap.find eqb k m with Some v' => Some v' | None => Some v end.
Proof.
  unfold AMap.emplace, AMap.mem.
  destruct (AMap.find eqb k m) eqn:E; [exact E|].
  rewrite find_app, E. simpl. now rewrite eqb_refl_of.
Qed.

Lemma find_emplace_other (k k' : K) (v : V) (m : list (K * V)) :
  k <> k' ->
  AMap.find eqb k' (AMap.emplace eqb k v m) = AMap.find eqb k' m.
Proof.
  intro Hne. unfold AMap.emplace. destruct (AMap.mem eqb k m);
    [reflexivity|].
  rewrite find_app. destruct (AMap.find eqb k' m); [reflexivity|].
  simpl. rewrite (eqb_neq_of k' k); [reflexivity | congruence].
Qed.
End AMapFacts.

Lemma ZSet_insert_In (x : Z) (s : list Z) : In x (ZSet.insert x s).
Proof.
  unfold ZSet.insert. destruct (ZSet.mem x s) eqn:E.
  - now apply ZSet_mem_In.
  - apply in_or_app. right. now left.
Qed.

Lemma ZSet_insert_keeps (x y : Z) (s : list Z) :
  In y s -> In y (ZSet.insert x s).
Proof.
  intro H. unfold ZSet.insert. destruct (ZSet.mem x s); [exact H|].
  apply in_or_app. now left.
Qed.

Lemma SSet_insert_In (x : string) (s : list string) : In x (SSet.insert x s).
Proof.
  unfold SSet.insert, SSet.mem. destruct (existsb (String.eqb x) s) eqn:E.
  - apply existsb_exists in E. destruct E as [y [Hy E]].
    apply String.eqb_eq in E. now subst.
  - apply in_or_app. right. now left.
Qed.

(** ** [LoadModel]: a session that is already loaded *)

Lemma ZSet_insert_iff (x y : Z) (s : list Z) :
  In y (ZSet.insert x s) <-> y = x \/ In y s.
Proof.
  unfold ZSet.insert. destruct (ZSet.mem x s) eqn:E.
  - apply ZSet_mem_In in E. split; [now right|].
    intros [-> | H]; assumption.
  - rewrite in_app_iff. simpl. split.
    + intros [H | [H | []]]; [now right | now left].
    + intros [-> | H]; [right; now left | now left].
Qed.

Lemma SSet_insert_iff (x y : string) (s : list string) :
  In y (SSet.insert x s) <-> y = x \/ In y s.
Proof.
  unfold SSet.insert. destruct (SSet.mem x s) eqn:E.
  - assert (Hin : In x s).
    { unfold SSet.mem in E. apply existsb_exists in E.
      destruct E as (z & Hz & Ez). apply String.eqb_eq in Ez. now subst z. }
    split; [now right|]. intros [-> | H]; assumption.
  - rewrite in_app_iff. simpl. split.
    + intros [H | [H | []]]; [now right | now left].
    + intros [-> | H]; [right; now left | now left].
Qed.

Section LoadModelExisting.
Context {B : Type} {BO : BackendDelegateOps B} {FL : Float32}
        {DB : ModelDatabase}.

Lemma route_entries_ext (st st' : Scheduler B) tps :
  backends_ st' = backends_ st ->
  route_entries st' tps = route_entries st tps.
Proof.
  intro Hb. induction tps as [|[id tp] rest IH]; simpl; [reflexivity|].
  rewrite Hb, IH. reflexivity.
Qed.

Lemma GetModelRoute_ext (st st' : Scheduler B) id :
  session_table_ st' = session_table_ st ->
  heap_ st' = heap_ st ->
  backends_ st' = backends_ st ->
  GetModelRoute st' id = GetModelRoute st id.
Proof.
  intros Ht Hh Hb. unfold GetModelRoute, session_at, deref.
  rewrite Ht, Hh.
  destruct (AMap.find String.eqb id (session_table_ st)) as [p|];
    [|reflexivity].
  simpl. destruct (nth_error (heap_ st) p) as [si|]; [|reflexivity].
  simpl. now rewrite (route_entries_ext st st').
Qed.

(** The route entries are the infos of the serving backends paired
    with the session's rates, entry by entry; a backend id that is not
    in [backends_] makes [backends_.at] throw. *)
Lemma route_entries_serving (st : Scheduler B) (tps : list (NodeId * Q)) :
  route_entries st tps
  = match serving_backends st tps with
    | Some bs => Ok (combine (map GetInfo bs) (map snd tps))
    | None => Throw
    end.
Proof.
  induction tps as [|[k tp] rest IH]; [reflexivity|].
  cbn [route_entries serving_backends fst].
  destruct (AMap.find Z.eqb k (backends_ st)) as [b|]; [|reflexivity].
  cbn [of_option bind]. rewrite IH.
  destruct (serving_backends st rest) as [bs|]; reflexivity.
Qed.

(** C2.  A LoadModel request of a registered frontend for a session id
    that is in the session table.  If one of the session's backends is
    not in [backends_] the call throws.  Otherwise it is answered
    CTRL_OK with the session's current route: the session id and, for
    each entry of the record's [backend_throughputs] in order, the
    info of that backend and the entry's rate.  The frontend's
    subscription set receives the session id (and keeps what it had);
    the session's subscriber set is the old one, or the empty one if
    there was none, with the frontend inserted.  The other frontends
    and the other subscriber sets are as before.  Backends, the calls
    issued to them, the session table, the session records and the
    static-slot table do not change. *)
Theorem LoadModel_existing_session :
  forall (st : Scheduler B) (request : LoadModelRequest) (now : Z)
         (info : ModelInfo) (frontend : FrontendDelegate.t)
         (p : SessionInfoPtr) (si : SessionInfo),
    GetModelInfo (ModelSessionToModelID (req_model_session request))
    = Some info ->
    GetFrontend st (req_node_id request) = Some frontend ->
    let node := req_node_id request in
    let id := ModelSessionToString
                (LoadModel_session info (req_model_session request)) in
    AMap.find String.eqb id (session_table_ st) = Some p ->
    deref st p = Some si ->
    match serving_backends st (backend_throughputs si) with
    | None => LoadModel st request now = Throw
    | Some bs =>
        let route :=
          mkModelRoute id (combine (map GetInfo bs)
                                   (map snd (backend_throughputs si))) in
        let frontend' := FrontendDelegate.SubscribeModel frontend id in
        let old :=
          match AMap.find String.eqb id (session_subscribers_ st) with
          | Some subs => subs
          | None => []
          end in
        exists st',
          LoadModel st request now
          = Ok (st', mkLoadModelReply CTRL_OK (Some route)) /\
          GetModelRoute st id = Ok route /\
          GetModelRoute st' id = Ok route /\
          GetFrontend st' node = Some frontend' /\
          (forall m, In m (FrontendDelegate.subscribe_models frontend')
                     <-> m = id
                         \/ In m (FrontendDelegate.subscribe_models
                                    frontend)) /\
          (forall other, other <> node ->
                         GetFrontend st' other = GetFrontend st other) /\
          AMap.find String.eqb id (session_subscribers_ st')
          = Some (ZSet.insert node old) /\
          (forall n, In n (ZSet.insert node old) <-> n = node \/ In n old) /\
          (forall other, other <> id ->
             AMap.find String.eqb other (session_subscribers_ st')
             = AMap.find String.eqb other (session_subscribers_ st)) /\
          backends_ st' = backends_ st /\
          issued_ st' = issued_ st /\
          session_table_ st' = session_table_ st /\
          heap_ st' = heap_ st /\
          assigned_static_workloads_ st' = assigned_static_workloads_ st
    end.
Proof.
  intros st request now info frontend p si Hinfo Hfront node id Hp Hsi.
  assert (Hroute :
            GetModelRoute st id
            = match serving_backends st (backend_throughputs si) with
              | Some bs =>
                  Ok (mkModelRoute id
                        (combine (map GetInfo bs)
                                 (map snd (backend_throughputs si))))
              | None => Throw
              end).
  { unfold GetModelRoute, session_at. rewrite Hp. cbn [of_option bind].
    rewrite Hsi. cbn [of_option bind]. rewrite route_entries_serving.
    destruct (serving_backends st (backend_throughputs si)); reflexivity. }
  unfold LoadModel. rewrite Hinfo, Hfront. fold id.
  unfold AMap.mem. rewrite Hp.
  unfold LoadModel_existing. rewrite Hroute.
  destruct (serving_backends st (backend_throughputs si)) as [bs|];
    [|reflexivity].
  cbn [bind]. cbv zeta.
  change (req_node_id request) with node in Hfront |- *.
  eexists. split; [reflexivity|].
  split; [reflexivity|].
  split.
  { rewrite <- Hroute. now apply GetModelRoute_ext. }
  unfold GetFrontend in *. simpl.
  split.
  { rewrite (find_update_same Z.eqb), Hfront. reflexivity. }
  split.
  { intro m. apply SSet_insert_iff. }
  split.
  { intros other Hne. apply (find_update_other Z.eqb Z.eqb_eq). congruence. }
  unfold subscribers_upsert, AMap.mem.
  destruct (AMap.find String.eqb id (session_subscribers_ st))
    as [old|] eqn:Esubs; simpl.
  - split.
    { rewrite (find_update_same String.eqb), Esubs. reflexivity. }
    split; [intro n; apply ZSet_insert_iff|].
    split.
    { intros other Hne.
      apply (find_update_other String.eqb String.eqb_eq). congruence. }
    repeat split; reflexivity.
  - split.
    { rewrite (find_emplace_same String.eqb String.eqb_eq), Esubs.
      reflexivity. }
    split; [intro n; apply (ZSet_insert_iff node n [])|].
    split.
    { intros other Hne.
      apply (find_emplace_other String.eqb String.eqb_eq). congruence. }
    repeat split; reflexivity.
Qed.
End LoadModelExisting.

(** [LoadModel_existing_session] on the example cluster: frontend 2 asks
    for the session frontend 1 loaded, with a workload of 1000.  The
    reply carries the one backend of the session at its rate of 50, and
    the subscribers are frontends 1 and 2. *)
Lemma LoadModel_existing_session_witness :
  exists st',
    LoadModel (BO:=Example.ops) (FL:=Example.FL) (DB:=Example.DB) Example.serving
              (Example.load_request 2 "vgg16" 1000%Q) 0
    = Ok (st', mkLoadModelReply CTRL_OK
                 (Some (mkModelRoute "vgg16"
                          [(mkBackendInfo 10 "10.0.0.1" "8001" "8002",
                            50%Q)]))) /\
    AMap.find String.eqb "vgg16"%string (session_subscribers_ st')
    = Some [1; 2] /\
    backends_ st' = backends_ Example.serving.
Proof.
  pose proof (LoadModel_existing_session (BO:=Example.ops) (FL:=Example.FL) (DB:=Example.DB)
Example.serving (Example.load_request 2 "vgg16" 1000%Q) 0
(mkModelInfo false 0 0)
(FrontendDelegate.new 2 "10.0.0.1" "9001" "9002" 2 0)
0%nat (nth 0 (heap_ Example.serving) SessionInfo_new)
eq_refl eq_refl eq_refl eq_refl) as H.
vm_compute in H.
destruct H as (st' & Hrun & _ & _ & _ & _ & _ & Hsubs & _ & _ & Hb & _).
exists st'. split; [exact Hrun|]. split; [exact Hsubs | exact Hb].
Defined.

(** ** [BeaconCheck]: the request-rate history *)

Section Heap.
Context {B : Type}.

Lemma nth_error_list_update {A} (f : A -> A) (l : list A) :
  forall n m,
    nth_error (list_update n f l) m
    = if Nat.eqb n m then option_map f (nth_error l m) else nth_error l m.
Proof.
  induction l as [|x l IH]; intros n m.
  - simpl. destruct n, m; simpl; try reflexivity.
    now destruct (Nat.eqb n m).
  - destruct n, m; simpl; try reflexivity. apply IH.
Qed.

Lemma deref_on_session (st : Scheduler B) p f q :
  deref (on_session p f st) q
  = if Nat.eqb p q then option_map f (deref st q) else deref st q.
Proof. unfold deref, on_session. simpl. apply nth_error_list_update. Qed.
End Heap.

Section BeaconCheckHistory.
Context {B : Type} {BO : BackendDelegateOps B} {FL : Float32}.

Lemma session_rps_sum (st : Scheduler B) id tps :
  forall from bs,
    serving_backends st tps = Some bs ->
    session_rps st id tps from = Ok (rps_sum id bs from).
Proof.
  induction tps as [|e rest IH]; intros from bs Hbs; simpl in *.
  - inversion Hbs. reflexivity.
  - destruct (AMap.find Z.eqb (fst e) (backends_ st)) as [b|];
      [|discriminate].
    destruct (serving_backends st rest) as [bs'|]; [|discriminate].
    inversion Hbs. subst bs. simpl. now apply IH.
Qed.

Lemma push_rps_pushed history_len history rps :
  history <> [] \/ (0 < rps)%Q ->
  push_rps history_len history rps
  = if history_len <? Z.of_nat (List.length history) + 1
    then tl (history ++ [rps]) else history ++ [rps].
Proof.
  intro H. unfold push_rps.
  assert (E : (0 <? Z.of_nat (List.length history)) || Qltb 0 rps = true).
  { destruct H as [H | H].
    - destruct history; [contradiction|]. reflexivity.
    - apply Qltb_lt in H. rewrite H. apply orb_true_r. }
  rewrite E, length_app. simpl. rewrite Nat2Z.inj_add. reflexivity.
Qed.

Lemma push_rps_skipped history_len rps :
  0 <= history_len -> ~ (0 < rps)%Q -> push_rps history_len [] rps = [].
Proof.
  intros Hlen H. unfold push_rps. simpl.
  destruct (Qltb 0 rps) eqn:E.
  - apply Qltb_lt in E. contradiction.
  - simpl. destruct (history_len <? 0) eqn:E'; [|reflexivity].
    apply Z.ltb_lt in E'. lia.
Qed.

Lemma push_rps_length history_len history rps :
  0 <= history_len ->
  Z.of_nat (List.length history) <= history_len ->
  Z.of_nat (List.length (push_rps history_len history rps)) <= history_len.
Proof.
  intros H0 H. unfold push_rps.
  destruct ((0 <? Z.of_nat (List.length history)) || Qltb 0 rps).
  - destruct (history_len <? Z.of_nat (List.length (history ++ [rps])))
      eqn:E.
    + rewrite length_app in *. simpl in *.
      destruct history as [|x h]; simpl in *; [lia|].
      rewrite length_app. simpl. lia.
    + apply Z.ltb_ge in E. exact E.
  - destruct (history_len <? Z.of_nat (List.length history)) eqn:E.
    + apply Z.ltb_lt in E. lia.
    + exact H.
Qed.

Lemma BeaconCheck_session_run (st : Scheduler B) id p si bs :
  deref st p = Some si ->
  serving_backends st (backend_throughputs si) = Some bs ->
  BeaconCheck_session st (id, p)
  = Ok (on_session p
          (fun s => set_rps_history
                      (push_rps (history_len_ st) (rps_history s)
                                (rps_sum id bs 0%Q)) s) st).
Proof.
  intros Hp Hbs. unfold BeaconCheck_session. simpl. rewrite Hp. simpl.
  rewrite (session_rps_sum st id _ 0%Q bs Hbs). reflexivity.
Qed.

Lemma BeaconCheck_session_bounded (st st' : Scheduler B) iter :
  0 <= history_len_ st ->
  history_bounded st ->
  BeaconCheck_session st iter = Ok st' ->
  history_bounded st' /\ history_len_ st' = history_len_ st.
Proof.
  intros H0 Hb Hrun. unfold BeaconCheck_session in Hrun.
  destruct (deref st (snd iter)) as [si|] eqn:Hp; [|discriminate].
  simpl in Hrun.
  destruct (session_rps st (fst iter) (backend_throughputs si) 0%Q)
    as [rps| |]; try discriminate.
  simpl in Hrun. inversion Hrun. subst st'. clear Hrun.
  split; [|reflexivity].
  intros q sq Hq. rewrite deref_on_session in Hq. simpl.
  destruct (Nat.eqb (snd iter) q) eqn:E.
  - destruct (deref st q) as [s0|] eqn:Hq0; [|discriminate].
    inversion Hq. subst sq. simpl.
    apply push_rps_length; [exact H0 | now apply (Hb q)].
  - now apply (Hb q).
Qed.

Lemma BeaconCheck_sessions_bounded table :
  forall (st st' : Scheduler B),
    0 <= history_len_ st ->
    history_bounded st ->
    result_fold BeaconCheck_session table st = Ok st' ->
    history_bounded st' /\ history_len_ st' = history_len_ st.
Proof.
  induction table as [|iter rest IH]; intros st st' H0 Hb Hrun.
  - inversion Hrun. subst. now split.
  - simpl in Hrun.
    destruct (BeaconCheck_session st iter) as [st1| |] eqn:E;
      try discriminate.
    simpl in Hrun.
    destruct (BeaconCheck_session_bounded st st1 iter H0 Hb E) as [Hb1 Hl1].
    destruct (IH st1 st') as [Hb' Hl']; try assumption.
    + rewrite Hl1. exact H0.
    + split; [exact Hb' | congruence].
Qed.

Lemma Scheduler_new_history_len beacon epoch es pb :
  0 < beacon -> 0 <= epoch -> beacon + epoch <= 2 ^ 30 ->
  let st := Scheduler_new (B:=B) beacon epoch es pb in
  history_len_ st = 2 * min_history_len_ st /\
  (min_history_len_ st - 1) * beacon < epoch <= min_history_len_ st * beacon.
Proof.
  intros Hb He Hsum. unfold Scheduler_new.
  cbn [history_len_ min_history_len_]. unfold to_uint32.
  assert (P32 : 2 ^ 32 = 4294967296) by reflexivity.
  assert (P30 : 2 ^ 30 = 1073741824) by reflexivity.
  rewrite P32. rewrite P30 in Hsum.
  rewrite (Z.mod_small beacon), (Z.mod_small epoch) by lia.
  rewrite (Z.mod_small (epoch + beacon - 1)) by lia.
  set (m := (epoch + beacon - 1) / beacon).
  assert (Hm : 0 <= m <= epoch).
  { unfold m. split.
    - apply Z.div_pos; lia.
    - assert ((epoch + beacon - 1) / beacon < epoch + 1); [|lia].
      apply Z.div_lt_upper_bound; nia. }
  rewrite (Z.mod_small (m * 2)) by lia.
  split; [lia|].
  pose proof (Z.div_mod (epoch + beacon - 1) beacon ltac:(lia)) as Hdm.
  pose proof (Z.mod_pos_bound (epoch + beacon - 1) beacon ltac:(lia)) as Hr.
  fold m in Hdm. nia.
Qed.
End BeaconCheckHistory.

(** ** [EpochSchedule]: the estimate and the residual *)

Section EpochScheduleEstimate.
Context {B : Type} {BO : BackendDelegateOps B} {FL : Float32}
        {SS : StdSort} {LM : Libm}.





End EpochScheduleEstimate.


(** ** Registration: the announced beacon interval *)

Section RegisterBeacon.
Context {B : Type} {BO : BackendDelegateOps B} {FL : Float32}
        {DB : ModelDatabase} {SS : StdSort}.
Variable BEACON_INTERVAL_SEC : Z.

Lemma find_set_fresh {V} (k : Z) (v : V) (m : list (Z * V)) :
  AMap.mem Z.eqb k m = false ->
  AMap.find Z.eqb k (AMap.set Z.eqb k v m) = Some v.
Proof.
  intro H. unfold AMap.set. rewrite H. rewrite (find_app Z.eqb).
  unfold AMap.mem in H. destruct (AMap.find Z.eqb k m); [discriminate|].
  simpl. now rewrite Z.eqb_refl.
Qed.

(** C10.  A Register call that is answered CTRL_OK announces
    [BEACON_INTERVAL_SEC], the constant, whatever the scheduler's own
    [beacon_interval_sec_] (the [--beacon] flag) is.  The delegate it
    creates is built with [beacon_interval_sec_]: a frontend delegate
    is alive while [now - last_time <= 2 * beacon_interval_sec_], and a
    backend delegate is constructed from [beacon_interval_sec_].  So
    when the flag differs from the constant, the announced interval is
    not the one the scheduler's liveness checks use. *)
Theorem Register_beacon_interval :
  forall (fuel : nat) (now : Z) (ip : string) (request : RegisterRequest)
         (st st' : Scheduler B) (reply : RegisterReply),
    Register BEACON_INTERVAL_SEC fuel now ip request st = Ok (st', reply) ->
    reg_status reply = CTRL_OK ->
    beacon_interval_sec reply = Some BEACON_INTERVAL_SEC /\
    (node_type request = FRONTEND_NODE ->
     exists f,
       GetFrontend st' (reg_node_id request) = Some f /\
       FrontendDelegate.beacon_sec f = beacon_interval_sec_ st /\
       forall t,
         FrontendDelegate.IsAlive f t
         = (t - FrontendDelegate.last_time f
            <=? 2 * beacon_interval_sec_ st)) /\
    (node_type request = BACKEND_NODE ->
     Register BEACON_INTERVAL_SEC fuel now ip request st
     = RegisterBackend BEACON_INTERVAL_SEC fuel now
         (new_BackendDelegate (reg_node_id request) ip
            (reg_server_port request) (reg_rpc_port request)
            (gpu_device_name request) (gpu_available_memory request)
            (beacon_interval_sec_ st) (epoch_interval_sec_ st) now) st) /\
    (beacon_interval_sec_ st <> BEACON_INTERVAL_SEC ->
     beacon_interval_sec reply <> Some (beacon_interval_sec_ st)).
Proof.
  intros fuel now ip request st st' reply Hrun Hok.
  assert (Hreply : beacon_interval_sec reply = Some BEACON_INTERVAL_SEC
                   /\ (node_type request = FRONTEND_NODE ->
                       exists f,
                         GetFrontend st' (reg_node_id request) = Some f /\
                         FrontendDelegate.beacon_sec f
                         = beacon_interval_sec_ st /\
                         forall t,
                           FrontendDelegate.IsAlive f t
                           = (t - FrontendDelegate.last_time f
                              <=? 2 * beacon_interval_sec_ st))).
  { unfold Register in Hrun. destruct (node_type request).
    - unfold RegisterBackend in Hrun.
      destruct (AMap.mem Z.eqb _ (backends_ st)).
      + inversion Hrun. subst reply. discriminate Hok.
      + destruct (AddBackend fuel now _ _) as [st2| |]; try discriminate.
        simpl in Hrun. inversion Hrun. subst reply.
        split; [reflexivity | discriminate].
    - unfold RegisterFrontend in Hrun. simpl in Hrun.
      destruct (AMap.mem Z.eqb (reg_node_id request) (frontends_ st))
        eqn:Emem.
      + inversion Hrun. subst reply. discriminate Hok.
      + inversion Hrun. subst reply st'. split; [reflexivity|].
        intros _. eexists. split.
        * unfold GetFrontend. simpl. now apply find_set_fresh.
        * split; reflexivity. }
  destruct Hreply as [Hb Hf].
  split; [exact Hb|]. split; [exact Hf|]. split.
  - intro Hty. unfold Register. rewrite Hty. reflexivity.
  - intros Hne E. rewrite Hb in E. inversion E. congruence.
Qed.
End RegisterBeacon.

(** [Register_beacon_interval] on a scheduler started with [--beacon 5]
    while the constant is 2: the frontend is told 2 and is kept alive
    for 10 seconds after its last beacon. *)
Lemma Register_beacon_interval_witness :
  exists st' reply f,
    Register (BO:=Example.ops) (FL:=Example.FL) (DB:=Example.DB) (SS:=StableSort) 2 16 0
             "10.0.0.1" (Example.frontend_request 1)
             (Scheduler_new 5 10 true true) = Ok (st', reply) /\
    beacon_interval_sec reply = Some 2 /\
    GetFrontend st' 1 = Some f /\
    FrontendDelegate.IsAlive f 10 = true /\
    beacon_interval_sec reply <> Some 5.
Proof.
  assert (Hrun : exists st' reply,
             Register (BO:=Example.ops) (FL:=Example.FL) (DB:=Example.DB) (SS:=StableSort) 2
                      16 0 "10.0.0.1" (Example.frontend_request 1)
                      (Scheduler_new 5 10 true true) = Ok (st', reply) /\
             reg_status reply = CTRL_OK)
    by (eexists; eexists; split; reflexivity).
  destruct Hrun as (st' & reply & Hrun & Hok).
  destruct (Register_beacon_interval (BO:=Example.ops) (FL:=Example.FL) (DB:=Example.DB)
              (SS:=StableSort) 2 16 0 "10.0.0.1" (Example.frontend_request 1)
              (Scheduler_new 5 10 true true) st' reply Hrun Hok)
    as (Hb & Hf & _ & Hne).
  destruct (Hf eq_refl) as (f & Hget & Hsec & Halive).
  exists st', reply, f.
  split; [exact Hrun|]. split; [exact Hb|]. split; [exact Hget|].
  split.
  - rewrite Halive. vm_compute in Hrun. inversion Hrun as [[Hst Hr]].
    rewrite <- Hst in Hget. vm_compute in Hget. inversion Hget. reflexivity.
  - apply Hne. vm_compute. discriminate.
Defined.

(** ** [RemoveBackend]: the static slot of the backend that takes over *)

Section RecordSlot.
Context {B : Type} {BO : BackendDelegateOps B} {FL : Float32}.

(** The test [if (assigned->workload_id())] holds for every
    [workload_id] but 0: a backend without a static slot
    ([workload_id = -1]) gets an entry, under the key -1 converted to
    [uint32_t], and the backend that fills slot 0 gets none. *)
Lemma RemoveBackend_record_slot_truthy (st : Scheduler B) key assigned :
  GetBackend st key = Some assigned ->
  (workload_id assigned = -1 ->
   exists st',
     RemoveBackend_record_slot key st = Ok st' /\
     AMap.mem Z.eqb 4294967295 (assigned_static_workloads_ st') = true) /\
  (workload_id assigned = 0 -> RemoveBackend_record_slot key st = Ok st).
Proof.
  intro Hget. unfold RemoveBackend_record_slot. rewrite Hget. simpl.
  split; intro Hw; rewrite Hw; simpl; [|reflexivity].
  eexists. split; [reflexivity|]. simpl.
  change (to_uint32 (-1)) with 4294967295.
  unfold AMap.mem.
  rewrite (find_emplace_same Z.eqb Z.eqb_eq).
  now destruct (AMap.find Z.eqb 4294967295 (assigned_static_workloads_ st)).
Qed.
End RecordSlot.

(** C5, at the failing input.  Backend 10 serves [vgg16] without a
    static slot and is removed; the idle backend 11 takes its plan over
    through [Assign] and keeps [workload_id = -1], yet
    [assigned_static_workloads_] gains the entry 4294967295 -> 11. *)
Lemma RemoveBackend_records_dynamic_slot :
  exists st' b,
    UnregisterBackend (BO:=Example.ops) (FL:=Example.FL) (DB:=Example.DB) (SS:=StableSort)
                      16 0 10 Example.serving = Ok st' /\
    assigned_static_workloads_ Example.serving = [] /\
    assigned_static_workloads_ st' = [(4294967295, 11)] /\
    GetBackend st' 11 = Some b /\
    workload_id (BackendDelegateOps:=Example.ops) b = -1.
Proof.
  eexists. eexists. split; [vm_compute; reflexivity|].
  split; [reflexivity|]. split; [reflexivity|].
  split; reflexivity.
Qed.

(** ** [Run]: the clock of the control loop *)

Section RunClock.
Variables beacon epoch : Z.
Variable enable : bool.

Lemma wake_instant_in_step (reading : Clock -> Z -> Z) (s : SleepUntil)
      (t interval : Z) :
  (forall d, 0 <= d ->
             reading (sleep_clock s) (t + d) = reading (sleep_clock s) t + d) ->
  sleep_deadline s = reading (sleep_clock s) t + interval ->
  forall (fuel : nat) (k : Z),
    0 <= k <= interval ->
    (Z.to_nat (interval - k) <= fuel)%nat ->
    wake_instant fuel reading s (t + k) = Some (t + interval).
Proof.
  intros Hstep Hdead. induction fuel as [|fuel IH]; intros k Hk Hfuel.
  - assert (k = interval) by lia. subst k. simpl.
    rewrite Hdead, Hstep by lia.
    rewrite (proj2 (Z.leb_le _ _)) by lia. reflexivity.
  - simpl. rewrite Hdead, Hstep by lia.
    destruct (reading (sleep_clock s) t + interval
              <=? reading (sleep_clock s) t + k) eqn:E.
    + apply Z.leb_le in E. assert (k = interval) by lia. now subst k.
    + apply Z.leb_gt in E. rewrite <- Z.add_assoc.
      apply IH; lia.
Qed.

(** C9, as the code has it.  An iteration of [Run] sleeps until a time
    point of [system_clock]: the reading of that clock at the start of
    the iteration plus [Run_interval], an interval computed from the
    loop's second counters alone.  When the system clock advances in
    step with true time, the thread is released [Run_interval] seconds
    after the iteration started. *)
Theorem Run_sleeps_on_system_clock :
  forall (reading : Clock -> Z -> Z) (r : RunState) (t : Z) (fuel : nat),
    let s :=
      snd (fst (Run_iteration beacon epoch enable
                              (reading system_clock t) r)) in
    sleep_clock s = system_clock /\
    sleep_deadline s
    = reading system_clock t + Run_interval beacon epoch r /\
    ((forall d, 0 <= d ->
                reading system_clock (t + d) = reading system_clock t + d) ->
     0 <= Run_interval beacon epoch r ->
     (Z.to_nat (Run_interval beacon epoch r) <= fuel)%nat ->
     wake_instant fuel reading s t
     = Some (t + Run_interval beacon epoch r)).
Proof.
  intros reading r t fuel s. split; [reflexivity|]. split; [reflexivity|].
  intros Hstep Hpos Hfuel.
  rewrite <- (Z.add_0_r t) at 1.
  apply wake_instant_in_step; simpl; try assumption; try reflexivity.
  - lia.
  - rewrite Z.sub_0_r. exact Hfuel.
Qed.
End RunClock.

(** [Run_sleeps_on_system_clock] with the default intervals: the first
    iteration, started at instant 0 under a system clock that is 1000
    seconds ahead and runs in step, ends 2 seconds later. *)
Lemma Run_sleeps_on_system_clock_witness :
  wake_instant 5 (fun _ t => t + 1000)
    (snd (fst (Run_iteration 2 10 true 1000 Run_initial))) 0
  = Some 2.
Proof.
  destruct (Run_sleeps_on_system_clock 2 10 true (fun _ t => t + 1000)
              Run_initial 0 5%nat) as (_ & _ & Hwake).
  apply Hwake.
  - intros d Hd. lia.
  - vm_compute. discriminate.
  - vm_compute. lia.
Defined.

(** C9 fails as stated: under [clock_set_back] the first iteration of
    [Run] (intervals 2 and 10) asks for a sleep of 2 seconds on
    [system_clock] and is released 3602 seconds after it started. *)
Lemma Run_sleeps_on_system_clock_counterexample :
  sleep_clock (snd (fst (Run_iteration 2 10 true
                           (clock_set_back system_clock 0) Run_initial)))
  = system_clock /\
  Run_interval 2 10 Run_initial = 2 /\
  wake_instant 4000 clock_set_back
    (snd (fst (Run_iteration 2 10 true
                 (clock_set_back system_clock 0) Run_initial))) 0
  = Some 3602 /\
  ~ sleeps_for_interval 2 10 true.
Proof.
  assert (Hwake : wake_instant 4000 clock_set_back
            (snd (fst (Run_iteration 2 10 true
                         (clock_set_back system_clock 0) Run_initial))) 0
          = Some 3602) by (vm_compute; reflexivity).
  split; [reflexivity|]. split; [reflexivity|]. split; [exact Hwake|].
  intro H.
  specialize (H clock_set_back Run_initial 0 4000%nat
                (fun _ => eq_refl)
                ltac:(vm_compute; discriminate)
                ltac:(vm_compute; lia)).
  rewrite Hwake in H. discriminate H.
Qed.

(** ** The prefix precondition *)

(** C4 fails as stated.  After frontend 1 has loaded [vgg16] and
    attached [vgg_face] to it, its request for [vgg_s] finds [vgg_face]
    first in the prefix group and sends
    [LoadPrefixModel(vgg_s, vgg_face)] to backend 10, which was never
    told to [LoadModel(vgg_face)]. *)
Lemma prefix_precondition_counterexample :
  exists st,
Example.run StableSort Example.chain = Ok st /\
issued_ st
= [(10, ILoadModel (mkInstanceInfo (Example.session "vgg16") 1 1 50%Q 4));
   (10, IUpdateModelTableRpc);
   (10, ILoadPrefixModel (Example.session "vgg_face")
                         (Example.session "vgg16"));
   (10, IUpdateModelTableRpc);
   (10, ILoadPrefixModel (Example.session "vgg_s")
                         (Example.session "vgg_face"));
   (10, IUpdateModelTableRpc)] /\
prefix_ok (DB:=Example.DB) (issued_ st) = false.
Proof.
eexists. split; [vm_compute; reflexivity|].
split; reflexivity.
Qed.

Section PrefixByPath.
Context {B : Type} {BO : BackendDelegateOps B} {FL : Float32}
        {DB : ModelDatabase} {SS : StdSort}.

Lemma prefix_run_app (a b : list (NodeId * Instr)) :
  forall s,
    prefix_run s (a ++ b)
    = match prefix_run s a with
      | Some s' => prefix_run s' b
      | None => None
      end.
Proof.
  induction a as [|e a IH]; intro s; simpl; [reflexivity|].
  destruct (prefix_step s e); [apply IH | reflexivity].
Qed.

Lemma prefix_safe_nil : prefix_safe [].
Proof. intro s. now exists s. Qed.

Lemma prefix_safe_app a b :
  prefix_safe a -> prefix_safe b -> prefix_safe (a ++ b).
Proof.
  intros Ha Hb s. rewrite prefix_run_app.
  destruct (Ha s) as [s' ->]. apply Hb.
Qed.

Lemma prefix_run_siblings key head siblings :
  forall s,
    existsb (same_head key (ModelSessionToString head)) (heads s) = true ->
    prefix_run s (map (fun sib => (key, ILoadPrefixModel sib head)) siblings)
    = Some s.
Proof.
  induction siblings as [|sib rest IH]; intros s Hs; simpl;
    [reflexivity|].
  unfold prefix_step. simpl. rewrite Hs, orb_true_r. now apply IH.
Qed.

(** One round of the allocation loop: the head, then its siblings. *)
Lemma round_safe key inst head siblings :
  ModelSessionToString (inst_session inst) = ModelSessionToString head ->
  prefix_safe ((key, ILoadModel inst)
                 :: map (fun sib => (key, ILoadPrefixModel sib head))
                        siblings).
Proof.
  intros Hid s. simpl. eexists. apply prefix_run_siblings. simpl.
  unfold same_head. simpl. rewrite Hid, Z.eqb_refl, String.eqb_refl.
  reflexivity.
Qed.

Lemma issued_load_siblings key head siblings :
  forall st : Scheduler B,
    issued_ (load_siblings key head siblings st)
    = issued_ st
        ++ map (fun sib => (key, ILoadPrefixModel sib head)) siblings.
Proof.
  unfold load_siblings.
  induction siblings as [|sib rest IH]; intro st; simpl.
  - now rewrite app_nil_r.
  - rewrite IH. simpl. now rewrite <- app_assoc.
Qed.

Lemma issued_Allocate_assign p head siblings backend inst
      (acc : Scheduler B * Changed) :
  issued_ (fst (Allocate_assign p head siblings backend inst acc))
  = issued_ (fst acc)
      ++ (fst backend, ILoadModel inst)
      :: map (fun sib => (fst backend, ILoadPrefixModel sib head)) siblings.
Proof.
  unfold Allocate_assign. simpl. rewrite issued_load_siblings. simpl.
  now rewrite <- app_assoc.
Qed.

Lemma FindBestBackend_plan (st : Scheduler B) sess rate skips now e inst :
  prepares_requested ->
  FindBestBackend st sess rate skips now = (Some e, inst) ->
  ModelSessionToString (inst_session inst) = ModelSessionToString sess.
Proof.
  intros Hprep E.
  destruct (FindBestBackend_candidate _ _ _ _ _ _ _ E)
    as [occ [_ (_ & _ & _ & Hp & _)]].
  simpl in Hp. exact (Hprep _ _ _ _ _ Hp).
Qed.

Lemma Allocate_while_calls p head siblings now :
  prepares_requested ->
  forall fuel rate (acc : Scheduler B * Changed) r,
    Allocate_while fuel p head siblings now rate acc = Ok r ->
    exists calls,
      issued_ (fst (snd r)) = issued_ (fst acc) ++ calls /\
      prefix_safe calls.
Proof.
  intro Hprep. induction fuel as [|fuel IH]; intros rate acc r H;
    simpl in H; destruct (Qltb 0 rate); try discriminate;
    try (inversion H; subst r; exists []; split;
         [simpl; now rewrite app_nil_r | apply prefix_safe_nil]).
  destruct (FindBestBackend (fst acc) head rate [] now) as [[e|] inst]
    eqn:Efind.
  - apply IH in H. destruct H as [calls [Hcalls Hsafe]].
    rewrite issued_Allocate_assign in Hcalls.
    eexists. split.
    + rewrite Hcalls, <- app_assoc. reflexivity.
    + apply (prefix_safe_app (_ :: _)); [|exact Hsafe].
      apply round_safe.
      exact (FindBestBackend_plan _ _ _ _ _ _ _ Hprep Efind).
  - inversion H. subst r. exists []. split;
      [simpl; now rewrite app_nil_r | apply prefix_safe_nil].
Qed.

Lemma Allocate_session_calls fuel now (acc acc' : Scheduler B * Changed) p :
  prepares_requested ->
  Allocate_session fuel now acc p = Ok acc' ->
  exists calls,
    issued_ (fst acc') = issued_ (fst acc) ++ calls /\ prefix_safe calls.
Proof.
  intros Hprep H. unfold Allocate_session in H.
  destruct (deref (fst acc) p) as [si|]; [|discriminate].
  simpl in H. destruct (model_sessions si) as [|head siblings].
  - destruct (Qltb 0 (to_float (unassigned_workload si))); [discriminate|].
    inversion H. subst acc'. exists []. split;
      [simpl; now rewrite app_nil_r | apply prefix_safe_nil].
  - destruct (Allocate_while fuel p head siblings now
                (to_float (unassigned_workload si)) acc) as [r| |] eqn:E;
      try discriminate.
    simpl in H. inversion H. subst acc'. simpl.
    exact (Allocate_while_calls _ _ _ _ Hprep _ _ _ _ E).
Qed.

Lemma Allocate_fold_calls fuel now l :
  prepares_requested ->
  forall (acc acc' : Scheduler B * Changed),
    result_fold (Allocate_session fuel now) l acc = Ok acc' ->
    exists calls,
      issued_ (fst acc') = issued_ (fst acc) ++ calls /\ prefix_safe calls.
Proof.
  intro Hprep. induction l as [|p l IH]; intros acc acc' H; simpl in H.
  - inversion H. subst acc'. exists []. split;
      [now rewrite app_nil_r | apply prefix_safe_nil].
  - destruct (Allocate_session fuel now acc p) as [acc1| |] eqn:E;
      try discriminate.
    simpl in H.
    destruct (Allocate_session_calls _ _ _ _ _ Hprep E) as [c1 [H1 S1]].
    destruct (IH _ _ H) as [c2 [H2 S2]].
    exists (c1 ++ c2). split.
    + rewrite H2, H1, app_assoc. reflexivity.
    + now apply prefix_safe_app.
Qed.

Lemma issued_LoadModel_share_loop model_sess share tps :
  forall st st' : Scheduler B,
    LoadModel_share_loop tps model_sess share st = Ok st' ->
    issued_ st' = issued_ st ++ attach_calls model_sess share tps.
Proof.
  induction tps as [|[id tp] rest IH]; intros st st' H; simpl in H.
  - inversion H. simpl. now rewrite app_nil_r.
  - destruct (GetBackend st id); [|discriminate].
    apply IH in H. rewrite H. simpl. rewrite <- !app_assoc. reflexivity.
Qed.

Lemma find_share_session_found table share_prefixes :
  forall s0 p share,
    find_share_session table share_prefixes s0 = Some (p, share) ->
    AMap.find String.eqb (ModelSessionToString share) table = Some p.
Proof.
  induction share_prefixes as [|id rest IH]; intros s0 p share H;
    simpl in H; [discriminate|].
  destruct (AMap.find String.eqb
              (ModelSessionToString (ParseModelID id s0)) table)
    as [q|] eqn:E.
  - inversion H. subst. exact E.
  - exact (IH _ _ _ H).
Qed.

(** C4, as the code has it.  The calls [AllocateUnassignedWorkloads]
    adds to the log keep the prefix precondition whatever came before:
    each [LoadPrefixModel(sibling, head)] follows, in the same round
    and on the same backend, the [LoadModel] of the plan prepared for
    [head].  In the prefix-attach path of [LoadModel] the session
    [share] named as head is the first one of the prefix group that is
    in the session table, and [LoadPrefixModel(new, share)], followed
    by a table update, goes to each backend of the [backend_throughputs]
    of that session's record, and no other call is issued. *)
Theorem prefix_precondition_by_path :
  (prepares_requested ->
   forall fuel now (acc acc' : Scheduler B * Changed),
     AllocateUnassignedWorkloads fuel now acc = Ok acc' ->
     exists calls,
       issued_ (fst acc') = issued_ (fst acc) ++ calls /\
       prefix_safe calls) /\
  (forall (st st' : Scheduler B) request now reply info frontend p share si,
      GetModelInfo (ModelSessionToModelID (req_model_session request))
      = Some info ->
      GetFrontend st (req_node_id request) = Some frontend ->
      let model_sess := LoadModel_session info (req_model_session request) in
      AMap.find String.eqb (ModelSessionToString model_sess)
                (session_table_ st) = None ->
      share_session_of st model_sess = Some (p, share) ->
      deref st p = Some si ->
      LoadModel st request now = Ok (st', reply) ->
      AMap.find String.eqb (ModelSessionToString share) (session_table_ st)
      = Some p /\
      issued_ st'
      = issued_ st
          ++ attach_calls model_sess share (backend_throughputs si)).
Proof.
  split.
  - intros Hprep fuel now acc acc' H.
    unfold AllocateUnassignedWorkloads in H.
    destruct (collect_unassigned (fst acc) (session_table_ (fst acc)) []).
    + inversion H. subst acc'. exists []. split;
        [now rewrite app_nil_r | apply prefix_safe_nil].
    + exact (Allocate_fold_calls _ _ _ Hprep _ _ H).
  - intros st st' request now reply info frontend p share si Hinfo Hfront
           model_sess Hnew Hshare Hp Hrun.
    split.
    + unfold share_session_of in Hshare.
      destruct (enable_prefix_batch_ st); [|discriminate].
      exact (find_share_session_found _ _ _ _ _ Hshare).
    + unfold LoadModel in Hrun. rewrite Hinfo, Hfront in Hrun.
      fold model_sess in Hrun. unfold AMap.mem in Hrun.
      rewrite Hnew, Hshare in Hrun.
      unfold LoadModel_prefix in Hrun. rewrite Hp in Hrun. simpl in Hrun.
      destruct (LoadModel_share_loop (backend_throughputs si) model_sess
                  share st) as [st1| |] eqn:Eloop; try discriminate.
      simpl in Hrun.
      match type of Hrun with
      | bind (GetModelRoute ?s ?id) _ = _ =>
          destruct (GetModelRoute s id); try discriminate
      end.
      simpl in Hrun. inversion Hrun. subst st'. simpl.
      exact (issued_LoadModel_share_loop _ _ _ _ _ Eloop).
Qed.
End PrefixByPath.

Lemma Example_prepares_requested :
  prepares_requested (BO:=Example.ops) (DB:=Example.DB).
Proof.
  intros b sess rate inst occ H. simpl in H. unfold SpecBackend.prepare in H.
  destruct (Example.profile (SpecBackend.b_gpu_name b) sess) as [[peak mem]|];
    [|discriminate].
  destruct (SpecBackend.b_gpu_total_mem b - SpecBackend.gpu_used_mem b <? mem);
    [discriminate|].
  inversion H. reflexivity.
Qed.

(** [prefix_precondition_by_path] on the example cluster: the waiting 30
    requests per second of the group of [vgg16] are allocated with a
    [LoadModel(vgg16)] followed by [LoadPrefixModel(vgg_face, vgg16)];
    and the request that attaches [vgg_face] to [vgg16] sends one
    [LoadPrefixModel(vgg_face, vgg16)] to backend 10. *)
Lemma prefix_precondition_by_path_witness :
  (exists acc' calls,
      AllocateUnassignedWorkloads (BO:=Example.ops) (FL:=Example.FL) (SS:=StableSort) 16 0
        (Example.pending, ([], Some [])) = Ok acc' /\
      issued_ (fst acc') = issued_ Example.pending ++ calls /\
      prefix_safe (DB:=Example.DB) calls) /\
  (exists st' reply,
      LoadModel (BO:=Example.ops) (FL:=Example.FL) (DB:=Example.DB) Example.serving
                (Example.load_request 1 "vgg_face" 50%Q) 0
      = Ok (st', reply) /\
      issued_ st'
      = issued_ Example.serving
          ++ [(10, ILoadPrefixModel (Example.session "vgg_face")
                                    (Example.session "vgg16"));
              (10, IUpdateModelTableRpc)]).
Proof.
  destruct (prefix_precondition_by_path (BO:=Example.ops) (FL:=Example.FL) (DB:=Example.DB)
              (SS:=StableSort)) as [Halloc Hattach].
  split.
  - assert (Hrun : exists acc',
               AllocateUnassignedWorkloads (BO:=Example.ops) (FL:=Example.FL)
                 (SS:=StableSort) 16 0 (Example.pending, ([], Some []))
               = Ok acc') by (eexists; vm_compute; reflexivity).
    destruct Hrun as [acc' Hrun].
    destruct (Halloc Example_prepares_requested 16%nat 0 _ _ Hrun)
      as [calls [Hcalls Hsafe]].
    exists acc', calls. now repeat split.
  - assert (Hrun : exists st' reply,
               LoadModel (BO:=Example.ops) (FL:=Example.FL) (DB:=Example.DB) Example.serving
                         (Example.load_request 1 "vgg_face" 50%Q) 0
               = Ok (st', reply)) by (eexists; eexists; vm_compute; reflexivity).
    destruct Hrun as (st' & reply & Hrun).
    exists st', reply. split; [exact Hrun|].
    destruct (Hattach Example.serving st'
                (Example.load_request 1 "vgg_face" 50%Q) 0 reply
                (mkModelInfo false 0 0)
                (FrontendDelegate.mk 1 "10.0.0.1" "9001" "9002" 2 0 ["vgg16"%string])
                0%nat (Example.session "vgg16")
                (mkSessionInfo [Example.session "vgg16"] [(10, 50%Q)] [] []
                               0%Q false)
                eq_refl eq_refl eq_refl eq_refl eq_refl Hrun) as [_ Hcalls].
    exact Hcalls.
Defined.

(** ** Sorting: the contract of [std::sort] and what it leaves open *)

Section SortFacts.
Context {A : Type} (key : A -> Q).

Local Notation ordered := (ordered_by key).

Lemma ordered_le x y : ordered x y <-> (key y <= key x)%Q.
Proof. unfold ordered_by, greater_by. apply Qltb_ge. Qed.

Lemma insert_before_perm x l :
  Permutation (x :: l) (insert_before (greater_by key) x l).
Proof.
  induction l as [|y l IH]; simpl; [apply Permutation_refl|].
  destruct (greater_by key y x); [|apply Permutation_refl].
  eapply Permutation_trans; [apply perm_swap|]. now apply perm_skip.
Qed.


Lemma Forall_ordered_weaken x y l :
  (key y <= key x)%Q -> Forall (ordered y) l -> Forall (ordered x) l.
Proof.
  intros Hxy H. induction H as [|z l Hz _ IH]; constructor; [|exact IH].
  apply ordered_le. apply ordered_le in Hz.
  now apply Qle_trans with (y := key y).
Qed.

Lemma insert_before_sorted x l :
  StronglySorted ordered l ->
  StronglySorted ordered (insert_before (greater_by key) x l).
Proof.
  induction 1 as [|y l Hs IH Hy]; simpl.
  - constructor; constructor.
  - destruct (greater_by key y x) eqn:E.
    + constructor; [exact IH|].
      eapply Permutation_Forall; [apply insert_before_perm|].
      constructor; [|exact Hy].
      apply ordered_le. apply Qlt_le_weak.
      unfold greater_by in E. now apply Qltb_lt in E.
    + assert (Hyx : (key y <= key x)%Q).
      { apply ordered_le. exact E. }
      constructor; [now constructor|].
      constructor; [exact E|].
      now apply Forall_ordered_weaken with (y := y).
Qed.


Lemma stable_sort_meets l :
  Permutation l (stable_sort (greater_by key) l) /\
  sorted_by (greater_by key) (stable_sort (greater_by key) l).
Proof.
  unfold stable_sort, sorted_by. induction l as [|x l [IHp IHs]]; simpl.
  - split; constructor.
  - split.
    + eapply Permutation_trans; [|apply insert_before_perm].
      now apply perm_skip.
    + now apply insert_before_sorted.
Qed.


End SortFacts.

Lemma StableSort_contract : std_sort_contract StableSort.
Proof. intros A key l. apply stable_sort_meets. Qed.


(** ** [AllocateUnassignedWorkloads]: what the outcome depends on *)

Section AllocationOrder.
Context {B : Type} {BO : BackendDelegateOps B} {FL : Float32}.

End AllocationOrder.



(** * Further properties of scheduler.cpp *)

(** ** [LoadModel]: what a finished allocation holds *)

Section AllocationAdequate.
Context {B : Type} {BO : BackendDelegateOps B} {FL : Float32}.
Variables (st : Scheduler B) (model_sess : ModelSession) (now : Z).

Local Notation nid := (fun x : (NodeId * B) * InstanceInfo =>
                         node_id (snd (fst x))).
Local Notation rate := (fun x : (NodeId * B) * InstanceInfo =>
                          throughput (snd x)).


End AllocationAdequate.


(** ** [LoadModel]: the reply and the state *)

Section LoadModelOutcome.
Context {B : Type} {BO : BackendDelegateOps B} {FL : Float32}
        {DB : ModelDatabase}.

Lemma mem_emplace_same {V} (k : string) (v : V) (m : list (string * V)) :
  AMap.mem String.eqb k (AMap.emplace String.eqb k v m) = true.
Proof.
  unfold AMap.mem at 1.
  rewrite (find_emplace_same String.eqb String.eqb_eq).
  now destruct (AMap.find String.eqb k m).
Qed.

Lemma LoadModel_share_loop_frame tps model_sess share :
  forall st st' : Scheduler B,
    LoadModel_share_loop tps model_sess share st = Ok st' ->
    frontends_ st' = frontends_ st /\
    session_table_ st' = session_table_ st /\
    heap_ st' = heap_ st /\
    session_subscribers_ st' = session_subscribers_ st /\
    assigned_static_workloads_ st' = assigned_static_workloads_ st.
Proof.
  induction tps as [|[id tp] rest IH]; intros st st' H; simpl in H.
  - inversion H. now repeat split.
  - destruct (GetBackend st id); [|discriminate].
    apply IH in H. simpl in H. exact H.
Qed.

Lemma LoadModel_load_fold_frame p l :
  forall st : Scheduler B,
    let st' := fold_left (LoadModel_load p) l st in
    frontends_ st' = frontends_ st /\
    session_table_ st' = session_table_ st /\
    session_subscribers_ st' = session_subscribers_ st /\
    assigned_static_workloads_ st' = assigned_static_workloads_ st /\
    List.length (heap_ st') = List.length (heap_ st).
Proof.
  induction l as [|x l IH]; intro st; simpl.
  - now repeat split.
  - destruct (IH (LoadModel_load p st x)) as (H1 & H2 & H3 & H4 & H5).
    simpl in *. rewrite H1, H2, H3, H4, H5.
    repeat split; try reflexivity.
    clear. generalize (heap_ st). intro h. revert p.
    induction h as [|s h IHh]; intros [|p]; simpl; try reflexivity.
    now rewrite IHh.
Qed.

(** X2.  A LoadModel call that returns either fails, and then the
    scheduler state is the one before the call and the reply carries
    no route, or is answered CTRL_OK, and then the model is in the
    model database, the session id is in the session table, the
    calling frontend has it in its subscription set, and the reply
    carries the route [GetModelRoute] gives for the id in the new
    state. *)
Theorem LoadModel_outcome :
  forall (st st' : Scheduler B) (request : LoadModelRequest) (now : Z)
         (reply : LoadModelReply),
    LoadModel st request now = Ok (st', reply) ->
    (status reply <> CTRL_OK -> st' = st /\ model_route reply = None) /\
    (status reply = CTRL_OK ->
     exists info route f,
       GetModelInfo (ModelSessionToModelID (req_model_session request))
       = Some info /\
       let id :=
         ModelSessionToString
           (LoadModel_session info (req_model_session request)) in
       AMap.mem String.eqb id (session_table_ st') = true /\
       GetFrontend st' (req_node_id request) = Some f /\
       In id (FrontendDelegate.subscribe_models f) /\
       model_route reply = Some route /\
       GetModelRoute st' id = Ok route).
Proof.
  intros st st' request now reply Hrun. unfold LoadModel in Hrun.
  destruct (GetModelInfo (ModelSessionToModelID (req_model_session request)))
    as [info|] eqn:Hinfo.
  2:{ inversion Hrun. subst. split; [now split | discriminate]. }
  destruct (GetFrontend st (req_node_id request)) as [f0|] eqn:Hfront.
  2:{ inversion Hrun. subst. split; [now split | discriminate]. }
  set (model_sess := LoadModel_session info (req_model_session request))
    in *.
  set (id := ModelSessionToString model_sess) in *.
  assert (Hsub : forall s : Scheduler B,
             frontends_ s = frontends_ st ->
             GetFrontend
               (on_frontend (req_node_id request)
                  (fun f => FrontendDelegate.SubscribeModel f id) s)
               (req_node_id request)
             = Some (FrontendDelegate.SubscribeModel f0 id)).
  { intros s Hs. unfold GetFrontend, on_frontend. simpl.
    rewrite (find_update_same Z.eqb), Hs.
    unfold GetFrontend in Hfront. rewrite Hfront. reflexivity. }
  destruct (AMap.mem String.eqb id (session_table_ st)) eqn:Emem.
  - (* the session is loaded already *)
    unfold LoadModel_existing in Hrun.
    destruct (GetModelRoute st id) as [route| |] eqn:Eroute;
      try discriminate.
    simpl in Hrun. inversion Hrun. subst st' reply. clear Hrun.
    split; [intro Hc; now contradiction Hc|].
    intros _. exists info, route, (FrontendDelegate.SubscribeModel f0 id).
    split; [reflexivity|]. cbv zeta. fold model_sess id.
    split; [exact Emem|].
    split; [apply (Hsub st eq_refl)|].
    split; [apply SSet_insert_In|].
    split; [reflexivity|].
    rewrite <- Eroute. now apply GetModelRoute_ext.
  - destruct (share_session_of st model_sess) as [[p share]|].
    + (* the session attaches to a prefix-sharing one *)
      unfold LoadModel_prefix in Hrun.
      destruct (deref st p) as [si|]; [|discriminate]. simpl in Hrun.
      destruct (LoadModel_share_loop (backend_throughputs si) model_sess
                  share st) as [st1| |] eqn:Eloop; try discriminate.
      simpl in Hrun.
      destruct (LoadModel_share_loop_frame _ _ _ _ _ Eloop)
        as (Hf1 & _).
      match type of Hrun with
      | bind (GetModelRoute ?s ?i) _ = _ =>
          destruct (GetModelRoute s i) as [route| |] eqn:Eroute;
            try discriminate
      end.
      simpl in Hrun. inversion Hrun. subst st' reply. clear Hrun.
      split; [intro Hc; now contradiction Hc|].
      intros _. exists info, route, (FrontendDelegate.SubscribeModel f0 id).
      split; [reflexivity|]. cbv zeta. fold model_sess id.
      split; [apply mem_emplace_same|].
      split; [apply Hsub; exact Hf1|].
      split; [apply SSet_insert_In|].
      split; [reflexivity | exact Eroute].
    + (* a new session *)
      unfold LoadModel_new in Hrun.
      destruct (LoadModel_allocate st model_sess now
                  (estimate_workload request)) as [[l|]| |];
        try discriminate; simpl in Hrun.
      2:{ inversion Hrun. subst. split; [now split | discriminate]. }
      match type of Hrun with
      | bind (GetModelRoute ?s ?i) _ = _ =>
          destruct (GetModelRoute s i) as [route| |] eqn:Eroute;
            try discriminate
      end.
      simpl in Hrun. inversion Hrun. subst st' reply. clear Hrun.
      split; [intro Hc; now contradiction Hc|].
      intros _. exists info, route, (FrontendDelegate.SubscribeModel f0 id).
      split; [reflexivity|]. cbv zeta. fold model_sess id.
      split; [apply mem_emplace_same|].
      split.
      { apply Hsub. simpl.
        exact (proj1 (LoadModel_load_fold_frame _ l _)). }
      split; [apply SSet_insert_In|].
      split; [reflexivity | exact Eroute].
Qed.
End LoadModelOutcome.

(** [LoadModel_outcome] on the example cluster: the first request for
    [vgg16] is answered CTRL_OK and the session is in the table. *)
Lemma LoadModel_outcome_witness :
  exists st' reply,
    LoadModel (BO:=Example.ops) (FL:=Example.FL) (DB:=Example.DB) Example.cluster
              (Example.load_request 1 "vgg16" 50%Q) 0 = Ok (st', reply) /\
    status reply = CTRL_OK /\
    AMap.mem String.eqb "vgg16"%string (session_table_ st') = true.
Proof.
  assert (Hrun : exists st' reply,
             LoadModel (BO:=Example.ops) (FL:=Example.FL) (DB:=Example.DB) Example.cluster
                       (Example.load_request 1 "vgg16" 50%Q) 0
             = Ok (st', reply) /\ status reply = CTRL_OK)
    by (eexists; eexists; split; [vm_compute; reflexivity | reflexivity]).
  destruct Hrun as (st' & reply & Hrun & Hok).
  exists st', reply. split; [exact Hrun|]. split; [exact Hok|].
  destruct (LoadModel_outcome (BO:=Example.ops) (FL:=Example.FL) (DB:=Example.DB)
Example.cluster st' (Example.load_request 1 "vgg16" 50%Q) 0
reply Hrun) as [_ H].
destruct (H Hok) as (info & route & f & Hinfo & Hmem & _).
vm_compute in Hinfo. inversion Hinfo. subst info. exact Hmem.
Defined.

Section LoadModelSubscribers.
Context {B : Type} {BO : BackendDelegateOps B} {FL : Float32}
        {DB : ModelDatabase}.

(** X3.  When LoadModel loads a session that is not in the session
    table (on a new allocation or by attaching it to a prefix-sharing
    session), its subscriber set is created with [emplace]: an entry
    that [session_subscribers_] still holds for the id is left as it
    is, and the calling frontend is recorded only when there is no
    entry. *)
Theorem LoadModel_subscribers_emplace :
  forall (st st' : Scheduler B) (request : LoadModelRequest) (now : Z)
         (reply : LoadModelReply) (info : ModelInfo),
    GetModelInfo (ModelSessionToModelID (req_model_session request))
    = Some info ->
    let id :=
      ModelSessionToString
        (LoadModel_session info (req_model_session request)) in
    AMap.find String.eqb id (session_table_ st) = None ->
    LoadModel st request now = Ok (st', reply) ->
    status reply = CTRL_OK ->
    AMap.find String.eqb id (session_subscribers_ st')
    = match AMap.find String.eqb id (session_subscribers_ st) with
      | Some old => Some old
      | None => Some [req_node_id request]
      end.
Proof.
  intros st st' request now reply info Hinfo id Hnew Hrun Hok.
  unfold LoadModel in Hrun. rewrite Hinfo in Hrun.
  destruct (GetFrontend st (req_node_id request));
    [|inversion Hrun; subst; discriminate].
  fold id in Hrun. unfold AMap.mem in Hrun. rewrite Hnew in Hrun.
  destruct (share_session_of st _) as [[p share]|].
  - unfold LoadModel_prefix in Hrun.
    destruct (deref st p) as [si|]; [|discriminate]. simpl in Hrun.
    destruct (LoadModel_share_loop (backend_throughputs si) _ share st)
      as [st1| |] eqn:Eloop; try discriminate.
    simpl in Hrun.
    destruct (LoadModel_share_loop_frame _ _ _ _ _ Eloop)
      as (_ & _ & _ & Hs1 & _).
    match type of Hrun with
    | bind (GetModelRoute ?s ?i) _ = _ =>
        destruct (GetModelRoute s i); try discriminate
    end.
    simpl in Hrun. inversion Hrun. subst st' reply. simpl.
    rewrite (find_emplace_same String.eqb String.eqb_eq), Hs1.
    reflexivity.
  - unfold LoadModel_new in Hrun.
    destruct (LoadModel_allocate st _ now (estimate_workload request))
      as [[l|]| |]; try discriminate; simpl in Hrun.
    2:{ inversion Hrun. subst. discriminate. }
    match type of Hrun with
    | bind (GetModelRoute ?s ?i) _ = _ =>
        destruct (GetModelRoute s i); try discriminate
    end.
    simpl in Hrun. inversion Hrun. subst st' reply. simpl.
    rewrite (find_emplace_same String.eqb String.eqb_eq).
    destruct (LoadModel_load_fold_frame
                (List.length (heap_ st)) l
                (set_heap (heap_ st ++ [SessionInfo_new]) st))
      as (_ & _ & Hs & _).
    simpl in Hs. rewrite Hs. reflexivity.
Qed.
End LoadModelSubscribers.

(** [LoadModel_subscribers_emplace] on the example cluster: frontend 1
    loaded [vgg16] and left, which emptied the subscriber set of
    [vgg16] without erasing it; frontend 2 loads [vgg16] again, is
    answered CTRL_OK and subscribes, and the subscriber set stays
    empty. *)
Lemma LoadModel_subscribers_emplace_witness :
  exists st' reply f,
    LoadModel (BO:=Example.ops) (FL:=Example.FL) (DB:=Example.DB) Example.abandoned
              (Example.load_request 2 "vgg16" 50%Q) 0 = Ok (st', reply) /\
    status reply = CTRL_OK /\
    GetFrontend st' 2 = Some f /\
    FrontendDelegate.subscribe_models f = ["vgg16"%string] /\
    AMap.find String.eqb "vgg16"%string (session_subscribers_ st')
    = Some [].
Proof.
  assert (Hrun : exists st' reply f,
             LoadModel (BO:=Example.ops) (FL:=Example.FL) (DB:=Example.DB) Example.abandoned
                       (Example.load_request 2 "vgg16" 50%Q) 0
             = Ok (st', reply) /\ status reply = CTRL_OK /\
             GetFrontend st' 2 = Some f /\
             FrontendDelegate.subscribe_models f = ["vgg16"%string])
    by (eexists; eexists; eexists; split; [vm_compute; reflexivity|];
        split; [reflexivity|]; split; reflexivity).
  destruct Hrun as (st' & reply & f & Hrun & Hok & Hf & Hsub).
  exists st', reply, f. repeat (split; [assumption|]).
  exact (LoadModel_subscribers_emplace (BO:=Example.ops) (FL:=Example.FL) (DB:=Example.DB)
Example.abandoned st' (Example.load_request 2 "vgg16" 50%Q) 0
reply (mkModelInfo false 0 0) eq_refl eq_refl Hrun Hok).
Defined.

(** ** Registering and unregistering a frontend *)

Section AMapErase.
Context {K V : Type} (eqb : K -> K -> bool).
Hypothesis eqb_eq : forall a b, eqb a b = true <-> a = b.

Lemma erase_fresh (k : K) (m : list (K * V)) :
  AMap.mem eqb k m = false -> AMap.erase eqb k m = m.
Proof.
  unfold AMap.mem. induction m as [|[k' v] m IH]; simpl; [reflexivity|].
  destruct (eqb k k'); [discriminate|]. intro H. now rewrite IH.
Qed.

Lemma erase_app (k : K) (m m' : list (K * V)) :
  AMap.erase eqb k (m ++ m') = AMap.erase eqb k m ++ AMap.erase eqb k m'.
Proof.
  induction m as [|[k' v] m IH]; simpl; [reflexivity|].
  destruct (eqb k k'); [exact IH | simpl; now rewrite IH].
Qed.

Lemma find_erase_same (k : K) (m : list (K * V)) :
  AMap.find eqb k (AMap.erase eqb k m) = None.
Proof.
  induction m as [|[k' v] m IH]; simpl; [reflexivity|].
  destruct (eqb k k') eqn:E; [exact IH|]. simpl. now rewrite E.
Qed.

Lemma find_erase_other (k k' : K) (m : list (K * V)) :
  k <> k' ->
  AMap.find eqb k' (AMap.erase eqb k m) = AMap.find eqb k' m.
Proof.
  intro Hne. induction m as [|[k0 v] m IH]; simpl; [reflexivity|].
  destruct (eqb k k0) eqn:E.
  - apply eqb_eq in E. subst k0.
    rewrite (eqb_neq_of eqb eqb_eq k' k); [exact IH | congruence].
  - simpl. destruct (eqb k' k0); [reflexivity | exact IH].
Qed.
End AMapErase.

Section FrontendRoundTrip.
Context {B : Type} {BO : BackendDelegateOps B} {FL : Float32}
        {DB : ModelDatabase}.
Variable BEACON_INTERVAL_SEC : Z.

Lemma set_frontends_same (st : Scheduler B) :
  set_frontends (frontends_ st) st = st.
Proof. now destruct st. Qed.

(** X4.  Registering a frontend under a node id that is not in use
    succeeds and stores the delegate under that id; as long as it is
    stored, every further registration with the same id is answered
    CTRL_FRONTEND_NODE_ID_CONFLICT, carries no beacon interval and
    changes nothing.  Unregistering a frontend that subscribed to no
    session gives back the state before its registration. *)
Theorem RegisterFrontend_round_trip :
  forall (st : Scheduler B) (f : FrontendDelegate.t),
    AMap.mem Z.eqb (FrontendDelegate.node_id f) (frontends_ st) = false ->
    let st1 := fst (RegisterFrontend BEACON_INTERVAL_SEC f st) in
    reg_status (snd (RegisterFrontend BEACON_INTERVAL_SEC f st)) = CTRL_OK /\
    GetFrontend st1 (FrontendDelegate.node_id f) = Some f /\
    (forall f',
        FrontendDelegate.node_id f' = FrontendDelegate.node_id f ->
        RegisterFrontend BEACON_INTERVAL_SEC f' st1
        = (st1, mkRegisterReply CTRL_FRONTEND_NODE_ID_CONFLICT None)) /\
    (FrontendDelegate.subscribe_models f = [] ->
     UnregisterFrontend (FrontendDelegate.node_id f) st1 = Ok st).
Proof.
  intros st f Hfresh st1.
  assert (E1 : st1 = set_frontends
                       (frontends_ st ++ [(FrontendDelegate.node_id f, f)])
                       st).
  { unfold st1, RegisterFrontend. rewrite Hfresh. simpl.
    unfold AMap.set. now rewrite Hfresh. }
  assert (Hget : GetFrontend st1 (FrontendDelegate.node_id f) = Some f).
  { rewrite E1. unfold GetFrontend. simpl. rewrite (find_app Z.eqb).
    unfold AMap.mem in Hfresh.
    destruct (AMap.find Z.eqb (FrontendDelegate.node_id f) (frontends_ st));
      [discriminate|].
    simpl. now rewrite Z.eqb_refl. }
  split.
  { unfold RegisterFrontend. now rewrite Hfresh. }
  split; [exact Hget|]. split.
  - intros f' Hid. unfold RegisterFrontend. rewrite Hid.
    unfold AMap.mem. unfold GetFrontend in Hget. now rewrite Hget.
  - intro Hnone. unfold UnregisterFrontend. rewrite Hget.
    unfold RemoveFrontend. rewrite Hnone. simpl.
    rewrite E1. simpl. rewrite erase_app. simpl. rewrite Z.eqb_refl.
    rewrite (erase_fresh Z.eqb _ _ Hfresh), app_nil_r.
    unfold update_model_tables. simpl.
    replace (set_frontends (frontends_ st)
               (set_frontends
                  (frontends_ st ++ [(FrontendDelegate.node_id f, f)]) st))
      with (set_frontends (frontends_ st) st) by reflexivity.
    now rewrite set_frontends_same.
Qed.
End FrontendRoundTrip.

(** [RegisterFrontend_round_trip] on the started scheduler. *)
Lemma RegisterFrontend_round_trip_witness :
  UnregisterFrontend (BO:=Example.ops) (DB:=Example.DB) 1
    (fst (RegisterFrontend 2
            (FrontendDelegate.new 1 "10.0.0.1" "9001" "9002" 2 0)
Example.started))
= Ok Example.started.
Proof.
apply (RegisterFrontend_round_trip (BO:=Example.ops) (DB:=Example.DB) 2
Example.started
(FrontendDelegate.new 1 "10.0.0.1" "9001" "9002" 2 0) eq_refl).
reflexivity.
Defined.

(** ** [RemoveFrontend] *)

Lemma ZSet_erase_not_In (x : Z) (s : list Z) : ~ In x (ZSet.erase x s).
Proof.
  unfold ZSet.erase. intro H. apply filter_In in H. destruct H as [_ H].
  now rewrite Z.eqb_refl in H.
Qed.

Lemma ZSet_erase_In (x y : Z) (s : list Z) :
  In y (ZSet.erase x s) <-> In y s /\ y <> x.
Proof.
  unfold ZSet.erase. rewrite filter_In. split; intros [H1 H2]; split;
    try assumption.
  - intro E. subst y. now rewrite Z.eqb_refl in H2.
  - apply negb_true_iff. apply Z.eqb_neq. congruence.
Qed.

Lemma ZSet_erase_idem (x : Z) (s : list Z) :
  ZSet.erase x (ZSet.erase x s) = ZSet.erase x s.
Proof.
  unfold ZSet.erase. induction s as [|y s IH]; simpl; [reflexivity|].
  destruct (negb (x =? y)) eqn:E; simpl; [rewrite E|]; now rewrite ?IH.
Qed.

Section RemoveFrontendFacts.
Context {B : Type} {BO : BackendDelegateOps B} {FL : Float32}
        {DB : ModelDatabase}.

Lemma unload_on_fold id tps :
  forall (st : Scheduler B) ub acc',
    result_fold (unload_on id) tps (st, ub) = Ok acc' ->
    session_subscribers_ (fst acc') = session_subscribers_ st /\
    session_table_ (fst acc') = session_table_ st /\
    heap_ (fst acc') = heap_ st /\
    frontends_ (fst acc') = frontends_ st /\
    issued_ (fst acc')
    = issued_ st ++ map (fun e => (fst e, IUnloadModel id)) tps.
Proof.
  induction tps as [|e rest IH]; intros st ub acc' H; simpl in H.
  - inversion H. simpl. rewrite app_nil_r. now repeat split.
  - unfold unload_on at 1 in H. simpl in H.
    destruct (GetBackend st (fst e)); [|discriminate]. simpl in H.
    apply IH in H. simpl in H.
    destruct H as (H1 & H2 & H3 & H4 & H5).
    rewrite H5, <- app_assoc. now repeat split.
Qed.

Lemma update_model_tables_frame keys :
  forall st : Scheduler B,
    let st' := update_model_tables keys st in
    session_subscribers_ st' = session_subscribers_ st /\
    session_table_ st' = session_table_ st /\
    heap_ st' = heap_ st /\
    frontends_ st' = frontends_ st /\
    assigned_static_workloads_ st' = assigned_static_workloads_ st.
Proof.
  unfold update_model_tables.
  induction keys as [|k keys IH]; intro st; simpl; [now repeat split|].
  apply (IH (issue k IUpdateModelTableRpc
                   (on_backend k UpdateModelTableRpc st))).
Qed.

Lemma RemoveFrontend_session_subs f (acc acc' : Scheduler B * list NodeId)
      id :
  RemoveFrontend_session f acc id = Ok acc' ->
  exists old,
    AMap.find String.eqb id (session_subscribers_ (fst acc)) = Some old /\
    session_subscribers_ (fst acc')
    = AMap.update String.eqb id
        (fun _ => ZSet.erase (FrontendDelegate.node_id f) old)
        (session_subscribers_ (fst acc)).
Proof.
  unfold RemoveFrontend_session. intro H.
  destruct (AMap.find String.eqb id (session_subscribers_ (fst acc)))
    as [old|]; [|discriminate].
  simpl in H. exists old. split; [reflexivity|].
  destruct (ZSet.erase (FrontendDelegate.node_id f) old).
  - match type of H with
    | bind (session_at ?s ?i) _ = _ =>
        destruct (session_at s i) as [ps| |]; try discriminate
    end.
    simpl in H. destruct (has_static_workload (snd ps)).
    + inversion H. reflexivity.
    + match type of H with
      | bind (result_fold ?g ?l ?a) _ = _ =>
          destruct (result_fold g l a) as [r| |] eqn:Er; try discriminate
      end.
      simpl in H. inversion H. subst acc'. simpl.
      apply unload_on_fold in Er. simpl in Er. exact (proj1 Er).
  - inversion H. reflexivity.
Qed.

Lemma RemoveFrontend_fold_subs f l :
  forall (acc acc' : Scheduler B * list NodeId),
    result_fold (RemoveFrontend_session f) l acc = Ok acc' ->
    forall id,
      AMap.find String.eqb id (session_subscribers_ (fst acc'))
      = if SSet.mem id l
        then option_map (ZSet.erase (FrontendDelegate.node_id f))
               (AMap.find String.eqb id (session_subscribers_ (fst acc)))
        else AMap.find String.eqb id (session_subscribers_ (fst acc)).
Proof.
  induction l as [|id0 rest IH]; intros acc acc' H id; simpl in H.
  - inversion H. reflexivity.
  - destruct (RemoveFrontend_session f acc id0) as [acc1| |] eqn:E;
      try discriminate.
    simpl in H. rewrite (IH _ _ H id).
    destruct (RemoveFrontend_session_subs _ _ _ _ E) as (old & Hold & Hs).
    rewrite Hs. unfold SSet.mem. simpl.
    destruct (String.eqb id id0) eqn:Eid.
    + apply String.eqb_eq in Eid. subst id0. simpl.
      rewrite (find_update_same String.eqb), Hold. simpl.
      rewrite ZSet_erase_idem. now destruct (existsb _ rest).
    + simpl. apply String.eqb_neq in Eid.
      rewrite (find_update_other String.eqb String.eqb_eq); [reflexivity|].
      congruence.
Qed.

(** X5.  [RemoveFrontend] takes the frontend out of the subscriber set
    of every session it subscribed to, leaves every other frontend in
    these sets and does not touch the sets of the other sessions.  It
    keeps the (possibly empty) entries: no id is erased from
    [session_subscribers_]. *)
Theorem RemoveFrontend_unsubscribes :
  forall (f : FrontendDelegate.t) (st st' : Scheduler B),
    RemoveFrontend f st = Ok st' ->
    forall id,
      (In id (FrontendDelegate.subscribe_models f) ->
       exists old,
         AMap.find String.eqb id (session_subscribers_ st) = Some old /\
         AMap.find String.eqb id (session_subscribers_ st')
         = Some (ZSet.erase (FrontendDelegate.node_id f) old) /\
         ~ In (FrontendDelegate.node_id f)
              (ZSet.erase (FrontendDelegate.node_id f) old) /\
         forall other, In other old ->
                       other <> FrontendDelegate.node_id f ->
                       In other (ZSet.erase (FrontendDelegate.node_id f) old))
      /\
      (~ In id (FrontendDelegate.subscribe_models f) ->
       AMap.find String.eqb id (session_subscribers_ st')
       = AMap.find String.eqb id (session_subscribers_ st)).
Proof.
  intros f st st' H id. unfold RemoveFrontend in H.
  destruct (result_fold (RemoveFrontend_session f)
              (FrontendDelegate.subscribe_models f) (st, []))
    as [r| |] eqn:Er; try discriminate.
  simpl in H. inversion H. subst st'. clear H.
  destruct (update_model_tables_frame (snd r) (fst r)) as (Hs & _).
  rewrite Hs. pose proof (RemoveFrontend_fold_subs _ _ _ _ Er id) as Hid.
  simpl in Hid. split.
  - intro Hin.
    assert (Em : SSet.mem id (FrontendDelegate.subscribe_models f) = true).
    { unfold SSet.mem. apply existsb_exists. exists id.
      split; [exact Hin | apply String.eqb_refl]. }
    rewrite Em in Hid.
    destruct (AMap.find String.eqb id (session_subscribers_ st))
      as [old|] eqn:Eold.
    + exists old. split; [reflexivity|]. split; [exact Hid|].
      split; [apply ZSet_erase_not_In|].
      intros other Ho Hne. apply ZSet_erase_In. now split.
    + exfalso.
      (* the loop throws at a session without a subscriber entry *)
      clear Hid Hs.
      assert (Hthrow :
                forall l (acc : Scheduler B * list NodeId) r0,
                  result_fold (RemoveFrontend_session f) l acc = Ok r0 ->
                  In id l ->
                  AMap.find String.eqb id (session_subscribers_ (fst acc))
                  <> None).
      { induction l as [|id0 rest IH]; intros acc r0 Hr Hl; [destruct Hl|].
        simpl in Hr.
        destruct (RemoveFrontend_session f acc id0) as [acc1| |] eqn:E;
          try discriminate.
        simpl in Hr.
        destruct (RemoveFrontend_session_subs _ _ _ _ E)
          as (old & Hold & Hs1).
        destruct (String.eqb id0 id) eqn:Eid.
        - apply String.eqb_eq in Eid. subst id0. congruence.
        - apply String.eqb_neq in Eid.
          destruct Hl as [Hl | Hl]; [congruence|].
          specialize (IH _ _ Hr Hl). rewrite Hs1 in IH.
          rewrite (find_update_other String.eqb String.eqb_eq) in IH;
            assumption. }
      exact (Hthrow _ _ _ Er Hin Eold).
  - intro Hnin.
    assert (Em : SSet.mem id (FrontendDelegate.subscribe_models f) = false).
    { unfold SSet.mem. destruct (existsb _ _) eqn:E; [|reflexivity].
      apply existsb_exists in E. destruct E as [y [Hy E]].
      apply String.eqb_eq in E. subst y. contradiction. }
    now rewrite Em in Hid.
Qed.
End RemoveFrontendFacts.

(** In [Example.serving] frontend 1 is the only subscriber of [vgg16]:
    when it is removed the entry of [vgg16] stays, with no subscriber. *)
Lemma RemoveFrontend_unsubscribes_witness :
  exists f st',
    GetFrontend Example.serving 1 = Some f /\
    RemoveFrontend (BO:=Example.ops) (DB:=Example.DB) f Example.serving
    = Ok st' /\
    AMap.find String.eqb "vgg16"%string (session_subscribers_ st') = Some [].
Proof.
  assert (Hrun : exists f st',
             GetFrontend Example.serving 1 = Some f /\
             RemoveFrontend (BO:=Example.ops) (DB:=Example.DB) f
Example.serving = Ok st' /\
In "vgg16"%string (FrontendDelegate.subscribe_models f) /\
FrontendDelegate.node_id f = 1 /\
AMap.find String.eqb "vgg16"%string
(session_subscribers_ Example.serving) = Some [1])
by (eexists; eexists; split; [reflexivity|];
split; [vm_compute; reflexivity|];
split; [left; reflexivity|]; split; reflexivity).
destruct Hrun as (f & st' & Hf & Hrun & Hin & Hid & Hsubs).
exists f, st'. split; [assumption|]. split; [assumption|].
destruct (RemoveFrontend_unsubscribes (BO:=Example.ops) (DB:=Example.DB)
f Example.serving st' Hrun "vgg16"%string) as [H _].
destruct (H Hin) as (old & Hold & Hnew & _).
rewrite Hsubs in Hold. inversion Hold. subst old.
rewrite Hnew, Hid. reflexivity.
Defined.

Section RemoveFrontendSessions.
Context {B : Type} {BO : BackendDelegateOps B} {FL : Float32}
        {DB : ModelDatabase}.

Lemma session_static_ext (st1 st2 : Scheduler B) id :
  AMap.find String.eqb id (session_table_ st1)
  = AMap.find String.eqb id (session_table_ st2) ->
  (forall p, option_map has_static_workload (deref st1 p)
             = option_map has_static_workload (deref st2 p)) ->
  session_static st1 id = session_static st2 id.
Proof.
  intros Ht Hh. unfold session_static, session_at. rewrite Ht.
  destruct (AMap.find String.eqb id (session_table_ st2)) as [p|];
    [|reflexivity].
  simpl. specialize (Hh p).
  destruct (deref st1 p), (deref st2 p); simpl in *; congruence.
Qed.

(** What one round of the loop of [RemoveFrontend] does to the session
    table and to the flags of the records. *)
Lemma RemoveFrontend_session_table f (acc acc' : Scheduler B * list NodeId)
      id0 :
  RemoveFrontend_session f acc id0 = Ok acc' ->
  (forall p, option_map has_static_workload (deref (fst acc') p)
             = option_map has_static_workload (deref (fst acc) p)) /\
  (forall id, id <> id0 ->
              AMap.find String.eqb id (session_table_ (fst acc'))
              = AMap.find String.eqb id (session_table_ (fst acc))) /\
  AMap.find String.eqb id0 (session_table_ (fst acc'))
  = (if last_subscriber (FrontendDelegate.node_id f) (fst acc) id0
        && negb (session_static (fst acc) id0)
     then None
     else AMap.find String.eqb id0 (session_table_ (fst acc))).
Proof.
  unfold RemoveFrontend_session, last_subscriber. intro H.
  destruct (AMap.find String.eqb id0 (session_subscribers_ (fst acc)))
    as [old|]; [|discriminate].
  simpl in H.
  destruct (ZSet.erase (FrontendDelegate.node_id f) old).
  - unfold session_static.
    match type of H with
    | bind (session_at ?s ?i) _ = _ =>
        change (session_at s i) with (session_at (fst acc) i) in H
    end.
    destruct (session_at (fst acc) id0) as [ps| |]; try discriminate.
    simpl in H. destruct (has_static_workload (snd ps)).
    + inversion H. simpl. now repeat split.
    + match type of H with
      | bind (result_fold ?g ?l ?a) _ = _ =>
          destruct (result_fold g l a) as [r| |] eqn:Er; try discriminate
      end.
      simpl in H. inversion H. subst acc'. simpl.
      apply unload_on_fold in Er. simpl in Er.
      destruct Er as (_ & Ht & Hh & _).
      split; [|split].
      * intro p. unfold deref. simpl. rewrite Hh. simpl.
        rewrite nth_error_list_update.
        destruct (Nat.eqb (fst ps) p); [|reflexivity].
        now destruct (nth_error (heap_ (fst acc)) p).
      * intros id Hne. rewrite Ht.
        apply (find_erase_other String.eqb String.eqb_eq). congruence.
      * rewrite Ht. apply (find_erase_same String.eqb).
  - inversion H. simpl. now repeat split.
Qed.

Lemma RemoveFrontend_fold_table f l :
  forall (acc acc' : Scheduler B * list NodeId),
    result_fold (RemoveFrontend_session f) l acc = Ok acc' ->
    forall id,
      AMap.find String.eqb id (session_table_ (fst acc'))
      = (if SSet.mem id l
            && last_subscriber (FrontendDelegate.node_id f) (fst acc) id
            && negb (session_static (fst acc) id)
         then None
         else AMap.find String.eqb id (session_table_ (fst acc))).
Proof.
  induction l as [|id0 rest IH]; intros acc acc' H id; simpl in H.
  - inversion H. reflexivity.
  - destruct (RemoveFrontend_session f acc id0) as [acc1| |] eqn:E;
      try discriminate.
    simpl in H. rewrite (IH _ _ H id).
    destruct (RemoveFrontend_session_table _ _ _ _ E) as (Hh & Hother & Hid).
    destruct (RemoveFrontend_session_subs _ _ _ _ E) as (old & Hold & Hs).
    unfold SSet.mem. simpl.
    destruct (String.eqb id id0) eqn:Eid.
    + apply String.eqb_eq in Eid. subst id0. simpl. rewrite Hid.
      assert (Hl : last_subscriber (FrontendDelegate.node_id f) (fst acc1) id
                   = last_subscriber (FrontendDelegate.node_id f) (fst acc) id).
      { unfold last_subscriber. rewrite Hs.
        rewrite (find_update_same String.eqb), Hold. simpl.
        now rewrite ZSet_erase_idem. }
      rewrite Hl.
      destruct (last_subscriber (FrontendDelegate.node_id f) (fst acc) id);
        simpl; [|now rewrite andb_false_r].
      destruct (session_static (fst acc) id) eqn:Est; simpl.
      * rewrite (session_static_ext (fst acc1) (fst acc) id), Est.
        -- now rewrite andb_false_r.
        -- rewrite Hid. reflexivity.
        -- exact Hh.
      * match goal with
        | |- (if ?c then _ else _) = _ => now destruct c
        end.
    + simpl. apply String.eqb_neq in Eid.
      assert (Hl : last_subscriber (FrontendDelegate.node_id f) (fst acc1) id
                   = last_subscriber (FrontendDelegate.node_id f) (fst acc) id).
      { unfold last_subscriber. rewrite Hs.
        rewrite (find_update_other String.eqb String.eqb_eq);
          [reflexivity | congruence]. }
      rewrite Hl, (Hother id Eid).
      now rewrite (session_static_ext (fst acc1) (fst acc) id
                     (Hother id Eid) Hh).
Qed.

(** X6.  [RemoveFrontend] erases from [session_table_] exactly the
    sessions the frontend subscribed to, was the last subscriber of, and
    that have no static workload; every other id keeps the record it
    pointed to.  A session with a static workload therefore survives
    the departure of its last frontend. *)
Theorem RemoveFrontend_drops_unsubscribed_sessions :
  forall (f : FrontendDelegate.t) (st st' : Scheduler B),
    RemoveFrontend f st = Ok st' ->
    forall id,
      AMap.find String.eqb id (session_table_ st')
      = (if SSet.mem id (FrontendDelegate.subscribe_models f)
            && last_subscriber (FrontendDelegate.node_id f) st id
            && negb (session_static st id)
         then None
         else AMap.find String.eqb id (session_table_ st)).
Proof.
  intros f st st' H id. unfold RemoveFrontend in H.
  destruct (result_fold (RemoveFrontend_session f)
              (FrontendDelegate.subscribe_models f) (st, []))
    as [r| |] eqn:Er; try discriminate.
  simpl in H. inversion H. subst st'. clear H.
  destruct (update_model_tables_frame (snd r) (fst r)) as (_ & Ht & _).
  rewrite Ht. exact (RemoveFrontend_fold_table _ _ _ _ Er id).
Qed.
End RemoveFrontendSessions.

(** In [Example.serving] frontend 1 is the last subscriber of [vgg16],
    which has no static workload: the session is dropped. *)
Lemma RemoveFrontend_drops_unsubscribed_sessions_witness :
  exists f st',
    GetFrontend Example.serving 1 = Some f /\
    RemoveFrontend (BO:=Example.ops) (DB:=Example.DB) f Example.serving
    = Ok st' /\
    AMap.find String.eqb "vgg16"%string (session_table_ Example.serving)
    = Some 0%nat /\
    AMap.find String.eqb "vgg16"%string (session_table_ st') = None.
Proof.
  assert (Hrun : exists f st',
             GetFrontend Example.serving 1 = Some f /\
             RemoveFrontend (BO:=Example.ops) (DB:=Example.DB) f
Example.serving = Ok st' /\
SSet.mem "vgg16"%string (FrontendDelegate.subscribe_models f)
&& last_subscriber (FrontendDelegate.node_id f) Example.serving
    "vgg16"%string
&& negb (session_static Example.serving "vgg16"%string) = true)
by (eexists; eexists; split; [reflexivity|];
split; [vm_compute; reflexivity|]; reflexivity).
destruct Hrun as (f & st' & Hf & Hrun & Hc).
exists f, st'. split; [assumption|]. split; [assumption|].
split; [reflexivity|].
rewrite (RemoveFrontend_drops_unsubscribed_sessions
(BO:=Example.ops) (DB:=Example.DB) f Example.serving st' Hrun
"vgg16"%string).
now rewrite Hc.
Defined.

(** ** The schedule of [Run] *)

Section RunSchedule.
Variables beacon epoch : Z.
Variable enable : bool.
Hypothesis beacon_range : 0 < beacon < 2 ^ 31.
Hypothesis epoch_range : 0 < epoch < 2 ^ 31.

Lemma to_uint64_small z : 0 <= z < 2 ^ 64 -> to_uint64 z = z.
Proof. intro H. unfold to_uint64. now apply Z.mod_small. Qed.

Lemma to_int32_small z : 0 <= z < 2 ^ 31 -> to_int32 z = z.
Proof.
  intro H. unfold to_int32. rewrite Z.mod_small; lia.
Qed.

Lemma to_int64_small z : 0 <= z < 2 ^ 63 -> to_int64 z = z.
Proof.
  intro H. unfold to_int64. rewrite Z.mod_small; lia.
Qed.

Lemma multiple_step (b lo x : Z) :
  0 < b -> lo mod b = 0 -> x mod b = 0 -> lo < x -> lo + b <= x.
Proof.
  intros Hb Hlo Hx Hlt.
  apply Z.mod_divide in Hlo; [|lia]. apply Z.mod_divide in Hx; [|lia].
  destruct Hlo as [k Hk]. destruct Hx as [j Hj]. subst lo x.
  assert (k < j) by (apply (Z.mul_lt_mono_pos_r b); lia).
  assert ((k + 1) * b <= j * b) by (apply Z.mul_le_mono_nonneg_r; lia).
  lia.
Qed.

Lemma multiple_next (b l : Z) :
  0 < b -> l mod b = 0 -> (l + b) mod b = 0.
Proof.
  intros Hb Hl. replace (l + b) with (l + 1 * b) by lia.
  rewrite Z.mod_add; lia.
Qed.

Lemma mark_floor (b e l : Z) :
  0 < b -> 0 <= l <= e -> l mod b = 0 -> e <= l + b ->
  let l' := if (0 <? e) && (e mod b =? 0) then e else l in
  0 <= l' <= e /\ e < l' + b /\ l' mod b = 0.
Proof.
  intros Hb Hl Hm He. simpl.
  destruct ((0 <? e) && (e mod b =? 0)) eqn:E.
  - apply andb_true_iff in E. destruct E as [E1 E2].
    apply Z.ltb_lt in E1. apply Z.eqb_eq in E2. lia.
  - repeat split; try lia.
    destruct (Z.eq_dec e (l + b)) as [Heq|]; [|lia].
    exfalso. apply andb_false_iff in E. destruct E as [E|E].
    + apply Z.ltb_ge in E. lia.
    + apply Z.eqb_neq in E. apply E. subst e.
      rewrite <- (Z.mul_1_l b) at 1. rewrite Z.mod_add; lia.
Qed.

Lemma Run_marks_floor (r : RunState) :
  Run_on_schedule beacon epoch r ->
  (0 <= last_beacon (Run_marks beacon epoch r) <= elapse_sec r /\
   elapse_sec r < last_beacon (Run_marks beacon epoch r) + beacon /\
   last_beacon (Run_marks beacon epoch r) mod beacon = 0) /\
  (0 <= last_epoch (Run_marks beacon epoch r) <= elapse_sec r /\
   elapse_sec r < last_epoch (Run_marks beacon epoch r) + epoch /\
   last_epoch (Run_marks beacon epoch r) mod epoch = 0).
Proof.
  intros (Hb & He & Hbm & Hem & Hb' & He').
  unfold Run_marks, beacon_due, epoch_due.
  cbn [last_beacon last_epoch]. split; apply mark_floor; lia.
Qed.

Lemma Run_next_sec_min (r : RunState) :
  Run_on_schedule beacon epoch r ->
  elapse_sec r + Z.min beacon epoch < 2 ^ 31 ->
  let m := Run_marks beacon epoch r in
  Run_next_sec beacon epoch r
  = Z.min (last_beacon m + beacon) (last_epoch m + epoch).
Proof.
  intros Hs Hbound. cbv zeta.
  destruct (Run_marks_floor r Hs) as [(Hb1 & Hb2 & _) (He1 & He2 & _)].
  unfold Run_next_sec. cbv zeta.
  assert (2 ^ 31 < 2 ^ 64) by (vm_compute; reflexivity).
  rewrite !to_uint64_small by lia.
  apply to_int32_small. lia.
Qed.

Lemma Run_iteration_on_schedule (now : Z) (r : RunState) :
  Run_on_schedule beacon epoch r ->
  elapse_sec r + Z.min beacon epoch < 2 ^ 31 ->
  let r' := snd (Run_iteration beacon epoch enable now r) in
  Run_on_schedule beacon epoch r' /\
  elapse_sec r < elapse_sec r' <= elapse_sec r + Z.min beacon epoch.
Proof.
  intros Hs Hbound. cbv zeta.
  pose proof (Run_next_sec_min r Hs Hbound) as Hn. cbv zeta in Hn.
  destruct (Run_marks_floor r Hs)
    as [(Hb1 & Hb2 & Hb3) (He1 & He2 & He3)].
  assert (2 ^ 31 < 2 ^ 64) by (vm_compute; reflexivity).
  unfold Run_iteration. cbv zeta. cbn [snd].
  rewrite to_uint64_small by lia. rewrite Hn.
  unfold Run_on_schedule. cbn [elapse_sec last_beacon last_epoch].
  repeat split; try assumption; lia.
Qed.

Lemma Run_loop_on_schedule (nows : list Z) :
  (Z.of_nat (List.length nows) + 1) * Z.min beacon epoch < 2 ^ 31 ->
  let r := Run_loop beacon epoch enable nows in
  Run_on_schedule beacon epoch r /\
  elapse_sec r <= Z.of_nat (List.length nows) * Z.min beacon epoch.
Proof.
  assert (Hmn : 0 < Z.min beacon epoch) by lia.
  induction nows as [|now nows IH] using rev_ind; intro Hbound.
  - simpl. unfold Run_on_schedule. simpl.
    rewrite !Z.mod_0_l by lia. lia.
  - rewrite length_app, Nat2Z.inj_add in Hbound |- *.
    cbn [List.length] in Hbound |- *.
    change (Z.of_nat 1) with 1 in Hbound |- *.
    unfold Run_loop. rewrite fold_left_app. cbn [fold_left].
    fold (Run_loop beacon epoch enable nows).
    remember (Z.min beacon epoch) as mn eqn:Emn.
    remember (Z.of_nat (List.length nows)) as n eqn:En.
    assert (0 <= n) by lia.
    destruct IH as [Hs He]; [nia|].
    destruct (Run_iteration_on_schedule now _ Hs) as [Hs' He'];
      [rewrite <- Emn; nia|].
    split; [exact Hs'|]. rewrite <- Emn in He'. nia.
Qed.

(** X7.  After any number of iterations of the loop of [Run], the next
    wake-up second lies after [elapse_sec], is a multiple of the beacon
    or of the epoch interval, and no second in between is a multiple of
    either: the loop wakes at every multiple of the two intervals and
    at nothing else.  The thread is asked to sleep for the difference,
    which is between one second and the smaller interval.  This holds
    as long as the seconds fit the [int] that [next_sec] is held in. *)
Theorem Run_wakes_at_multiples :
  forall nows : list Z,
    (Z.of_nat (List.length nows) + 1) * Z.min beacon epoch < 2 ^ 31 ->
    let r := Run_loop beacon epoch enable nows in
    let next := Run_next_sec beacon epoch r in
    elapse_sec r < next /\
    (next mod beacon = 0 \/ next mod epoch = 0) /\
    (forall t, elapse_sec r < t < next ->
               t mod beacon <> 0 /\ t mod epoch <> 0) /\
    Run_interval beacon epoch r = next - elapse_sec r /\
    1 <= Run_interval beacon epoch r <= Z.min beacon epoch.
Proof.
  intros nows Hbound. cbv zeta.
  destruct (Run_loop_on_schedule nows Hbound) as [Hs He].
  set (r := Run_loop beacon epoch enable nows) in *.
  assert (Hb : elapse_sec r + Z.min beacon epoch < 2 ^ 31) by nia.
  pose proof (Run_next_sec_min r Hs Hb) as Hn. cbv zeta in Hn.
  destruct (Run_marks_floor r Hs)
    as [(Hb1 & Hb2 & Hb3) (He1 & He2 & He3)].
  assert (Hi : Run_interval beacon epoch r
               = Run_next_sec beacon epoch r - elapse_sec r).
  { unfold Run_interval. rewrite Hn.
    assert (2 ^ 31 < 2 ^ 63) by (vm_compute; reflexivity).
    assert (2 ^ 63 < 2 ^ 64) by (vm_compute; reflexivity).
    rewrite to_uint64_small by lia. apply to_int64_small. lia. }
  rewrite Hi, Hn.
  split; [lia|]. split.
  - destruct (Z.min_spec (last_beacon (Run_marks beacon epoch r) + beacon)
                         (last_epoch (Run_marks beacon epoch r) + epoch))
      as [[_ Hm] | [_ Hm]]; rewrite Hm; [left | right].
    + now apply multiple_next.
    + now apply multiple_next.
  - split; [|split; [reflexivity | lia]].
    intros t Ht. split; intro Hz.
    + pose proof (multiple_step beacon _ t (proj1 beacon_range) Hb3 Hz).
      lia.
    + pose proof (multiple_step epoch _ t (proj1 epoch_range) He3 Hz).
      lia.
Qed.
End RunSchedule.

(** With a beacon every 2 and an epoch every 10 seconds, the fifth
    iteration starts at second 8 and sleeps until second 10. *)
Lemma Run_wakes_at_multiples_witness :
  elapse_sec (Run_loop 2 10 true [0; 2; 4; 6]) = 8 /\
  Run_next_sec 2 10 (Run_loop 2 10 true [0; 2; 4; 6]) = 10 /\
  Run_interval 2 10 (Run_loop 2 10 true [0; 2; 4; 6]) = 2.
Proof.
  destruct (Run_wakes_at_multiples 2 10 true
              ltac:(vm_compute; split; reflexivity)
              ltac:(vm_compute; split; reflexivity)
              [0; 2; 4; 6] ltac:(vm_compute; reflexivity))
    as (_ & _ & _ & Hi & _).
  split; [reflexivity|]. split; [reflexivity|].
  rewrite Hi. reflexivity.
Defined.

(** ** Static workload slots *)

Section Folds.
Context {A X : Type}.

Lemma fold_left_inv (P : A -> Prop) (f : A -> X -> A) (l : list X) :
  (forall a x, P a -> P (f a x)) ->
  forall a, P a -> P (fold_left f l a).
Proof.
  intro Hstep. induction l as [|x l IH]; intros a Ha; simpl; [exact Ha|].
  apply IH. now apply Hstep.
Qed.

Lemma result_fold_inv (P : A -> Prop) (f : A -> X -> result A)
      (l : list X) :
  (forall a x a', P a -> f a x = Ok a' -> P a') ->
  forall a a', P a -> result_fold f l a = Ok a' -> P a'.
Proof.
  intro Hstep. induction l as [|x l IH]; intros a a' Ha H; simpl in H.
  - inversion H. now subst.
  - destruct (f a x) as [a1| |] eqn:E; try discriminate.
    simpl in H. exact (IH _ _ (Hstep _ _ _ Ha E) H).
Qed.
End Folds.

Section StaticSlots.
Context {B : Type} {BO : BackendDelegateOps B} {FL : Float32}
        {DB : ModelDatabase} {SS : StdSort}.

Lemma find_seq_lowest (f : Z -> bool) (n : nat) :
  forall (a : nat) (x : Z),
    List.find f (map Z.of_nat (seq a n)) = Some x ->
    Z.of_nat a <= x < Z.of_nat a + Z.of_nat n /\
    f x = true /\
    forall j, Z.of_nat a <= j < x -> f j = false.
Proof.
  induction n as [|n IH]; intros a x H; simpl in H; [discriminate|].
  destruct (f (Z.of_nat a)) eqn:E.
  - inversion H. subst x. repeat split; try lia. exact E.
  - destruct (IH _ _ H) as (Hr & Hf & Hlow).
    repeat split; try lia; [exact Hf|].
    intros j Hj. destruct (Z.eq_dec j (Z.of_nat a)) as [->|Hne];
      [exact E|].
    apply Hlow. lia.
Qed.

Lemma find_seq_none (f : Z -> bool) (n : nat) :
  forall a : nat,
    List.find f (map Z.of_nat (seq a n)) = None ->
    forall j, Z.of_nat a <= j < Z.of_nat a + Z.of_nat n -> f j = false.
Proof.
  induction n as [|n IH]; intros a H j Hj; simpl in H; [lia|].
  destruct (f (Z.of_nat a)) eqn:E; [discriminate|].
  destruct (Z.eq_dec j (Z.of_nat a)) as [->|Hne]; [exact E|].
  apply (IH _ H). lia.
Qed.

Local Notation slots st :=
  (static_workloads_ st, assigned_static_workloads_ st).

Lemma update_model_tables_slots keys (st : Scheduler B) :
  slots (update_model_tables keys st) = slots st.
Proof.
  unfold update_model_tables.
  apply (fold_left_inv (fun s => slots s = slots st)); [|reflexivity].
  intros a x Ha. exact Ha.
Qed.

Lemma push_changes_slots (st st' : Scheduler B) cs cb :
  push_changes st cs cb = Ok st' -> slots st' = slots st.
Proof.
  unfold push_changes. intro H.
  destruct (UpdateModelRoutes _ _); try discriminate.
  simpl in H. inversion H. apply update_model_tables_slots.
Qed.

Lemma AddBackend_session_slots key
      (acc acc' : Scheduler B * list SessionInfoPtr) id :
  AddBackend_session key acc id = Ok acc' ->
  slots (fst acc') = slots (fst acc).
Proof.
  unfold AddBackend_session. intro H.
  destruct (GetBackend (fst acc) key); [|discriminate]. simpl in H.
  match type of H with
  | bind (session_at ?s ?i) _ = _ =>
      assert (Hs : slots s = slots (fst acc))
        by (destruct (negb _); reflexivity);
      destruct (session_at s i) as [ps| |]; try discriminate
  end.
  simpl in H. inversion H. simpl. exact Hs.
Qed.

Lemma AddBackend_backup_slots key
      (acc acc' : Scheduler B * list NodeId) id :
  AddBackend_backup key acc id = Ok acc' ->
  slots (fst acc') = slots (fst acc).
Proof.
  unfold AddBackend_backup. intro H.
  destruct (GetBackend (fst acc) key); [|discriminate]. simpl in H.
  destruct (AMap.find String.eqb id (session_table_ (fst acc)));
    [|now inversion H].
  destruct (deref (fst acc) s) as [si|]; [|discriminate]. simpl in H.
  destruct (ZSet.mem _ _); [now inversion H|].
  inversion H.
  apply (fold_left_inv (fun a => slots (fst a) = slots (fst acc)));
    [|reflexivity].
  intros a x Ha. unfold add_backup_on.
  destruct (GetBackend (fst a) (fst x)); exact Ha.
Qed.

Lemma Allocate_assign_slots p head siblings backend inst
      (acc : Scheduler B * Changed) :
  slots (fst (Allocate_assign p head siblings backend inst acc))
  = slots (fst acc).
Proof.
  unfold Allocate_assign. simpl. unfold load_siblings.
  change (slots (fst acc))
    with (slots (issue (fst backend) (ILoadModel inst)
                   (on_backend (fst backend)
                      (fun b => LoadModel_inst b inst) (fst acc)))).
  apply (fold_left_inv
           (fun s => slots s
                     = slots (issue (fst backend) (ILoadModel inst)
                                (on_backend (fst backend)
                                   (fun b => LoadModel_inst b inst)
                                   (fst acc)))));
    [|reflexivity].
  intros a x Ha. exact Ha.
Qed.

Lemma Allocate_while_slots fuel p head siblings now :
  forall rate (acc : Scheduler B * Changed) r,
    Allocate_while fuel p head siblings now rate acc = Ok r ->
    slots (fst (snd r)) = slots (fst acc).
Proof.
  induction fuel as [|fuel IH]; intros rate acc r H; simpl in H.
  - destruct (Qltb 0 rate); [discriminate | now inversion H].
  - destruct (Qltb 0 rate); [|now inversion H].
    destruct (FindBestBackend (fst acc) head rate [] now)
      as [[backend|] inst]; [|now inversion H].
    rewrite (IH _ _ _ H). apply Allocate_assign_slots.
Qed.

Lemma Allocate_session_slots fuel now (acc acc' : Scheduler B * Changed) p :
  Allocate_session fuel now acc p = Ok acc' ->
  slots (fst acc') = slots (fst acc).
Proof.
  unfold Allocate_session. intro H.
  destruct (deref (fst acc) p) as [si|]; [|discriminate]. simpl in H.
  destruct (model_sessions si) as [|head siblings].
  - destruct (Qltb 0 _); [discriminate | now inversion H].
  - destruct (Allocate_while _ _ _ _ _ _ _) as [r| |] eqn:E;
      try discriminate.
    simpl in H. inversion H. simpl.
    exact (Allocate_while_slots _ _ _ _ _ _ _ _ E).
Qed.

Lemma AllocateUnassignedWorkloads_slots fuel now
      (acc acc' : Scheduler B * Changed) :
  AllocateUnassignedWorkloads fuel now acc = Ok acc' ->
  slots (fst acc') = slots (fst acc).
Proof.
  unfold AllocateUnassignedWorkloads. intro H.
  destruct (collect_unassigned _ _ _); [now inversion H|].
  revert H.
  apply (result_fold_inv (fun a => slots (fst a) = slots (fst acc)));
    [|reflexivity].
  intros a x a' Ha Hx. rewrite <- Ha.
  exact (Allocate_session_slots _ _ _ _ _ Hx).
Qed.

(** X8.  [AddBackend] gives the new backend the lowest static workload
    that no backend holds, and records the backend's node id under it;
    the slots below are all taken and no other slot changes.  When
    every static workload is taken, the slots stay as they are and the
    backend is used for the unassigned workloads. *)
Theorem AddBackend_takes_lowest_free_slot :
  forall fuel now key (st st' : Scheduler B),
    AddBackend fuel now key st = Ok st' ->
    static_workloads_ st' = static_workloads_ st /\
    match first_free_slot st with
    | Some id =>
        0 <= id < Z.of_nat (List.length (static_workloads_ st)) /\
        AMap.mem Z.eqb id (assigned_static_workloads_ st) = false /\
        (forall j, 0 <= j < id ->
                   AMap.mem Z.eqb j (assigned_static_workloads_ st)
                   = true) /\
        exists backend,
          GetBackend st key = Some backend /\
          assigned_static_workloads_ st'
          = AMap.set Z.eqb id (node_id backend)
                     (assigned_static_workloads_ st)
    | None =>
        (forall j,
            0 <= j < Z.of_nat (List.length (static_workloads_ st)) ->
            AMap.mem Z.eqb j (assigned_static_workloads_ st) = true) /\
        assigned_static_workloads_ st' = assigned_static_workloads_ st
    end.
Proof.
  intros fuel now key st st' H. unfold AddBackend in H.
  destruct (first_free_slot st) as [id|] eqn:Ef.
  - unfold first_free_slot in Ef.
    destruct (find_seq_lowest _ _ _ _ Ef) as (Hr & Hf & Hlow).
    destruct (GetBackend st key) as [backend0|] eqn:Eb; [|discriminate].
    simpl in H.
    match type of H with
    | bind (of_option (GetBackend ?s3 key)) _ = _ =>
        assert (Hs3 : slots s3
                      = (static_workloads_ st,
                         AMap.set Z.eqb id (node_id backend0)
                                  (assigned_static_workloads_ st)));
        [|destruct (GetBackend s3 key) as [backend|]; [|discriminate]]
    end.
    { unfold on_backend. simpl.
      match goal with
      | |- slots (fold_left ?g ?l ?a) = ?c =>
          apply (fold_left_inv (fun s => slots s = c) g l);
            [|reflexivity]
      end.
      intros a x Ha. exact Ha. }
    simpl in H.
    match type of H with
    | bind (result_fold ?g ?l ?a) _ = _ =>
        destruct (result_fold g l a) as [r4| |] eqn:E4; try discriminate
    end.
    simpl in H.
    match type of H with
    | bind (result_fold ?g ?l ?a) _ = _ =>
        destruct (result_fold g l a) as [r5| |] eqn:E5; try discriminate
    end.
    simpl in H. apply push_changes_slots in H.
    assert (H4 : slots (fst r4)
                 = (static_workloads_ st,
                    AMap.set Z.eqb id (node_id backend0)
                             (assigned_static_workloads_ st))).
    { revert E4.
      apply (result_fold_inv
               (fun a => slots (fst a)
                         = (static_workloads_ st,
                            AMap.set Z.eqb id (node_id backend0)
                                     (assigned_static_workloads_ st))));
        [|exact Hs3].
      intros a x a' Ha Hx. rewrite <- Ha.
      exact (AddBackend_session_slots _ _ _ _ Hx). }
    assert (H5 : slots (fst r5)
                 = (static_workloads_ st,
                    AMap.set Z.eqb id (node_id backend0)
                             (assigned_static_workloads_ st))).
    { revert E5.
      apply (result_fold_inv
               (fun a => slots (fst a)
                         = (static_workloads_ st,
                            AMap.set Z.eqb id (node_id backend0)
                                     (assigned_static_workloads_ st))));
        [|exact H4].
      intros a x a' Ha Hx. rewrite <- Ha.
      exact (AddBackend_backup_slots _ _ _ _ Hx). }
    rewrite H5 in H.
    pose proof (f_equal fst H) as Hsw. pose proof (f_equal snd H) as Has.
    cbn [fst snd] in Hsw, Has.
    split; [exact Hsw|]. split; [lia|]. split.
    { now apply negb_true_iff in Hf. }
    split.
    { intros j Hj. specialize (Hlow j ltac:(lia)).
      now apply negb_false_iff in Hlow. }
    exists backend0. split; [reflexivity | exact Has].
  - unfold first_free_slot in Ef.
    pose proof (find_seq_none _ _ _ Ef) as Hall.
    destruct (AllocateUnassignedWorkloads fuel now (st, ([], Some [])))
      as [r| |] eqn:Er; try discriminate.
    simpl in H. apply push_changes_slots in H.
    apply AllocateUnassignedWorkloads_slots in Er. simpl in Er.
    rewrite Er in H.
    pose proof (f_equal fst H) as Hsw. pose proof (f_equal snd H) as Has.
    cbn [fst snd] in Hsw, Has.
    split; [exact Hsw|]. split; [|exact Has].
    intros j Hj. specialize (Hall j ltac:(lia)).
    now apply negb_false_iff in Hall.
Qed.
End StaticSlots.

(** In [Example.configured] slot 0 is taken: backend 12 gets slot 1. *)
Lemma AddBackend_takes_lowest_free_slot_witness :
  exists st',
    AddBackend (BO:=Example.ops) (FL:=Example.FL) (DB:=Example.DB) (SS:=StableSort)
               16 0 12 Example.configured = Ok st' /\
    first_free_slot Example.configured = Some 1 /\
    assigned_static_workloads_ st'
    = AMap.set Z.eqb 1 12 (assigned_static_workloads_ Example.configured).
Proof.
  assert (Hrun : exists st',
             AddBackend (BO:=Example.ops) (FL:=Example.FL) (DB:=Example.DB) (SS:=StableSort)
                        16 0 12 Example.configured = Ok st')
    by (eexists; vm_compute; reflexivity).
  destruct Hrun as (st' & Hrun). exists st'.
  split; [exact Hrun|]. split; [reflexivity|].
  destruct (AddBackend_takes_lowest_free_slot
              (BO:=Example.ops) (FL:=Example.FL) (DB:=Example.DB) (SS:=StableSort)
              16 0 12 Example.configured st' Hrun) as [_ H].
  change (first_free_slot Example.configured) with (Some 1) in H.
  destruct H as (_ & _ & _ & backend & Hb & Hs).
  rewrite Hs. vm_compute in Hb. inversion Hb. reflexivity.
Defined.

Section RemoveBackendSlots.
Context {B : Type} {BO : BackendDelegateOps B} {FL : Float32}
        {DB : ModelDatabase} {SS : StdSort}.

Local Notation slots st :=
  (static_workloads_ st, assigned_static_workloads_ st).

Lemma RemoveBackend_detach_frame backend ids :
  forall acc : Scheduler B * list SessionInfoPtr,
    let r := fold_left (RemoveBackend_detach backend) ids acc in
    slots (fst r) = slots (fst acc) /\
    backends_ (fst r) = backends_ (fst acc) /\
    session_table_ (fst r) = session_table_ (fst acc).
Proof.
  intro acc. cbv zeta.
  apply (fold_left_inv
           (fun a => slots (fst a) = slots (fst acc) /\
                     backends_ (fst a) = backends_ (fst acc) /\
                     session_table_ (fst a) = session_table_ (fst acc)));
    [|now repeat split].
  intros a x Ha. unfold RemoveBackend_detach.
  destruct (AMap.find String.eqb x (session_table_ (fst a)));
    [|exact Ha].
  destruct (NSet.mem _ _); exact Ha.
Qed.

Lemma find_assignee_key backend (l : list (NodeId * B)) a :
  find_assignee backend l = Some a ->
  exists b, AMap.find Z.eqb (fst a) l = Some b.
Proof.
  induction l as [|[k b] l IH]; simpl; [discriminate|]. intro H.
  destruct (fst a =? k) eqn:E; [now exists b|].
  apply IH. destruct (IsIdle b); [|exact H].
  destruct (Assign b backend); [|exact H].
  inversion H. subst a. simpl in E. now rewrite Z.eqb_refl in E.
Qed.

Lemma RemoveBackend_reattach_frame key ids :
  forall st st' : Scheduler B,
    result_fold (RemoveBackend_reattach key) ids st = Ok st' ->
    slots st' = slots st /\ backends_ st' = backends_ st.
Proof.
  intros st st'.
  apply (result_fold_inv
           (fun a => slots a = slots st /\ backends_ a = backends_ st));
    [|now split].
  intros a x a' Ha Hx. unfold RemoveBackend_reattach in Hx.
  destruct (session_at a x) as [ps| |]; try discriminate. simpl in Hx.
  destruct (GetBackend a key); [|discriminate]. simpl in Hx.
  inversion Hx. exact Ha.
Qed.

Lemma RemoveBackend_move_backup_slots backend key ids :
  forall (acc acc' : Scheduler B * list NodeId),
    result_fold (RemoveBackend_move_backup backend key) ids acc = Ok acc' ->
    slots (fst acc') = slots (fst acc).
Proof.
  intros acc acc'.
  apply (result_fold_inv (fun a => slots (fst a) = slots (fst acc)));
    [|reflexivity].
  intros a x a' Ha Hx. unfold RemoveBackend_move_backup in Hx.
  destruct (session_at (fst a) x) as [ps| |]; try discriminate.
  simpl in Hx.
  destruct (GetBackend (fst a) key) as [assigned|]; [|discriminate].
  simpl in Hx.
  destruct (negb _ && negb _); inversion Hx; subst a'; [exact Ha|].
  apply (fold_left_inv (fun b => slots (fst b) = slots (fst acc)));
    [|exact Ha].
  intros b y Hb. unfold swap_backup_on.
  destruct (GetBackend (fst b) (fst y)); exact Hb.
Qed.

Lemma RemoveBackend_drop_backup_slots backend ids :
  forall (acc acc' : Scheduler B * list NodeId),
    result_fold (RemoveBackend_drop_backup backend) ids acc = Ok acc' ->
    slots (fst acc') = slots (fst acc).
Proof.
  intros acc acc'.
  apply (result_fold_inv (fun a => slots (fst a) = slots (fst acc)));
    [|reflexivity].
  intros a x a' Ha Hx. unfold RemoveBackend_drop_backup in Hx.
  destruct (session_at (fst a) x) as [ps| |]; try discriminate.
  simpl in Hx.
  destruct (negb _); inversion Hx; subst a'; [exact Ha|].
  apply (fold_left_inv (fun b => slots (fst b) = slots (fst acc)));
    [|exact Ha].
  intros b y Hb. unfold remove_backup_on.
  destruct (GetBackend (fst b) (fst y)); exact Hb.
Qed.

Lemma RemoveBackend_return_workload_slots backend ids :
  forall st st' : Scheduler B,
    result_fold (RemoveBackend_return_workload backend) ids st = Ok st' ->
    slots st' = slots st.
Proof.
  intros st st'.
  apply (result_fold_inv (fun a => slots a = slots st)); [|reflexivity].
  intros a x a' Ha Hx. unfold RemoveBackend_return_workload in Hx.
  destruct (session_at a x) as [ps| |]; try discriminate.
  simpl in Hx. inversion Hx. exact Ha.
Qed.

(** X9.  What [RemoveBackend] does to the static workload slots.  An
    idle backend leaves them alone.  When an idle backend takes the
    workload over and its [workload_id] is not 0, its node id is
    recorded under that id with [emplace], so an entry the slot already
    has stays.  Without a replacement the slot of a static backend is
    erased, and a dynamic backend changes no slot.  The list of static
    workloads never changes. *)
Theorem RemoveBackend_slots :
  forall fuel now (backend : B) (st st' : Scheduler B),
    RemoveBackend fuel now backend st = Ok st' ->
    static_workloads_ st' = static_workloads_ st /\
    assigned_static_workloads_ st'
    = if IsIdle backend then assigned_static_workloads_ st
      else
        match find_assignee backend (backends_ st) with
        | Some assigned =>
            if negb (workload_id (snd assigned) =? 0) then
              AMap.emplace Z.eqb (to_uint32 (workload_id (snd assigned)))
                           (node_id (snd assigned))
                           (assigned_static_workloads_ st)
            else assigned_static_workloads_ st
        | None =>
            if 0 <=? workload_id backend then
              AMap.erase Z.eqb (to_uint32 (workload_id backend))
                         (assigned_static_workloads_ st)
            else assigned_static_workloads_ st
        end.
Proof.
  intros fuel now backend st st' H. unfold RemoveBackend in H.
  destruct (IsIdle backend); [inversion H; now split|].
  cbv zeta in H.
  destruct (RemoveBackend_detach_frame backend (GetModelSessions backend)
                                       (st, []))
    as (Hs1 & Hb1 & _).
  cbn [fst] in Hs1, Hb1.
  set (r1 := fold_left (RemoveBackend_detach backend)
                       (GetModelSessions backend) (st, [])) in *.
  rewrite Hb1 in H.
  destruct (find_assignee backend (backends_ st)) as [assigned|] eqn:Ea.
  - destruct (find_assignee_key _ _ _ Ea) as [b0 Hb0].
    match type of H with
    | bind (result_fold ?g ?l ?a) _ = _ =>
        destruct (result_fold g l a) as [st3| |] eqn:E3; try discriminate
    end.
    simpl in H.
    destruct (RemoveBackend_reattach_frame _ _ _ _ E3) as [Hs3 Hb3].
    cbn in Hs3, Hb3.
    unfold RemoveBackend_record_slot in H.
    assert (Hg : GetBackend st3 (fst assigned) = Some (snd assigned)).
    { unfold GetBackend. rewrite Hb3, (find_update_same Z.eqb), Hb1, Hb0.
      reflexivity. }
    rewrite Hg in H. simpl in H.
    assert (Hpair : slots st3 = slots st) by (rewrite Hs3; exact Hs1).
    pose proof (f_equal fst Hpair) as Hsw.
    pose proof (f_equal snd Hpair) as Has. cbn [fst snd] in Hsw, Has.
    destruct (negb (workload_id (snd assigned) =? 0)); simpl in H.
    + match type of H with
      | bind (result_fold ?g ?l ?a) _ = _ =>
          destruct (result_fold g l a) as [r5| |] eqn:E5; try discriminate
      end.
      simpl in H. apply push_changes_slots in H.
      apply RemoveBackend_move_backup_slots in E5. cbn in E5.
      rewrite E5 in H.
      pose proof (f_equal fst H) as H1. pose proof (f_equal snd H) as H2.
      cbn [fst snd] in H1, H2. rewrite H1, H2, Hsw, Has. now split.
    + match type of H with
      | bind (result_fold ?g ?l ?a) _ = _ =>
          destruct (result_fold g l a) as [r5| |] eqn:E5; try discriminate
      end.
      simpl in H. apply push_changes_slots in H.
      apply RemoveBackend_move_backup_slots in E5. cbn [fst] in E5.
      rewrite E5 in H.
      pose proof (f_equal fst H) as H1. pose proof (f_equal snd H) as H2.
      cbn [fst snd] in H1, H2. rewrite H1, H2, Hsw, Has. now split.
  - match type of H with
    | bind (result_fold ?g ?l ?a) _ = _ =>
        destruct (result_fold g l a) as [r2| |] eqn:E2; try discriminate
    end.
    simpl in H.
    apply RemoveBackend_drop_backup_slots in E2. cbn [fst] in E2.
    assert (Hpair : slots (fst r2) = slots st) by (rewrite E2; exact Hs1).
    pose proof (f_equal fst Hpair) as Hsw.
    pose proof (f_equal snd Hpair) as Has. cbn [fst snd] in Hsw, Has.
    destruct (0 <=? workload_id backend).
    + apply push_changes_slots in H.
      pose proof (f_equal fst H) as H1. pose proof (f_equal snd H) as H2.
      cbn in H1, H2. rewrite H1, H2, Hsw, Has. now split.
    + match type of H with
      | bind (result_fold ?g ?l ?a) _ = _ =>
          destruct (result_fold g l a) as [st3| |] eqn:E3; try discriminate
      end.
      simpl in H.
      destruct (AllocateUnassignedWorkloads _ _ _) as [r4| |] eqn:E4;
        try discriminate.
      simpl in H. apply push_changes_slots in H.
      apply AllocateUnassignedWorkloads_slots in E4. cbn [fst] in E4.
      apply RemoveBackend_return_workload_slots in E3.
      rewrite E4, E3 in H.
      pose proof (f_equal fst H) as H1. pose proof (f_equal snd H) as H2.
      cbn [fst snd] in H1, H2. rewrite H1, H2, Hsw, Has. now split.
Qed.
End RemoveBackendSlots.

(** Backend 12 of [Example.slotted] holds slot 1 and leaves when no
    other backend is registered: the slot is free again. *)
Lemma RemoveBackend_slots_witness :
  exists backend st',
    GetBackend Example.slotted 12 = Some backend /\
    RemoveBackend (BO:=Example.ops) (FL:=Example.FL) (DB:=Example.DB) (SS:=StableSort)
                  16 0 backend
                  (set_backends (AMap.erase Z.eqb 12
                                   (backends_ Example.slotted))
Example.slotted) = Ok st' /\
assigned_static_workloads_ Example.slotted = [(0, 7); (1, 12)] /\
assigned_static_workloads_ st' = [(0, 7)].
Proof.
assert (Hrun : exists backend st',
GetBackend Example.slotted 12 = Some backend /\
RemoveBackend (BO:=Example.ops) (FL:=Example.FL) (DB:=Example.DB)
(SS:=StableSort) 16 0 backend
(set_backends (AMap.erase Z.eqb 12
            (backends_ Example.slotted))
Example.slotted) = Ok st' /\
IsIdle (BackendDelegateOps:=Example.ops) backend = false /\
workload_id (BackendDelegateOps:=Example.ops) backend = 1)
by (eexists; eexists; split; [reflexivity|];
split; [vm_compute; reflexivity|]; split; reflexivity).
destruct Hrun as (backend & st' & Hb & Hrun & Hidle & Hwid).
exists backend, st'. split; [exact Hb|]. split; [exact Hrun|].
split; [reflexivity|].
destruct (RemoveBackend_slots (BO:=Example.ops) (FL:=Example.FL) (DB:=Example.DB)
(SS:=StableSort) 16 0 backend _ st' Hrun) as [_ H].
rewrite Hidle, Hwid in H. exact H.
Defined.

(** ** [EpochSchedule]: static backends *)

Lemma result_fold_inv_In {A X : Type} (P : A -> Prop)
      (f : A -> X -> result A) (l : list X) :
  (forall a x a', In x l -> P a -> f a x = Ok a' -> P a') ->
  forall a a', P a -> result_fold f l a = Ok a' -> P a'.
Proof.
  induction l as [|x l IH]; intros Hstep a a' Ha H; simpl in H.
  - inversion H. now subst.
  - destruct (f a x) as [a1| |] eqn:E; try discriminate.
    simpl in H. apply (IH (fun b y b' Hy => Hstep b y b' (or_intror Hy))
                          a1 a'); [|exact H].
    exact (Hstep _ _ _ (or_introl eq_refl) Ha E).
Qed.

Lemma find_set_other {V : Type} (k k' : Z) (v : V) (m : list (Z * V)) :
  k <> k' ->
  AMap.find Z.eqb k' (AMap.set Z.eqb k v m) = AMap.find Z.eqb k' m.
Proof.
  intro Hne. unfold AMap.set. destruct (AMap.mem Z.eqb k m).
  - now apply (find_update_other Z.eqb Z.eqb_eq).
  - rewrite (find_app Z.eqb). destruct (AMap.find Z.eqb k' m);
      [reflexivity|].
    simpl. destruct (k' =? k) eqn:E; [|reflexivity].
    apply Z.eqb_eq in E. congruence.
Qed.

Section EpochScheduleStatic.
Context {B : Type} {BO : BackendDelegateOps B} {FL : Float32}
        {DB : ModelDatabase} {SS : StdSort} {LM : Libm}.
Hypothesis sort_ok : std_sort_contract SS.

Lemma split_static_dynamic (st : Scheduler B) tps :
  forall est adj r,
    split_static st tps est adj = Ok r ->
    forall e, In e (snd r) ->
              In e adj \/
              exists b, AMap.find Z.eqb (fst e) (backends_ st) = Some b /\
                        workload_id b < 0.
Proof.
  induction tps as [|iter rest IH]; intros est adj r H e He; simpl in H.
  - inversion H. subst r. now left.
  - destruct (AMap.find Z.eqb (fst iter) (backends_ st)) as [b|] eqn:Eb;
      [|discriminate].
    simpl in H. destruct (0 <=? workload_id b) eqn:Ew.
    + exact (IH _ _ _ H e He).
    + destruct (IH _ _ _ H e He) as [Hin | Hd]; [|now right].
      apply in_app_or in Hin. destruct Hin as [Hin | [<- | []]];
        [now left|].
      right. exists b. split; [exact Eb|]. apply Z.leb_gt in Ew. exact Ew.
Qed.

Variables (p : SessionInfoPtr) (k : NodeId) (tp : option Q) (b : B).

Local Notation fixed_at := (entry_fixed p k tp b).

Lemma fixed_at_on_session (st : Scheduler B) q (f : SessionInfo -> SessionInfo) :
  (forall s, AMap.find Z.eqb k (backend_throughputs (f s))
             = AMap.find Z.eqb k (backend_throughputs s)) ->
  AMap.find Z.eqb k (backends_ st) = Some b ->
  option_map (fun s => AMap.find Z.eqb k (backend_throughputs s))
             (nth_error (heap_ st) p) = Some tp ->
  fixed_at (on_session q f st).
Proof.
  intros Hf Hb Hp. split; [exact Hb|].
  rewrite deref_on_session. unfold deref.
  destruct (Nat.eqb q p); [|exact Hp].
  destruct (nth_error (heap_ st) p); [|discriminate].
  simpl in *. now rewrite Hf.
Qed.

Lemma shrink_step_fixed q id (acc acc' : Scheduler B * Q) iter :
  fst iter <> k ->
  fixed_at (fst acc) ->
  shrink_step q id acc iter = Ok acc' ->
  fixed_at (fst acc').
Proof.
  intros Hne [Hb Hp] H. unfold shrink_step in H.
  destruct (Qle_bool (snd acc) 0).
  - destruct (AMap.find Z.eqb (fst iter) (backends_ (fst acc)));
      [|discriminate].
    simpl in H. inversion H. subst acc'. cbn [fst].
    apply fixed_at_on_session.
    + intro s. simpl. now apply (find_erase_other Z.eqb Z.eqb_eq).
    + simpl. now rewrite (find_update_other Z.eqb Z.eqb_eq).
    + exact Hp.
  - destruct (Qltb (snd acc) (snd iter)).
    + destruct (AMap.find Z.eqb (fst iter) (backends_ (fst acc)));
        [|discriminate].
      simpl in H. inversion H. subst acc'. cbn [fst].
      apply fixed_at_on_session.
      * intro s. simpl. now apply find_set_other.
      * simpl. now rewrite (find_update_other Z.eqb Z.eqb_eq).
      * exact Hp.
    + inversion H. now split.
Qed.

Lemma grow_step_fixed q id (acc acc' : Scheduler B * Q * list NodeId) iter :
  fst iter <> k ->
  fixed_at (fst (fst acc)) ->
  grow_step q id acc iter = Ok acc' ->
  fixed_at (fst (fst acc')).
Proof.
  intros Hne [Hb Hp] H. unfold grow_step in H.
  destruct (AMap.find Z.eqb (fst iter) (backends_ (fst (fst acc))));
    [|discriminate].
  simpl in H. inversion H. subst acc'. cbn [fst].
  apply fixed_at_on_session.
  - intro s. simpl. now apply find_set_other.
  - simpl. now rewrite (find_update_other Z.eqb Z.eqb_eq).
  - exact Hp.
Qed.

Lemma fixed_at_residual (st : Scheduler B) q (v : Q) :
  fixed_at st ->
  fixed_at (on_session q (set_unassigned_workload v) st).
Proof.
  intros [Hb Hp]. apply fixed_at_on_session;
    [reflexivity | exact Hb | exact Hp].
Qed.

Hypothesis static_b : 0 <= workload_id b.

Lemma EpochSchedule_resize_fixed id q session_info est
      (acc acc' : EpochAcc) :
  fixed_at (e_state acc) ->
  EpochSchedule_resize id q session_info est acc = Ok acc' ->
  fixed_at (e_state acc').
Proof.
  intros Hf H. unfold EpochSchedule_resize in H. cbv zeta in H.
  assert (Hkeys :
            forall sp,
              split_static (e_state acc) (backend_throughputs session_info)
                           est [] = Ok sp ->
              forall e,
                In e (std_sort (greater_by (@snd NodeId Q)) (snd sp)) ->
                fst e <> k).
  { intros sp Hsp e He Heq.
    destruct (sort_ok _ (@snd NodeId Q) (snd sp)) as [Hperm _].
    apply (Permutation_in _ (Permutation_sym Hperm)) in He.
    destruct (split_static_dynamic _ _ _ _ _ Hsp e He) as [[] | Hd].
    destruct Hd as (b' & Hb' & Hneg). rewrite Heq in Hb'.
    destruct Hf as [Hb _]. rewrite Hb in Hb'. inversion Hb'. subst b'.
    lia. }
  destruct (Qltb est _).
  - destruct (split_static _ _ _ _) as [sp| |] eqn:Esp; try discriminate.
    simpl in H.
    match type of H with
    | bind (result_fold ?g ?l ?a) _ = _ =>
        destruct (result_fold g l a) as [r| |] eqn:Er; try discriminate
    end.
    simpl in H. inversion H. subst acc'. simpl.
    revert Er.
    apply (result_fold_inv_In (fun a => fixed_at (fst a))); [|exact Hf].
    intros a x a' Hx Ha Hstep.
    exact (shrink_step_fixed _ _ _ _ _ (Hkeys sp eq_refl x Hx) Ha Hstep).
  - destruct (Qltb _ est); [|inversion H; now subst].
    destruct (split_static _ _ _ _) as [sp| |] eqn:Esp; try discriminate.
    simpl in H.
    match type of H with
    | bind (result_fold ?g ?l ?a) _ = _ =>
        destruct (result_fold g l a) as [r| |] eqn:Er; try discriminate
    end.
    simpl in H. inversion H. subst acc'. simpl.
    assert (Hr : fixed_at (fst (fst r))).
    { revert Er.
      apply (result_fold_inv_In (fun a => fixed_at (fst (fst a))));
        [|exact Hf].
      intros a x a' Hx Ha Hstep.
      exact (grow_step_fixed _ _ _ _ _ (Hkeys sp eq_refl x Hx) Ha Hstep). }
    destruct (Qltb 0 _); [|exact Hr].
    now apply fixed_at_residual.
Qed.

Lemma EpochSchedule_session_fixed (acc acc' : EpochAcc) iter :
  fixed_at (e_state acc) ->
  EpochSchedule_session acc iter = Ok acc' ->
  fixed_at (e_state acc').
Proof.
  intros Hf H. unfold EpochSchedule_session in H.
  destruct (NSet.mem _ _); [inversion H; now subst|].
  destruct (deref (e_state acc) (snd iter)) as [si|]; [|discriminate].
  simpl in H. destruct (_ <? _); [inversion H; exact Hf|].
  unfold EpochSchedule_adjust in H. cbv zeta in H.
  destruct (estimate_rps_of _) as [est| |]; try discriminate.
  simpl in H.
  apply (EpochSchedule_resize_fixed _ _ _ _ _ _) in H; [exact H|].
  simpl. now apply fixed_at_residual.
Qed.
End EpochScheduleStatic.

Section EpochScheduleStaticFixed.
Context {B : Type} {BO : BackendDelegateOps B} {FL : Float32}
        {DB : ModelDatabase} {SS : StdSort} {LM : Libm}.

(** X10.  The first loop of [EpochSchedule], which shrinks or grows the
    allocation of every session, leaves the backends with a static
    workload alone: such a backend stays in [backends_] as it was, and
    in every session record its entry of [backend_throughputs] is the
    one it had, whatever the estimates are.  [std::sort] is only
    assumed to meet its contract. *)
Theorem EpochSchedule_static_backends_fixed :
  std_sort_contract SS ->
  forall (st : Scheduler B) (r1 : EpochAcc),
    result_fold EpochSchedule_session (session_table_ st)
                (mkEpochAcc st [] [] []) = Ok r1 ->
    forall k b,
      AMap.find Z.eqb k (backends_ st) = Some b ->
      0 <= workload_id b ->
      AMap.find Z.eqb k (backends_ (e_state r1)) = Some b /\
      forall p si,
        deref st p = Some si ->
        exists si',
          deref (e_state r1) p = Some si' /\
          AMap.find Z.eqb k (backend_throughputs si')
          = AMap.find Z.eqb k (backend_throughputs si).
Proof.
  intros Hsort st r1 Hrun k b Hb Hw.
  assert (Hall : forall p tp,
             entry_fixed p k tp b st ->
             entry_fixed p k tp b (e_state r1)).
  { intros p tp Hf. revert Hrun.
    apply (result_fold_inv
             (fun a => entry_fixed p k tp b (e_state a))); [|exact Hf].
    intros a x a' Ha Hx.
    exact (EpochSchedule_session_fixed Hsort p k tp b Hw _ _ _ Ha Hx). }
  split.
  - destruct (deref st 0%nat) as [s0|] eqn:E0.
    + apply (Hall 0%nat (AMap.find Z.eqb k (backend_throughputs s0))).
      split; [exact Hb|]. now rewrite E0.
    + (* no record at all: the loop reads none *)
      assert (Hb' : forall a : EpochAcc,
                 AMap.find Z.eqb k (backends_ (e_state a)) = Some b ->
                 forall x a', EpochSchedule_session a x = Ok a' ->
                              heap_ (e_state a) = [] ->
                              a' = a \/ e_state a' = e_state a).
      { intros a _ x a' Hx Hh. unfold EpochSchedule_session in Hx.
        destruct (NSet.mem _ _); [inversion Hx; now left|].
        unfold deref in Hx. rewrite Hh in Hx.
        destruct (snd x); discriminate. }
      assert (Hheap : heap_ st = []).
      { unfold deref in E0. destruct (heap_ st); [reflexivity|discriminate]. }
      revert Hrun.
      apply (result_fold_inv
               (fun a => heap_ (e_state a) = [] /\
                         AMap.find Z.eqb k (backends_ (e_state a)) = Some b));
        [|now split].
      intros a x a' [Hh Ha] Hx.
      destruct (Hb' a Ha x a' Hx Hh) as [-> | ->]; now split.
  - intros p si Hp.
    destruct (Hall p (AMap.find Z.eqb k (backend_throughputs si)))
      as [_ Hfix].
    { split; [exact Hb|]. now rewrite Hp. }
    destruct (deref (e_state r1) p) as [si'|]; [|discriminate].
    exists si'. split; [reflexivity|]. simpl in Hfix. congruence.
Qed.
End EpochScheduleStaticFixed.

(** In [Example.pinned] the estimate for [vgg16] is 10 requests per
    second and static backend 10 serves 50: it keeps its 50. *)
Lemma EpochSchedule_static_backends_fixed_witness :
  exists r1 si',
    result_fold (EpochSchedule_session (BO:=Example.ops) (LM:=Example.LM)
                                       (SS:=StableSort))
                (session_table_ Example.pinned)
                (mkEpochAcc Example.pinned [] [] []) = Ok r1 /\
    deref (e_state r1) 0%nat = Some si' /\
    AMap.find Z.eqb 10 (backend_throughputs si') = Some 50%Q.
Proof.
  assert (Hrun : exists r1 b si,
             result_fold (EpochSchedule_session
                            (BO:=Example.ops) (LM:=Example.LM)
                            (SS:=StableSort))
                         (session_table_ Example.pinned)
                         (mkEpochAcc Example.pinned [] [] []) = Ok r1 /\
             AMap.find Z.eqb 10 (backends_ Example.pinned) = Some b /\
             0 <= workload_id (BackendDelegateOps:=Example.ops) b /\
             deref Example.pinned 0%nat = Some si /\
             AMap.find Z.eqb 10 (backend_throughputs si) = Some 50%Q)
    by (eexists; eexists; eexists; split; [vm_compute; reflexivity|];
        split; [reflexivity|]; split; [vm_compute; discriminate|];
        split; reflexivity).
  destruct Hrun as (r1 & b & si & Hrun & Hb & Hw & Hp & Htp).
  destruct (EpochSchedule_static_backends_fixed
              (BO:=Example.ops) (LM:=Example.LM)
              StableSort_contract Example.pinned r1 Hrun 10 b Hb Hw)
    as [_ H].
  destruct (H 0%nat si Hp) as (si' & Hp' & Hsame).
  exists r1, si'. split; [exact Hrun|]. split; [exact Hp'|].
  now rewrite Hsame.
Defined.

(** ** [AllocateUnassignedWorkloads]: the sessions it considers *)

Lemma NSet_insert_iff (x y : nat) (s : list nat) :
  In y (NSet.insert x s) <-> y = x \/ In y s.
Proof.
  unfold NSet.insert. destruct (NSet.mem x s) eqn:E.
  - apply NSet_mem_In in E. split; [now right|].
    intros [-> | H]; assumption.
  - rewrite in_app_iff. simpl. split.
    + intros [H | [-> | []]]; [now right | now left].
    + intros [-> | H]; [right; now left | now left].
Qed.

Section AllocationCandidates.
Context {B : Type} {BO : BackendDelegateOps B} {FL : Float32}
        {SS : StdSort}.

Lemma collect_unassigned_spec (st : Scheduler B) table :
  forall visited,
    NoDup (collect_unassigned st table visited) /\
    forall p,
      In p (collect_unassigned st table visited) <->
      ~ In p visited /\ (exists id, In (id, p) table) /\
      (0 < unassigned_of st p)%Q.
Proof.
  induction table as [|[id0 q] rest IH]; intro visited; simpl.
  - split; [constructor|]. intro p. split; [intros []|].
    intros (_ & [id []] & _).
  - destruct (NSet.mem q visited) eqn:Ev.
    + apply NSet_mem_In in Ev. destruct (IH visited) as [Hnd Hin].
      split; [exact Hnd|]. intro p. rewrite Hin. split.
      * intros (Hv & [id Hid] & Hpos). repeat split; try assumption.
        exists id. now right.
      * intros (Hv & [id [Hid | Hid]] & Hpos); repeat split;
          try assumption.
        -- inversion Hid. subst. contradiction.
        -- now exists id.
    + assert (Hq : ~ In q visited).
      { intro H. apply NSet_mem_In in H. congruence. }
      destruct (IH (NSet.insert q visited)) as [Hnd Hin].
      destruct (Qltb 0 (unassigned_of st q)) eqn:Epos.
      * apply Qltb_lt in Epos. split.
        -- constructor; [|exact Hnd]. intro H. apply Hin in H.
           destruct H as [H _]. apply H. apply NSet_insert_iff. now left.
        -- intro p. simpl. rewrite Hin. split.
           ++ intros [<- | (Hv & [id Hid] & Hpos)].
              ** repeat split; try assumption. exists id0. now left.
              ** repeat split; try assumption.
                 --- intro H. apply Hv. apply NSet_insert_iff. now right.
                 --- exists id. now right.
           ++ intros (Hv & [id Hid] & Hpos).
              destruct (Nat.eq_dec q p) as [-> | Hne]; [now left|].
              right. repeat split; try assumption.
              ** intro H. apply NSet_insert_iff in H.
                 destruct H as [-> | H]; [now apply Hne | now apply Hv].
              ** destruct Hid as [Hid | Hid]; [|now exists id].
                 inversion Hid. subst. now contradiction Hne.
      * apply Qltb_ge in Epos. split; [exact Hnd|].
        intro p. rewrite Hin. split.
        -- intros (Hv & [id Hid] & Hpos). repeat split; try assumption.
           ++ intro H. apply Hv. apply NSet_insert_iff. now right.
           ++ exists id. now right.
        -- intros (Hv & [id Hid] & Hpos).
           assert (Hne : p <> q).
           { intros ->. exact (Qlt_not_le _ _ Hpos Epos). }
           repeat split; try assumption.
           ++ intro H. apply NSet_insert_iff in H.
              destruct H as [-> | H]; [now apply Hne | now apply Hv].
           ++ destruct Hid as [Hid | Hid]; [|now exists id].
              inversion Hid. subst. now contradiction Hne.
Qed.

Lemma AllocateUnassignedWorkloads_nothing_waiting (st : Scheduler B) :
  forall fuel now changed,
    (forall id p, In (id, p) (session_table_ st) ->
                  ~ (0 < unassigned_of st p)%Q) ->
    AllocateUnassignedWorkloads fuel now (st, changed) = Ok (st, changed).
Proof.
  intros fuel now changed Hnone. unfold AllocateUnassignedWorkloads.
  destruct (collect_unassigned_spec st (session_table_ st) [])
    as [_ Hin].
  simpl.
  destruct (collect_unassigned st (session_table_ st) []) as [|p l];
    [reflexivity|].
  exfalso. destruct (proj1 (Hin p) (or_introl eq_refl))
    as (_ & [id Hid] & Hpos).
  exact (Hnone id p Hid Hpos).
Qed.

(** X11.  [AllocateUnassignedWorkloads] looks at every session record
    once, however many session ids share it, and tries to place exactly
    the records with a positive [unassigned_workload].  When no record
    of the session table has one, it returns at once: the state and
    the sets of changed sessions and backends are as they were. *)
Theorem AllocateUnassignedWorkloads_candidates :
  forall st : Scheduler B,
    NoDup (collect_unassigned st (session_table_ st) []) /\
    (forall p,
        In p (collect_unassigned st (session_table_ st) []) <->
        (exists id, In (id, p) (session_table_ st)) /\
        (0 < unassigned_of st p)%Q) /\
    forall fuel now changed,
      (forall id p, In (id, p) (session_table_ st) ->
                    ~ (0 < unassigned_of st p)%Q) ->
      AllocateUnassignedWorkloads fuel now (st, changed)
      = Ok (st, changed).
Proof.
  intro st. destruct (collect_unassigned_spec st (session_table_ st) [])
    as [Hnd Hin].
  split; [exact Hnd|]. split.
  - intro p. rewrite Hin. split.
    + intros (_ & H). exact H.
    + intro H. split; [intros []|exact H].
  - apply AllocateUnassignedWorkloads_nothing_waiting.
Qed.
End AllocationCandidates.

(** In [Example.pending] the sessions [vgg16] and [vgg_face] share one
    record with 30 requests per second waiting: it is considered once.
    In [Example.serving] nothing waits. *)
Lemma AllocateUnassignedWorkloads_candidates_witness :
  collect_unassigned Example.pending (session_table_ Example.pending) []
  = [0%nat] /\
  AllocateUnassignedWorkloads (BO:=Example.ops) (FL:=Example.FL) (SS:=StableSort) 16 0
                              (Example.serving, ([], None))
  = Ok (Example.serving, ([], None)).
Proof.
  split; [reflexivity|].
  apply (AllocateUnassignedWorkloads_candidates
           (BO:=Example.ops) (FL:=Example.FL) (SS:=StableSort) Example.serving).
  intros id p Hin Hpos. simpl in Hin.
  destruct Hin as [Hin | []]. inversion Hin. subst.
  vm_compute in Hpos. discriminate.
Defined.

(** ** Registering and unregistering a backend *)

Section BackendRoundTrip.
Context {B : Type} {BO : BackendDelegateOps B} {FL : Float32}
        {DB : ModelDatabase} {SS : StdSort}.
Variable BEACON_INTERVAL_SEC : Z.

Lemma set_backends_same (st : Scheduler B) :
  set_backends (backends_ st) st = st.
Proof. now destruct st. Qed.

(** X12.  A backend that registers under an unused node id while no
    static workload is free and no session has workload waiting is
    added to [backends_] and nothing else changes; the reply is CTRL_OK
    with [BEACON_INTERVAL_SEC].  While it is registered, a registration
    with the same id is answered CTRL_BACKEND_NODE_ID_CONFLICT, carries
    no beacon interval and changes nothing.  Unregistering it while it
    is idle gives back the state before its registration. *)
Theorem RegisterBackend_round_trip :
  forall fuel now (backend : B) (st : Scheduler B),
    AMap.mem Z.eqb (node_id backend) (backends_ st) = false ->
    first_free_slot st = None ->
    (forall id p, In (id, p) (session_table_ st) ->
                  ~ (0 < unassigned_of st p)%Q) ->
    let st1 :=
      set_backends (backends_ st ++ [(node_id backend, backend)]) st in
    RegisterBackend BEACON_INTERVAL_SEC fuel now backend st
    = Ok (st1, mkRegisterReply CTRL_OK (Some BEACON_INTERVAL_SEC)) /\
    GetBackend st1 (node_id backend) = Some backend /\
    (forall backend',
        node_id backend' = node_id backend ->
        RegisterBackend BEACON_INTERVAL_SEC fuel now backend' st1
        = Ok (st1, mkRegisterReply CTRL_BACKEND_NODE_ID_CONFLICT None)) /\
    (IsIdle backend = true ->
     UnregisterBackend fuel now (node_id backend) st1 = Ok st).
Proof.
  intros fuel now backend st Hfresh Hslot Hnone st1.
  assert (Hset : AMap.set Z.eqb (node_id backend) backend (backends_ st)
                 = backends_ st ++ [(node_id backend, backend)]).
  { unfold AMap.set. now rewrite Hfresh. }
  assert (Hget : GetBackend st1 (node_id backend) = Some backend).
  { unfold GetBackend, st1. simpl. rewrite (find_app Z.eqb).
    unfold AMap.mem in Hfresh.
    destruct (AMap.find Z.eqb (node_id backend) (backends_ st));
      [discriminate|].
    simpl. now rewrite Z.eqb_refl. }
  split; [|split; [exact Hget|split]].
  - unfold RegisterBackend. rewrite Hfresh, Hset. fold st1.
    unfold AddBackend.
    change (first_free_slot st1) with (first_free_slot st).
    rewrite Hslot.
    rewrite (AllocateUnassignedWorkloads_nothing_waiting st1);
      [reflexivity|].
    exact Hnone.
  - intros backend' Hid. unfold RegisterBackend. rewrite Hid.
    unfold AMap.mem. unfold GetBackend in Hget. now rewrite Hget.
  - intro Hidle. unfold UnregisterBackend. rewrite Hget.
    unfold RemoveBackend. rewrite Hidle. unfold st1. simpl.
    rewrite erase_app. simpl. rewrite Z.eqb_refl.
    rewrite (erase_fresh Z.eqb _ _ Hfresh), app_nil_r.
    replace (set_backends (backends_ st)
               (set_backends
                  (backends_ st ++ [(node_id backend, backend)]) st))
      with (set_backends (backends_ st) st) by reflexivity.
    now rewrite set_backends_same.
Qed.
End BackendRoundTrip.

(** A third backend joins [Example.cluster] and leaves again. *)
Lemma RegisterBackend_round_trip_witness :
  UnregisterBackend (BO:=Example.ops) (FL:=Example.FL) (DB:=Example.DB) (SS:=StableSort)
    16 0 12
    (set_backends
       (backends_ Example.cluster
          ++ [(12, SpecBackend.new 12 "10.0.0.1" "8001" "8002" "TITAN"
                                   4 2 10 0)])
Example.cluster)
= Ok Example.cluster.
Proof.
apply (RegisterBackend_round_trip (BO:=Example.ops) (FL:=Example.FL) (DB:=Example.DB)
    (SS:=StableSort) Example.BEACON_INTERVAL_SEC 16 0
    (SpecBackend.new 12 "10.0.0.1" "8001" "8002" "TITAN" 4 2 10 0)
Example.cluster).
- reflexivity.
- reflexivity.
- intros id p Hin. simpl in Hin. destruct Hin.
- reflexivity.
Defined.

(** ** [RemoveBackend]: session records shared by several ids *)

Lemma NSet_mem_insert (x y : nat) (s : list nat) :
  NSet.mem y (NSet.insert x s) = Nat.eqb y x || NSet.mem y s.
Proof.
  apply eq_true_iff_eq. rewrite orb_true_iff, !NSet_mem_In, Nat.eqb_eq.
  apply NSet_insert_iff.
Qed.

Section RemoveBackendShared.
Context {B : Type} {BO : BackendDelegateOps B} {FL : Float32}.

(** X13.  Step 1 of [RemoveBackend] erases the leaving backend from
    the [backend_throughputs] of exactly the records that the session
    table holds for the backend's session ids, and puts each of these
    records into the changed sessions once, also when several of the
    ids share it.  Ids that are not in the session table are skipped,
    every other record is untouched, and the session table itself does
    not change. *)
Theorem RemoveBackend_detach_once :
  forall (backend : B) (model_sessions : list string) (st : Scheduler B),
    let r := fold_left (RemoveBackend_detach backend) model_sessions
                       (st, []) in
    NoDup (snd r) /\
    (forall p, In p (snd r) <->
               exists id, In id model_sessions /\
                          AMap.find String.eqb id (session_table_ st)
                          = Some p) /\
    session_table_ (fst r) = session_table_ st /\
    forall p,
      deref (fst r) p
      = if NSet.mem p (snd r)
        then option_map (detached (node_id backend)) (deref st p)
        else deref st p.
Proof.
  intros backend ids st.
  induction ids as [|id ids IH] using rev_ind; cbv zeta.
  - simpl. split; [constructor|]. split.
    + intro p. split; [intros [] | intros [id [[] _]]].
    + now split.
  - rewrite fold_left_app. cbn [fold_left].
    cbv zeta in IH.
    set (r := fold_left (RemoveBackend_detach backend) ids (st, [])) in *.
    destruct IH as (Hnd & Hin & Ht & Hd).
    unfold RemoveBackend_detach. rewrite Ht.
    destruct (AMap.find String.eqb id (session_table_ st)) as [q|] eqn:Eq.
    + destruct (NSet.mem q (snd r)) eqn:Em.
      * split; [exact Hnd|]. split; [|now split].
        intro p. rewrite Hin. split.
        -- intros [id' [Hid' Hp]]. exists id'. split; [|exact Hp].
           apply in_or_app. now left.
        -- intros [id' [Hid' Hp]]. apply in_app_or in Hid'.
           destruct Hid' as [Hid' | [<- | []]]; [now exists id'|].
           apply Hin. apply NSet_mem_In. congruence.
      * cbn [fst snd].
        assert (Hq : ~ In q (snd r)).
        { intro H. apply NSet_mem_In in H. congruence. }
        split.
        { unfold NSet.insert. rewrite Em. apply NoDup_app_remove_l
            with (l := []). simpl.
          apply Permutation_NoDup with (l := q :: snd r).
          - apply Permutation_cons_append.
          - now constructor. }
        split.
        { intro p. rewrite NSet_insert_iff, Hin. split.
          - intros [-> | [id' [Hid' Hp]]].
            + exists id. split; [apply in_or_app; right; now left|].
              exact Eq.
            + exists id'. split; [apply in_or_app; now left | exact Hp].
          - intros [id' [Hid' Hp]]. apply in_app_or in Hid'.
            destruct Hid' as [Hid' | [<- | []]].
            + right. now exists id'.
            + left. congruence. }
        split; [exact Ht|].
        intro p. rewrite deref_on_session, NSet_mem_insert, Hd.
        rewrite (Nat.eqb_sym p q).
        destruct (Nat.eqb q p) eqn:Eqp; [|reflexivity].
        apply Nat.eqb_eq in Eqp. subst p. rewrite Em. reflexivity.
    + split; [exact Hnd|]. split; [|now split].
      intro p. rewrite Hin. split.
      * intros [id' [Hid' Hp]]. exists id'. split; [|exact Hp].
        apply in_or_app. now left.
      * intros [id' [Hid' Hp]]. apply in_app_or in Hid'.
        destruct Hid' as [Hid' | [<- | []]]; [now exists id'|].
        congruence.
Qed.

Lemma unassigned_of_returned (st : Scheduler B) q (tp : Q) si :
  deref st q = Some si ->
  forall p,
    unassigned_of
      (on_session q
         (fun s => set_unassigned_workload (unassigned_workload s + tp)%Q s)
         st) p
    = if Nat.eqb q p then (unassigned_of st p + tp)%Q
      else unassigned_of st p.
Proof.
  intros Hq p. unfold unassigned_of. rewrite deref_on_session.
  destruct (Nat.eqb q p) eqn:E; [|reflexivity].
  apply Nat.eqb_eq in E. subst p. now rewrite Hq.
Qed.

(** X14.  Step 3 of [RemoveBackend], for a dynamic backend that is not
    replaced, adds to the [unassigned_workload] of a record the
    throughput the backend reports for every one of its session ids
    that the session table maps to that record: ids that share a record
    each add to it, although step 1 took the backend off the record
    only once.  The loop throws at an id that is not in the session
    table. *)
Theorem RemoveBackend_returns_workload_per_id :
  forall (backend : B) (model_sessions : list string)
         (st st' : Scheduler B),
    result_fold (RemoveBackend_return_workload backend) model_sessions st
    = Ok st' ->
    session_table_ st' = session_table_ st /\
    (forall id, In id model_sessions ->
                AMap.mem String.eqb id (session_table_ st) = true) /\
    forall p,
      (unassigned_of st' p
       == unassigned_of st p
          + returned_to backend (session_table_ st) model_sessions p)%Q.
Proof.
  intros backend ids. induction ids as [|id ids IH]; intros st st' H.
  - simpl in H. inversion H. subst st'. split; [reflexivity|].
    split; [intros id []|]. intro p. simpl. ring.
  - simpl in H.
    destruct (RemoveBackend_return_workload backend st id)
      as [st1| |] eqn:E1; try discriminate.
    simpl in H. unfold RemoveBackend_return_workload in E1.
    unfold session_at in E1.
    destruct (AMap.find String.eqb id (session_table_ st)) as [q|] eqn:Eq;
      [|discriminate].
    simpl in E1. destruct (deref st q) as [si|] eqn:Es; [|discriminate].
    simpl in E1. inversion E1. subst st1. clear E1.
    destruct (IH _ _ H) as (Ht & Hmem & Hsum). simpl in Ht, Hmem, Hsum.
    split; [exact Ht|]. split.
    + intros id' [<- | Hid']; [|now apply Hmem].
      unfold AMap.mem. now rewrite Eq.
    + intro p. rewrite Hsum. rewrite (unassigned_of_returned st q _ si Es).
      simpl. rewrite Eq. destruct (Nat.eqb q p); ring.
Qed.
End RemoveBackendShared.

(** Backend 10 of [Example.pending] serves [vgg16] and [vgg_face], which
    share record 0: step 1 lists the record once, step 3 returns the
    throughput of both ids to it. *)
Lemma RemoveBackend_detach_once_witness :
  exists backend,
    GetBackend Example.pending 10 = Some backend /\
    GetModelSessions (BackendDelegateOps:=Example.ops) backend
    = ["vgg16"%string; "vgg_face"%string] /\
    snd (fold_left (RemoveBackend_detach (BO:=Example.ops) backend)
                   ["vgg16"%string; "vgg_face"%string]
                   (Example.pending, []))
    = [0%nat] /\
    In 0%nat
       (snd (fold_left (RemoveBackend_detach (BO:=Example.ops) backend)
                       ["vgg16"%string; "vgg_face"%string]
                       (Example.pending, []))).
Proof.
  eexists. split; [reflexivity|]. split; [reflexivity|].
  split; [reflexivity|].
  apply (RemoveBackend_detach_once (BO:=Example.ops)).
  exists "vgg_face"%string. split; [right; now left | reflexivity].
Defined.

Lemma RemoveBackend_returns_workload_per_id_witness :
  exists backend st',
    GetBackend Example.pending 10 = Some backend /\
    result_fold (RemoveBackend_return_workload (BO:=Example.ops) backend)
                ["vgg16"%string; "vgg_face"%string] Example.pending
    = Ok st' /\
    (unassigned_of Example.pending 0%nat == 30)%Q /\
    (unassigned_of st' 0%nat == 30 + (50 + (50 + 0)))%Q.
Proof.
  assert (Hrun : exists backend st',
             GetBackend Example.pending 10 = Some backend /\
             result_fold (RemoveBackend_return_workload
                            (BO:=Example.ops) backend)
                         ["vgg16"%string; "vgg_face"%string] Example.pending
             = Ok st' /\
             returned_to (BO:=Example.ops) backend
                         (session_table_ Example.pending)
                         ["vgg16"%string; "vgg_face"%string] 0%nat
             = (50 + (50 + 0))%Q)
    by (eexists; eexists; split; [reflexivity|];
        split; [vm_compute; reflexivity|]; reflexivity).
  destruct Hrun as (backend & st' & Hb & Hrun & Hret).
  exists backend, st'. split; [exact Hb|]. split; [exact Hrun|].
  split; [reflexivity|].
  destruct (RemoveBackend_returns_workload_per_id
              (BO:=Example.ops) backend _ _ st' Hrun) as (_ & _ & H).
  rewrite (H 0%nat), Hret. reflexivity.
Defined.

(** ** [LoadModel]: attaching to a prefix group *)

Section LoadModelPrefix.
Context {B : Type} {BO : BackendDelegateOps B} {FL : Float32}
        {DB : ModelDatabase}.

Lemma route_entries_rates (st : Scheduler B) tps :
  forall r, route_entries st tps = Ok r -> map snd r = map snd tps.
Proof.
  induction tps as [|[id tp] rest IH]; intros r H; simpl in H.
  - now inversion H.
  - destruct (AMap.find Z.eqb id (backends_ st)); [|discriminate].
    simpl in H.
    destruct (route_entries st rest) as [r'| |]; try discriminate.
    simpl in H. inversion H. simpl. now rewrite (IH r' eq_refl).
Qed.

Lemma length_list_update {A} (f : A -> A) (l : list A) :
  forall n, List.length (list_update n f l) = List.length l.
Proof.
  induction l as [|x l IH]; intros [|n]; simpl; try reflexivity.
  now rewrite IH.
Qed.

(** X15.  When [LoadModel] is asked for a session that is not loaded
    while a session of its prefix group is, the new session id is put
    into the session table with the very record of that session: no
    record is created, the record gains the new session at the end of
    [model_sessions] and keeps its [backend_throughputs], so the route
    in the reply lists the throughputs the group already had. *)
Theorem LoadModel_prefix_shares_record :
  forall (st st' : Scheduler B) (request : LoadModelRequest) (now : Z)
         (reply : LoadModelReply) info f p share,
    GetModelInfo (ModelSessionToModelID (req_model_session request))
    = Some info ->
    GetFrontend st (req_node_id request) = Some f ->
    let model_sess := LoadModel_session info (req_model_session request) in
    let id := ModelSessionToString model_sess in
    AMap.mem String.eqb id (session_table_ st) = false ->
    share_session_of st model_sess = Some (p, share) ->
    LoadModel st request now = Ok (st', reply) ->
    status reply = CTRL_OK /\
    AMap.find String.eqb (ModelSessionToString share) (session_table_ st')
    = Some p /\
    AMap.find String.eqb id (session_table_ st') = Some p /\
    List.length (heap_ st') = List.length (heap_ st) /\
    exists si route,
      deref st p = Some si /\
      deref st' p
      = Some (set_model_sessions (model_sessions si ++ [model_sess]) si) /\
      model_route reply = Some route /\
      map snd (backend_rate route) = map snd (backend_throughputs si).
Proof.
  intros st st' request now reply info f p share Hinfo Hfront
         model_sess id Hnew Hshare Hrun.
  unfold LoadModel in Hrun. rewrite Hinfo, Hfront in Hrun.
  fold model_sess id in Hrun. rewrite Hnew, Hshare in Hrun.
  unfold LoadModel_prefix in Hrun.
  destruct (deref st p) as [si|] eqn:Ep; [|discriminate].
  simpl in Hrun.
  destruct (LoadModel_share_loop (backend_throughputs si) model_sess share
                                 st) as [st1| |] eqn:Eloop;
    try discriminate.
  simpl in Hrun.
  destruct (LoadModel_share_loop_frame _ _ _ _ _ Eloop)
    as (_ & Ht & Hh & _).
  assert (Hsh : AMap.find String.eqb (ModelSessionToString share)
                          (session_table_ st) = Some p).
  { unfold share_session_of in Hshare.
    destruct (enable_prefix_batch_ st); [|discriminate].
    exact (find_share_session_found _ _ _ _ _ Hshare). }
  assert (Hne : id <> ModelSessionToString share).
  { intro E. unfold AMap.mem in Hnew. rewrite E, Hsh in Hnew.
    discriminate. }
  assert (Hfresh : AMap.find String.eqb id (session_table_ st) = None).
  { unfold AMap.mem in Hnew.
    now destruct (AMap.find String.eqb id (session_table_ st)). }
  unfold GetModelRoute, session_at in Hrun. simpl in Hrun.
  rewrite (find_emplace_same String.eqb String.eqb_eq), Ht, Hfresh in Hrun.
  simpl in Hrun. unfold deref in Hrun. simpl in Hrun.
  rewrite nth_error_list_update, Nat.eqb_refl, Hh in Hrun.
  unfold deref in Ep. rewrite Ep in Hrun. simpl in Hrun.
  match type of Hrun with
  | bind (bind (route_entries ?s ?t) _) _ = _ =>
      destruct (route_entries s t) as [r| |] eqn:Er; try discriminate
  end.
  simpl in Hrun. inversion Hrun. subst st' reply. simpl.
  split; [reflexivity|]. split.
  { rewrite (find_emplace_other String.eqb String.eqb_eq), ?Ht;
      [exact Hsh | exact Hne]. }
  split.
  { rewrite (find_emplace_same String.eqb String.eqb_eq), ?Ht, Hfresh.
    reflexivity. }
  split.
  { now rewrite length_list_update, ?Hh. }
  exists si. eexists. split; [reflexivity|]. split.
  { unfold deref. simpl.
    rewrite nth_error_list_update, Nat.eqb_refl, ?Hh, Ep. reflexivity. }
  split; [reflexivity|]. simpl.
  exact (route_entries_rates _ _ _ Er).
Qed.
End LoadModelPrefix.

(** Frontend 1 of [Example.serving] asks for [vgg_face], which shares a
    prefix with the loaded [vgg16]: both ids point at record 0. *)
Lemma LoadModel_prefix_shares_record_witness :
  exists st' reply,
    LoadModel (BO:=Example.ops) (FL:=Example.FL) (DB:=Example.DB) Example.serving
              (Example.load_request 1 "vgg_face" 20%Q) 0 = Ok (st', reply) /\
    AMap.find String.eqb "vgg16"%string (session_table_ st') = Some 0%nat /\
    AMap.find String.eqb "vgg_face"%string (session_table_ st') = Some 0%nat /\
    List.length (heap_ st') = 1%nat.
Proof.
  assert (Hrun : exists st' reply f,
             LoadModel (BO:=Example.ops) (FL:=Example.FL) (DB:=Example.DB) Example.serving
                       (Example.load_request 1 "vgg_face" 20%Q) 0
             = Ok (st', reply) /\
             GetFrontend Example.serving 1 = Some f)
    by (eexists; eexists; eexists; split;
        [vm_compute; reflexivity | reflexivity]).
  destruct Hrun as (st' & reply & f & Hrun & Hf).
  exists st', reply. split; [exact Hrun|].
  destruct (LoadModel_prefix_shares_record
              (BO:=Example.ops) (FL:=Example.FL) (DB:=Example.DB)
Example.serving st' (Example.load_request 1 "vgg_face" 20%Q)
0 reply (mkModelInfo false 0 0) f 0%nat
(Example.session "vgg16")
eq_refl Hf eq_refl eq_refl Hrun)
as (_ & H1 & H2 & H3 & _).
split; [exact H1|]. split; [exact H2 | exact H3].
Defined.

(** ** [AllocateUnassignedWorkloads]: what is left of a workload *)

Section AllocationResidual.
Context {B : Type} {BO : BackendDelegateOps B} {FL : Float32}
        {SS : StdSort}.

Lemma Allocate_assign_heap p head siblings backend inst
      (acc : Scheduler B * Changed) :
  List.length (heap_ (fst (Allocate_assign p head siblings backend inst
                                           acc)))
  = List.length (heap_ (fst acc)).
Proof.
  unfold Allocate_assign. simpl. rewrite length_list_update.
  unfold load_siblings.
  apply (fold_left_inv
           (fun s : Scheduler B =>
              List.length (heap_ s) = List.length (heap_ (fst acc))));
    [|reflexivity].
  intros a x Ha. exact Ha.
Qed.

Lemma Allocate_while_stops fuel p head siblings now :
  forall rate (acc : Scheduler B * Changed) r,
    Allocate_while fuel p head siblings now rate acc = Ok r ->
    List.length (heap_ (fst (snd r))) = List.length (heap_ (fst acc)) /\
    (Qltb 0 (fst r) = false \/
     fst (FindBestBackend (fst (snd r)) head (fst r) [] now) = None).
Proof.
  induction fuel as [|fuel IH]; intros rate acc r H; simpl in H.
  - destruct (Qltb 0 rate) eqn:E; [discriminate|].
    inversion H. subst r. split; [reflexivity | now left].
  - destruct (Qltb 0 rate) eqn:E.
    + destruct (FindBestBackend (fst acc) head rate [] now)
        as [[backend|] inst] eqn:Ef.
      * destruct (IH _ _ _ H) as [Hlen Hstop].
        rewrite Allocate_assign_heap in Hlen. now split.
      * inversion H. subst r. split; [reflexivity|]. right.
        simpl. now rewrite Ef.
    + inversion H. subst r. split; [reflexivity | now left].
Qed.

(** X16.  When [AllocateUnassignedWorkloads] has dealt with a session
    record, the record's [unassigned_workload] is not negative, and it
    is positive only if [FindBestBackend] finds no backend for the
    session and that remaining rate: the loop does not give up on a
    workload while a backend would take it. *)
Theorem Allocate_session_residual :
  forall fuel now (acc acc' : Scheduler B * Changed) p si head siblings,
    deref (fst acc) p = Some si ->
    model_sessions si = head :: siblings ->
    Allocate_session fuel now acc p = Ok acc' ->
    (0 <= unassigned_of (fst acc') p)%Q /\
    ((0 < unassigned_of (fst acc') p)%Q ->
     fst (FindBestBackend (fst acc') head (unassigned_of (fst acc') p)
                          [] now) = None).
Proof.
  intros fuel now acc acc' p si head siblings Hp Hms H.
  unfold Allocate_session in H. rewrite Hp in H. simpl in H.
  rewrite Hms in H.
  destruct (Allocate_while fuel p head siblings now
                           (to_float (unassigned_workload si)) acc)
    as [r| |] eqn:Er; try discriminate.
  simpl in H. inversion H. subst acc'. clear H. cbn [fst].
  destruct (Allocate_while_stops _ _ _ _ _ _ _ _ Er) as [Hlen Hstop].
  assert (Hsome : exists s, deref (fst (snd r)) p = Some s).
  { unfold deref in *.
    destruct (nth_error (heap_ (fst (snd r))) p) as [s|] eqn:E;
      [now exists s|].
    apply nth_error_None in E.
    assert (p < List.length (heap_ (fst acc)))%nat
      by (apply nth_error_Some; congruence).
    lia. }
  destruct Hsome as [s Hs].
  assert (Hu : unassigned_of
                 (on_session p (set_unassigned_workload
                                  (std_max 0 (fst r))) (fst (snd r))) p
               = std_max 0 (fst r)).
  { unfold unassigned_of. rewrite deref_on_session, Nat.eqb_refl, Hs.
    reflexivity. }
  rewrite Hu. unfold std_max.
  destruct (Qltb 0 (fst r)) eqn:E.
  - split; [apply Qlt_le_weak; now apply Qltb_lt|].
    intros _. destruct Hstop as [Hstop | Hstop]; [congruence|].
    exact Hstop.
  - split; [apply Qle_refl|]. intro H0. now apply Qlt_irrefl in H0.
Qed.
End AllocationResidual.

(** In [Example.orphaned] no backend is registered: the 50 requests per
    second of [resnet] stay unassigned. *)
Lemma Allocate_session_residual_witness :
  exists acc',
    Allocate_session (BO:=Example.ops) (FL:=Example.FL) 16 0
                     (Example.orphaned, ([], None)) 0%nat = Ok acc' /\
    (0 < unassigned_of (fst acc') 0%nat)%Q /\
    fst (FindBestBackend (BO:=Example.ops) (fst acc')
                         (Example.session "resnet")
                         (unassigned_of (fst acc') 0%nat) [] 0) = None.
Proof.
  assert (Hrun : exists acc' si,
             Allocate_session (BO:=Example.ops) (FL:=Example.FL) 16 0
                              (Example.orphaned, ([], None)) 0%nat
             = Ok acc' /\
             deref Example.orphaned 0%nat = Some si /\
             model_sessions si = [Example.session "resnet"] /\
             (0 < unassigned_of (fst acc') 0%nat)%Q)
    by (eexists; eexists; split; [vm_compute; reflexivity|];
        split; [reflexivity|]; split; reflexivity).
  destruct Hrun as (acc' & si & Hrun & Hp & Hms & Hpos).
  exists acc'. split; [exact Hrun|]. split; [exact Hpos|].
  exact (proj2 (Allocate_session_residual
                  (BO:=Example.ops) (FL:=Example.FL) 16 0
                  (Example.orphaned, ([], None)) acc' 0%nat si
                  (Example.session "resnet") [] Hp Hms Hrun) Hpos).
Defined.

(** ** [UpdateModelRoutes] *)

Section UpdateRoutes.
Context {B : Type} {BO : BackendDelegateOps B} {FL : Float32}
        {DB : ModelDatabase}.

Lemma route_pushed_append fu fid0 route :
  forall fid r,
    route_pushed
      (AMap.update Z.eqb fid0 (fun l => l ++ [route])
                   (AMap.emplace Z.eqb fid0 [] fu)) fid r
    <-> route_pushed fu fid r \/ (fid = fid0 /\ r = route).
Proof.
  intros fid r. unfold route_pushed.
  destruct (Z.eq_dec fid0 fid) as [<- | Hne].
  - rewrite (find_update_same Z.eqb),
      (find_emplace_same Z.eqb Z.eqb_eq).
    destruct (AMap.find Z.eqb fid0 fu) as [v|]; simpl.
    + split.
      * intros [routes [E Hin]]. inversion E. subst routes.
        apply in_app_or in Hin. destruct Hin as [Hin | [<- | []]].
        -- left. now exists v.
        -- now right.
      * intros [[routes [E Hin]] | [_ ->]];
          exists (v ++ [route]); (split; [reflexivity|]);
            apply in_or_app.
        -- inversion E. subst. now left.
        -- right. now left.
    + split.
      * intros [routes [E Hin]]. inversion E. subst routes.
        destruct Hin as [<- | []]. now right.
      * intros [[routes [E _]] | [_ ->]]; [discriminate|].
        exists [route]. split; [reflexivity | now left].
  - rewrite (find_update_other Z.eqb Z.eqb_eq) by exact Hne.
    rewrite (find_emplace_other Z.eqb Z.eqb_eq) by exact Hne.
    split; [now left|]. intros [H | [E _]]; [exact H | congruence].
Qed.

Lemma routes_for_subscribers_spec (st : Scheduler B) id subs :
  forall fu fu',
    routes_for_subscribers st id subs fu = Ok fu' ->
    forall fid r,
      route_pushed fu' fid r
      <-> route_pushed fu fid r \/
          (In fid subs /\ GetModelRoute st id = Ok r).
Proof.
  induction subs as [|fid0 rest IH]; intros fu fu' H fid r; simpl in H.
  - inversion H. subst. split; [now left|]. now intros [H0 | [[] _]].
  - destruct (GetModelRoute st id) as [route| |] eqn:Er; try discriminate.
    simpl in H. rewrite (IH _ _ H fid r), route_pushed_append. split.
    + intros [[H0 | [-> ->]] | [Hin Hr]].
      * now left.
      * right. split; [now left | reflexivity].
      * right. split; [now right | exact Hr].
    + intros [H0 | [[<- | Hin] Hr]].
      * left. now left.
      * left. right. split; [reflexivity|]. congruence.
      * right. now split.
Qed.

Lemma routes_for_group_spec (st : Scheduler B) group :
  forall fu fu',
    routes_for_group st group fu = Ok fu' ->
    forall fid r,
      route_pushed fu' fid r
      <-> route_pushed fu fid r \/ route_due_in st group fid r.
Proof.
  induction group as [|ms rest IH]; intros fu fu' H fid r; simpl in H.
  - inversion H. subst. split; [now left|].
    intros [H0 | (ms & subs & [] & _)]. exact H0.
  - destruct (AMap.find String.eqb (ModelSessionToString ms)
                        (session_subscribers_ st)) as [subs|] eqn:Es.
    + destruct (routes_for_subscribers st (ModelSessionToString ms) subs fu)
        as [fu1| |] eqn:E1; try discriminate.
      simpl in H.
      rewrite (IH _ _ H fid r),
        (routes_for_subscribers_spec _ _ _ _ _ E1 fid r).
      split.
      * intros [[H0 | [Hin Hr]] | (ms' & subs' & Hms & Hs & Hin & Hr)].
        -- now left.
        -- right. exists ms, subs. repeat split; try assumption.
           now left.
        -- right. exists ms', subs'. repeat split; try assumption.
           now right.
      * intros [H0 | (ms' & subs' & [<- | Hms] & Hs & Hin & Hr)].
        -- left. now left.
        -- left. right. rewrite Es in Hs. inversion Hs. subst subs'.
           now split.
        -- right. exists ms', subs'. now repeat split.
    + rewrite (IH _ _ H fid r). split.
      * intros [H0 | (ms' & subs' & Hms & Hs & Hin & Hr)]; [now left|].
        right. exists ms', subs'. repeat split; try assumption.
        now right.
      * intros [H0 | (ms' & subs' & [<- | Hms] & Hs & Hin & Hr)].
        -- now left.
        -- congruence.
        -- right. exists ms', subs'. now repeat split.
Qed.

Lemma routes_for_sessions_spec (st : Scheduler B) sessions :
  forall fu fu',
    routes_for_sessions st sessions fu = Ok fu' ->
    forall fid r,
      route_pushed fu' fid r
      <-> route_pushed fu fid r \/ route_due st sessions fid r.
Proof.
  induction sessions as [|p rest IH]; intros fu fu' H fid r; simpl in H.
  - inversion H. subst. split; [now left|].
    intros [H0 | (p & si & [] & _)]. exact H0.
  - destruct (deref st p) as [si|] eqn:Ep; [|discriminate]. simpl in H.
    destruct (routes_for_group st (model_sessions si) fu)
      as [fu1| |] eqn:E1; try discriminate.
    simpl in H.
    rewrite (IH _ _ H fid r), (routes_for_group_spec _ _ _ _ E1 fid r).
    split.
    + intros [[H0 | Hd] | (q & sq & Hq & Hsq & Hd)].
      * now left.
      * right. exists p, si. repeat split; try assumption. now left.
      * right. exists q, sq. repeat split; try assumption. now right.
    + intros [H0 | (q & sq & [<- | Hq] & Hsq & Hd)].
      * left. now left.
      * left. right. rewrite Ep in Hsq. inversion Hsq. now subst.
      * right. exists q, sq. now repeat split.
Qed.

Lemma find_In_pair {V} (k : Z) (v : V) (m : list (Z * V)) :
  AMap.find Z.eqb k m = Some v -> In (k, v) m.
Proof.
  induction m as [|[k' v'] m IH]; simpl; [discriminate|].
  destruct (k =? k') eqn:E.
  - apply Z.eqb_eq in E. subst k'. intro H. inversion H. now left.
  - intro H. right. now apply IH.
Qed.

Lemma push_updates_registered (st : Scheduler B) fu :
  push_updates st fu = Ok tt ->
  forall fid routes, In (fid, routes) fu ->
                     AMap.mem Z.eqb fid (frontends_ st) = true.
Proof.
  induction fu as [|[id l] fu IH]; intros H fid routes Hin; simpl in H.
  - destruct Hin.
  - destruct (AMap.find Z.eqb id (frontends_ st)) eqn:E; [|discriminate].
    simpl in H. destruct Hin as [Hin | Hin].
    + inversion Hin. subst. unfold AMap.mem. now rewrite E.
    + now apply (IH H fid routes).
Qed.

(** X17.  The updates [UpdateModelRoutes] sends: a frontend is sent a
    route exactly when it subscribes to a session of one of the changed
    records, and the route is the one [GetModelRoute] gives for that
    session; every frontend that is sent updates is registered.  (The
    call throws instead when a subscriber is not registered.) *)
Theorem UpdateModelRoutes_exact :
  forall (st : Scheduler B) (sessions : list SessionInfoPtr) fu,
    UpdateModelRoutes st sessions = Ok fu ->
    (forall fid r, route_pushed fu fid r <-> route_due st sessions fid r) /\
    (forall fid routes,
        AMap.find Z.eqb fid fu = Some routes ->
        AMap.mem Z.eqb fid (frontends_ st) = true).
Proof.
  intros st sessions fu H. unfold UpdateModelRoutes in H.
  destruct (routes_for_sessions st sessions []) as [fu0| |] eqn:E0;
    try discriminate.
  simpl in H.
  destruct (push_updates st fu0) as [[]| |] eqn:Ep; try discriminate.
  simpl in H. inversion H. subst fu0. split.
  - intros fid r. rewrite (routes_for_sessions_spec _ _ _ _ E0 fid r).
    split; [|now right].
    intros [[routes [Hf _]] | Hd]; [discriminate | exact Hd].
  - intros fid routes Hf.
    exact (push_updates_registered _ _ Ep fid routes
                                   (find_In_pair _ _ _ Hf)).
Qed.
End UpdateRoutes.

(** In [Example.serving] frontend 1 subscribes to [vgg16], served by
    record 0: it is sent the route of [vgg16], frontend 2 nothing. *)
Lemma UpdateModelRoutes_exact_witness :
  exists fu route,
    UpdateModelRoutes (BO:=Example.ops) (DB:=Example.DB) Example.serving
                      [0%nat] = Ok fu /\
    GetModelRoute (BO:=Example.ops) Example.serving "vgg16" = Ok route /\
    route_due (BO:=Example.ops) (DB:=Example.DB) Example.serving [0%nat]
              1 route /\
    ~ route_pushed fu 2 route.
Proof.
  assert (Hrun : exists fu route,
             UpdateModelRoutes (BO:=Example.ops) (DB:=Example.DB)
Example.serving [0%nat] = Ok fu /\
GetModelRoute (BO:=Example.ops) Example.serving "vgg16"
= Ok route /\
AMap.find Z.eqb 1 fu = Some [route] /\
AMap.find Z.eqb 2 fu = None)
by (eexists; eexists; split; [vm_compute; reflexivity|];
split; [reflexivity|]; split; reflexivity).
destruct Hrun as (fu & route & Hrun & Hroute & H1 & H2).
exists fu, route. split; [exact Hrun|]. split; [exact Hroute|].
destruct (UpdateModelRoutes_exact (BO:=Example.ops) (DB:=Example.DB)
Example.serving [0%nat] fu Hrun) as [Hexact _].
split.
- apply Hexact. exists [route]. split; [exact H1 | now left].
- intros [routes [Hf _]]. congruence.
Defined.

(** ** [LoadModel]: the record of a new session *)

Section LoadModelNewRecord.
Context {B : Type} {BO : BackendDelegateOps B} {FL : Float32}
        {DB : ModelDatabase}.

Local Notation nid := (fun x : (NodeId * B) * InstanceInfo =>
                         node_id (snd (fst x))).
Local Notation entry := (fun x : (NodeId * B) * InstanceInfo =>
                           (node_id (snd (fst x)), throughput (snd x))).
Local Notation rate := (fun x : (NodeId * B) * InstanceInfo =>
                          throughput (snd x)).




End LoadModelNewRecord.


(** ** [BeaconCheck] when every node is alive *)

Section BeaconCheckAlive.
Context {B : Type} {BO : BackendDelegateOps B} {FL : Float32}
        {DB : ModelDatabase} {SS : StdSort}.

Lemma filter_none {A} (f : A -> bool) (l : list A) :
  (forall x, In x l -> f x = false) -> filter f l = [].
Proof.
  induction l as [|x l IH]; intro H; simpl; [reflexivity|].
  rewrite (H x (or_introl eq_refl)). apply IH.
  intros y Hy. apply H. now right.
Qed.

Lemma BeaconCheck_session_frame (st st' : Scheduler B) iter :
  BeaconCheck_session st iter = Ok st' ->
  frontends_ st' = frontends_ st /\
  backends_ st' = backends_ st /\
  session_table_ st' = session_table_ st /\
  session_subscribers_ st' = session_subscribers_ st /\
  assigned_static_workloads_ st' = assigned_static_workloads_ st /\
  issued_ st' = issued_ st /\
  forall p, option_map (set_rps_history []) (deref st' p)
            = option_map (set_rps_history []) (deref st p).
Proof.
  unfold BeaconCheck_session. intro H.
  destruct (deref st (snd iter)) as [si|]; [|discriminate]. simpl in H.
  destruct (session_rps st (fst iter) (backend_throughputs si) 0)
    as [rps| |]; try discriminate.
  simpl in H. inversion H. subst st'. repeat split; try reflexivity.
  intro p. rewrite deref_on_session.
  destruct (Nat.eqb (snd iter) p); [|reflexivity].
  now destruct (deref st p).
Qed.

(** X19.  A [BeaconCheck] that finds every frontend and every backend
    alive is its second step alone: it removes no node, issues no call
    to a backend, and leaves the frontends, the backends, the session
    table, the subscribers and the static slots as they are; in the
    session records only [rps_history] may differ. *)
Theorem BeaconCheck_all_alive :
  forall fuel now (st : Scheduler B),
    (forall e, In e (frontends_ st) ->
               FrontendDelegate.IsAlive (snd e) now = true) ->
    (forall e, In e (backends_ st) -> IsAlive (snd e) now = true) ->
    BeaconCheck fuel now st
    = result_fold BeaconCheck_session (session_table_ st) st /\
    forall st',
      BeaconCheck fuel now st = Ok st' ->
      frontends_ st' = frontends_ st /\
      backends_ st' = backends_ st /\
      session_table_ st' = session_table_ st /\
      session_subscribers_ st' = session_subscribers_ st /\
      assigned_static_workloads_ st' = assigned_static_workloads_ st /\
      issued_ st' = issued_ st /\
      forall p, option_map (set_rps_history []) (deref st' p)
                = option_map (set_rps_history []) (deref st p).
Proof.
  intros fuel now st Hf Hb.
  assert (Hframe :
            forall st2,
              result_fold BeaconCheck_session (session_table_ st) st
              = Ok st2 ->
              frontends_ st2 = frontends_ st /\
              backends_ st2 = backends_ st /\
              session_table_ st2 = session_table_ st /\
              session_subscribers_ st2 = session_subscribers_ st /\
              assigned_static_workloads_ st2
              = assigned_static_workloads_ st /\
              issued_ st2 = issued_ st /\
              forall p, option_map (set_rps_history []) (deref st2 p)
                        = option_map (set_rps_history []) (deref st p)).
  { intro st2.
    apply (result_fold_inv
             (fun a : Scheduler B =>
                frontends_ a = frontends_ st /\
                backends_ a = backends_ st /\
                session_table_ a = session_table_ st /\
                session_subscribers_ a = session_subscribers_ st /\
                assigned_static_workloads_ a
                = assigned_static_workloads_ st /\
                issued_ a = issued_ st /\
                forall p, option_map (set_rps_history []) (deref a p)
                          = option_map (set_rps_history []) (deref st p)));
      [|now repeat split].
    intros a x a' (H1 & H2 & H3 & H4 & H5 & H6 & H7) Hx.
    destruct (BeaconCheck_session_frame _ _ _ Hx)
      as (G1 & G2 & G3 & G4 & G5 & G6 & G7).
    split; [congruence|]. split; [congruence|]. split; [congruence|].
    split; [congruence|]. split; [congruence|]. split; [congruence|].
    intro p. now rewrite G7. }
  assert (Hrun : BeaconCheck fuel now st
                 = result_fold BeaconCheck_session (session_table_ st) st).
  { unfold BeaconCheck. cbv zeta.
    rewrite (filter_none _ (map snd (frontends_ st))).
    2:{ intros x Hx. apply in_map_iff in Hx. destruct Hx as [e [<- He]].
        now rewrite (Hf e He). }
    simpl.
    destruct (result_fold BeaconCheck_session (session_table_ st) st)
      as [st2| |] eqn:E2; try reflexivity.
    simpl. destruct (Hframe st2 eq_refl) as (_ & Hb2 & _).
    rewrite Hb2. rewrite (filter_none _ (map snd (backends_ st))).
    2:{ intros x Hx. apply in_map_iff in Hx. destruct Hx as [e [<- He]].
        now rewrite (Hb e He). }
    reflexivity. }
  split; [exact Hrun|]. intros st' H. rewrite Hrun in H. now apply Hframe.
Qed.
End BeaconCheckAlive.

(** At instant 0 every node of [Example.reporting] is alive: the beacon
    check appends the 42 requests per second backend 10 reports. *)
Lemma BeaconCheck_all_alive_witness :
  exists st' si',
    BeaconCheck (BO:=Example.ops) (FL:=Example.FL) (DB:=Example.DB) (SS:=StableSort)
                16 0 Example.reporting = Ok st' /\
    backends_ st' = backends_ Example.reporting /\
    deref st' 0%nat = Some si' /\
    rps_history si' = [42%Q].
Proof.
  assert (Hrun : exists st' si',
             BeaconCheck (BO:=Example.ops) (FL:=Example.FL) (DB:=Example.DB) (SS:=StableSort)
                         16 0 Example.reporting = Ok st' /\
             deref st' 0%nat = Some si' /\
             rps_history si' = [42%Q])
    by (eexists; eexists; split; [vm_compute; reflexivity|];
        split; reflexivity).
  destruct Hrun as (st' & si' & Hrun & Hp & Hh).
  exists st', si'. split; [exact Hrun|].
  split; [|split; [exact Hp | exact Hh]].
  destruct (BeaconCheck_all_alive (BO:=Example.ops) (FL:=Example.FL) (DB:=Example.DB)
              (SS:=StableSort) 16 0 Example.reporting) as [_ H].
  - intros e He. simpl in He.
    repeat (destruct He as [<- | He]; [reflexivity|]). destruct He.
  - intros e He. simpl in He.
    repeat (destruct He as [<- | He]; [reflexivity|]). destruct He.
  - exact (proj1 (proj2 (H st' Hrun))).
Defined.

(** ** [RemoveBackend]: handing the workload to an idle backend *)

Section RemoveBackendHandover.
Context {B : Type} {BO : BackendDelegateOps B} {FL : Float32}
        {DB : ModelDatabase} {SS : StdSort}.

Lemma find_assignee_first (backend : B) (l : list (NodeId * B)) a :
  find_assignee backend l = Some a ->
  exists pre b post,
    l = pre ++ (fst a, b) :: post /\
    IsIdle b = true /\
    Assign b backend = Some (snd a) /\
    Forall (fun e => IsIdle (snd e) = false \/
                     Assign (snd e) backend = None) pre.
Proof.
  induction l as [|[k b] l IH]; simpl; [discriminate|]. intro H.
  destruct (IsIdle b) eqn:Ei.
  - destruct (Assign b backend) as [b'|] eqn:Ea.
    + inversion H. subst a. exists [], b, l. simpl. now repeat split.
    + destruct (IH H) as (pre & b0 & post & -> & H1 & H2 & H3).
      exists ((k, b) :: pre), b0, post. repeat split; try assumption.
      constructor; [now right | exact H3].
  - destruct (IH H) as (pre & b0 & post & -> & H1 & H2 & H3).
    exists ((k, b) :: pre), b0, post. repeat split; try assumption.
    constructor; [now left | exact H3].
Qed.

Lemma RemoveBackend_detach_erased (backend : B) ids :
  forall acc : Scheduler B * list SessionInfoPtr,
    (forall p, In p (snd acc) -> erased_at (node_id backend) (fst acc) p) ->
    let r := fold_left (RemoveBackend_detach backend) ids acc in
    (forall p, In p (snd r) -> erased_at (node_id backend) (fst r) p) /\
    (forall p, In p (snd acc) -> In p (snd r)) /\
    (forall id p, In id ids ->
                  AMap.find String.eqb id (session_table_ (fst acc))
                  = Some p ->
                  In p (snd r)).
Proof.
  induction ids as [|id ids IH]; intros acc Hacc; cbv zeta.
  - simpl. split; [exact Hacc|]. split; [now intros|]. intros id p [].
  - cbn [fold_left].
    assert (Hstep :
              (forall p, In p (snd (RemoveBackend_detach backend acc id)) ->
                         erased_at (node_id backend)
                           (fst (RemoveBackend_detach backend acc id)) p) /\
              (forall p, In p (snd acc) ->
                         In p (snd (RemoveBackend_detach backend acc id))) /\
              session_table_ (fst (RemoveBackend_detach backend acc id))
              = session_table_ (fst acc) /\
              (forall p, AMap.find String.eqb id (session_table_ (fst acc))
                         = Some p ->
                         In p (snd (RemoveBackend_detach backend acc id)))).
    { unfold RemoveBackend_detach.
      destruct (AMap.find String.eqb id (session_table_ (fst acc)))
        as [q|] eqn:Eq.
      - destruct (NSet.mem q (snd acc)) eqn:Em.
        + split; [exact Hacc|]. split; [now intros|].
          split; [reflexivity|]. intros p Hp. inversion Hp. subst p.
          now apply NSet_mem_In.
        + cbn [fst snd]. split.
          * intros p Hp s Hs. rewrite deref_on_session in Hs.
            destruct (Nat.eqb q p) eqn:Eqp.
            -- destruct (deref (fst acc) p); [|discriminate].
               simpl in Hs. inversion Hs. simpl.
               apply (find_erase_same Z.eqb).
            -- apply NSet_insert_iff in Hp. destruct Hp as [-> | Hp].
               ++ now rewrite Nat.eqb_refl in Eqp.
               ++ exact (Hacc p Hp s Hs).
          * split; [intros p Hp; apply NSet_insert_iff; now right|].
            split; [reflexivity|]. intros p Hp. inversion Hp. subst p.
            apply NSet_insert_iff. now left.
      - split; [exact Hacc|]. split; [now intros|].
        split; [reflexivity|]. discriminate. }
    destruct Hstep as (H1 & H2 & H3 & H4).
    destruct (IH (RemoveBackend_detach backend acc id) H1)
      as (G1 & G2 & G3).
    split; [exact G1|]. split; [intros p Hp; apply G2; now apply H2|].
    intros id' p [<- | Hid] Hp.
    + apply G2. now apply H4.
    + apply (G3 id' p Hid). now rewrite H3.
Qed.

Lemma mem_emplace_key (k : Z) (v : Q) (m : list (Z * Q)) :
  AMap.mem Z.eqb k (AMap.emplace Z.eqb k v m) = true.
Proof.
  unfold AMap.mem at 1. rewrite (find_emplace_same Z.eqb Z.eqb_eq).
  now destruct (AMap.find Z.eqb k m).
Qed.

Lemma mem_emplace_keeps (k k' : Z) (v : Q) (m : list (Z * Q)) :
  AMap.mem Z.eqb k m = true ->
  AMap.mem Z.eqb k (AMap.emplace Z.eqb k' v m) = true.
Proof.
  intro H. destruct (Z.eq_dec k' k) as [-> | Hne];
    [apply mem_emplace_key|].
  unfold AMap.mem in *.
  now rewrite (find_emplace_other Z.eqb Z.eqb_eq) by exact Hne.
Qed.

Variables (key : NodeId) (assigned : B) (leaving : NodeId).

Lemma RemoveBackend_reattach_step (st st1 : Scheduler B) id :
  GetBackend st key = Some assigned ->
  RemoveBackend_reattach key st id = Ok st1 ->
  session_table_ st1 = session_table_ st /\
  backends_ st1 = backends_ st /\
  (exists p, AMap.find String.eqb id (session_table_ st) = Some p /\
             listed_at (node_id assigned) st1 p) /\
  (forall p, listed_at (node_id assigned) st p ->
             listed_at (node_id assigned) st1 p) /\
  (node_id assigned <> leaving ->
   forall p, erased_at leaving st p -> erased_at leaving st1 p).
Proof.
  intros Hg H. unfold RemoveBackend_reattach, session_at in H.
  destruct (AMap.find String.eqb id (session_table_ st)) as [q|] eqn:Eq;
    [|discriminate].
  simpl in H. destruct (deref st q) as [sq|] eqn:Es; [|discriminate].
  simpl in H. rewrite Hg in H. simpl in H. inversion H. subst st1. clear H.
  split; [reflexivity|]. split; [reflexivity|]. split; [|split].
  - exists q. split; [reflexivity|]. unfold listed_at.
    rewrite deref_on_session, Nat.eqb_refl, Es. simpl.
    eexists. split; [reflexivity|]. simpl. apply mem_emplace_key.
  - intros p [s [Hs Hm]]. unfold listed_at. rewrite deref_on_session.
    destruct (Nat.eqb q p); [|now exists s].
    rewrite Hs. simpl. eexists. split; [reflexivity|]. simpl.
    now apply mem_emplace_keeps.
  - intros Hne p He s Hs. rewrite deref_on_session in Hs.
    destruct (Nat.eqb q p); [|exact (He s Hs)].
    destruct (deref st p) as [s0|] eqn:E0; [|discriminate].
    simpl in Hs. inversion Hs. simpl.
    rewrite (find_emplace_other Z.eqb Z.eqb_eq) by exact Hne.
    now apply He.
Qed.

Lemma RemoveBackend_reattach_fold ids :
  forall st st' : Scheduler B,
    GetBackend st key = Some assigned ->
    result_fold (RemoveBackend_reattach key) ids st = Ok st' ->
    session_table_ st' = session_table_ st /\
    (forall p, listed_at (node_id assigned) st p ->
               listed_at (node_id assigned) st' p) /\
    (node_id assigned <> leaving ->
     forall p, erased_at leaving st p -> erased_at leaving st' p) /\
    (forall id, In id ids ->
                exists p,
                  AMap.find String.eqb id (session_table_ st) = Some p /\
                  listed_at (node_id assigned) st' p).
Proof.
  induction ids as [|id ids IH]; intros st st' Hg H; simpl in H.
  - inversion H. subst st'. split; [reflexivity|]. split; [now intros|].
    split; [now intros|]. intros id [].
  - destruct (RemoveBackend_reattach key st id) as [st1| |] eqn:E1;
      try discriminate.
    simpl in H.
    destruct (RemoveBackend_reattach_step _ _ _ Hg E1)
      as (Ht & Hb & [p [Hp Hl]] & Hkeep & Her).
    assert (Hg1 : GetBackend st1 key = Some assigned)
      by (unfold GetBackend in *; now rewrite Hb).
    destruct (IH _ _ Hg1 H) as (Ht' & Hkeep' & Her' & Hall).
    split; [congruence|]. split; [now auto|]. split; [now auto|].
    intros id' [<- | Hid].
    + exists p. split; [exact Hp | now apply Hkeep'].
    + destruct (Hall id' Hid) as [q [Hq Hlq]]. exists q.
      split; [now rewrite <- Ht | exact Hlq].
Qed.
End RemoveBackendHandover.

Section RemoveBackendHandoverOutcome.
Context {B : Type} {BO : BackendDelegateOps B} {FL : Float32}
        {DB : ModelDatabase} {SS : StdSort}.

Local Notation shape x :=
  (session_table_ x, map backend_throughputs (heap_ x)).

Lemma map_tps_list_update (f : SessionInfo -> SessionInfo) l :
  (forall s, backend_throughputs (f s) = backend_throughputs s) ->
  forall q, map backend_throughputs (list_update q f l)
            = map backend_throughputs l.
Proof.
  intro Hf. induction l as [|x l IH]; intros [|q]; simpl;
    try reflexivity.
  - now rewrite Hf.
  - now rewrite IH.
Qed.

Lemma shape_deref (st st' : Scheduler B) p :
  shape st' = shape st ->
  option_map backend_throughputs (deref st' p)
  = option_map backend_throughputs (deref st p).
Proof.
  intro H. pose proof (f_equal snd H) as Hh. cbn [snd] in Hh.
  unfold deref. rewrite <- !nth_error_map. now rewrite Hh.
Qed.

Lemma listed_at_shape (st st' : Scheduler B) k p :
  shape st' = shape st -> listed_at k st p -> listed_at k st' p.
Proof.
  intros H [s [Hs Hm]]. pose proof (shape_deref st st' p H) as Hd.
  rewrite Hs in Hd. destruct (deref st' p) as [s'|] eqn:E;
    [|discriminate].
  simpl in Hd. inversion Hd as [Ht]. exists s'. split; [exact E|].
  now rewrite Ht.
Qed.

Lemma erased_at_shape (st st' : Scheduler B) k p :
  shape st' = shape st -> erased_at k st p -> erased_at k st' p.
Proof.
  intros H He s' Hs'. pose proof (shape_deref st st' p H) as Hd.
  rewrite Hs' in Hd. destruct (deref st p) as [s|] eqn:E;
    [|discriminate].
  simpl in Hd. inversion Hd as [Ht]. rewrite Ht. now apply He.
Qed.

Lemma RemoveBackend_move_backup_shape backend key ids :
  forall (acc acc' : Scheduler B * list NodeId),
    result_fold (RemoveBackend_move_backup backend key) ids acc = Ok acc' ->
    shape (fst acc') = shape (fst acc).
Proof.
  intros acc acc'.
  apply (result_fold_inv (fun a => shape (fst a) = shape (fst acc)));
    [|reflexivity].
  intros a x a' Ha Hx. unfold RemoveBackend_move_backup in Hx.
  destruct (session_at (fst a) x) as [ps| |]; try discriminate.
  simpl in Hx.
  destruct (GetBackend (fst a) key) as [assigned|]; [|discriminate].
  simpl in Hx.
  match type of Hx with
  | context [on_session ?q ?f (fst a)] =>
      assert (Hs : shape (on_session q f (fst a)) = shape (fst acc))
  end.
  { rewrite <- Ha. simpl. f_equal. now apply map_tps_list_update. }
  destruct (negb _ && negb _); inversion Hx; subst a'; [exact Hs|].
  apply (fold_left_inv (fun b => shape (fst b) = shape (fst acc)));
    [|exact Hs].
  intros b y Hb. unfold swap_backup_on.
  destruct (GetBackend (fst b) (fst y)); exact Hb.
Qed.

(** X20.  When a busy backend leaves and an idle backend accepts its
    workload, the replacement is the first backend of [backends_], in
    iteration order, that is idle and whose [Assign] succeeds.  After
    [RemoveBackend] every session of the leaving backend is still in
    the session table under the same record, the record lists the
    replacement in [backend_throughputs], and (the two node ids being
    different) it no longer lists the backend that left. *)
Theorem RemoveBackend_hands_over :
  forall fuel now (backend : B) (st st' : Scheduler B) a,
    IsIdle backend = false ->
    find_assignee backend (backends_ st) = Some a ->
    RemoveBackend fuel now backend st = Ok st' ->
    (exists pre b post,
        backends_ st = pre ++ (fst a, b) :: post /\
        IsIdle b = true /\
        Assign b backend = Some (snd a) /\
        Forall (fun e => IsIdle (snd e) = false \/
                         Assign (snd e) backend = None) pre) /\
    forall id,
      In id (GetModelSessions backend) ->
      exists p,
        AMap.find String.eqb id (session_table_ st) = Some p /\
        AMap.find String.eqb id (session_table_ st') = Some p /\
        listed_at (node_id (snd a)) st' p /\
        (node_id (snd a) <> node_id backend ->
         erased_at (node_id backend) st' p).
Proof.
  intros fuel now backend st st' a Hidle Ha H.
  split; [exact (find_assignee_first _ _ _ Ha)|].
  unfold RemoveBackend in H. rewrite Hidle in H. cbv zeta in H.
  destruct (RemoveBackend_detach_frame backend (GetModelSessions backend)
                                       (st, []))
    as (_ & Hb1 & Ht1).
  destruct (RemoveBackend_detach_erased backend (GetModelSessions backend)
              (st, []) (fun p (Hp : In p []) => match Hp with end))
    as (He1 & _ & Hreach).
  cbn [fst snd] in Hb1, Ht1, He1, Hreach.
  set (r1 := fold_left (RemoveBackend_detach backend)
                       (GetModelSessions backend) (st, [])) in *.
  rewrite Hb1, Ha in H.
  destruct (find_assignee_key _ _ _ Ha) as [b0 Hb0].
  set (st2 := issue (fst a) (IAssign (node_id backend))
                    (on_backend (fst a) (fun _ => snd a) (fst r1))) in *.
  assert (Hg2 : GetBackend st2 (fst a) = Some (snd a)).
  { unfold GetBackend, st2. simpl.
    rewrite (find_update_same Z.eqb), Hb1, Hb0. reflexivity. }
  assert (Hs2 : shape st2 = shape (fst r1)) by reflexivity.
  match type of H with
  | bind (result_fold ?g ?l ?x) _ = _ =>
      destruct (result_fold g l x) as [st3| |] eqn:E3; try discriminate
  end.
  simpl in H.
  destruct (RemoveBackend_reattach_fold (fst a) (snd a) (node_id backend)
              _ _ _ Hg2 E3) as (Ht3 & _ & Her3 & Hall3).
  assert (Hfinal : shape st' = shape st3).
  { unfold RemoveBackend_record_slot in H.
    destruct (GetBackend st3 (fst a)) as [asg|]; [|discriminate].
    simpl in H.
    match type of H with
    | bind ?m _ = _ =>
        assert (Hs4 : exists st4, m = Ok st4 /\ shape st4 = shape st3)
    end.
    { destruct (negb _); eexists; split; reflexivity. }
    destruct Hs4 as (st4 & Em & Hs4). rewrite Em in H. simpl in H.
    match type of H with
    | bind (result_fold ?g ?l ?x) _ = _ =>
        destruct (result_fold g l x) as [r5| |] eqn:E5; try discriminate
    end.
    simpl in H. apply RemoveBackend_move_backup_shape in E5.
    cbn [fst] in E5. unfold push_changes in H.
    destruct (UpdateModelRoutes _ _); try discriminate.
    simpl in H. inversion H.
    destruct (update_model_tables_frame (snd r5) (fst r5))
      as (_ & Ht & Hh & _).
    rewrite Ht, Hh. now rewrite E5. }
  intros id Hid. destruct (Hall3 id Hid) as [p [Hp Hl]].
  assert (Hp0 : AMap.find String.eqb id (session_table_ st) = Some p).
  { rewrite <- Ht1. exact Hp. }
  exists p. split; [exact Hp0|]. split.
  { pose proof (f_equal fst Hfinal) as Ht'. cbn [fst] in Ht'.
    rewrite Ht', Ht3. exact Hp. }
  split; [exact (listed_at_shape _ _ _ _ Hfinal Hl)|].
  intro Hne. apply (erased_at_shape _ _ _ _ Hfinal).
  apply (Her3 Hne). apply (erased_at_shape _ _ _ _ Hs2).
  apply He1. exact (Hreach id p Hid Hp0).
Qed.
End RemoveBackendHandoverOutcome.

(** Backend 10 of [Example.serving] serves [vgg16] and leaves; the idle
    backend 11 takes the session over. *)
Lemma RemoveBackend_hands_over_witness :
  exists backend st',
    GetBackend Example.serving 10 = Some backend /\
    RemoveBackend (BO:=Example.ops) (FL:=Example.FL) (DB:=Example.DB) (SS:=StableSort)
                  16 0 backend
                  (set_backends (AMap.erase Z.eqb 10
                                   (backends_ Example.serving))
Example.serving) = Ok st' /\
listed_at 11 st' 0%nat /\ erased_at 10 st' 0%nat.
Proof.
assert (Hrun : exists backend st' a,
GetBackend Example.serving 10 = Some backend /\
RemoveBackend (BO:=Example.ops) (FL:=Example.FL) (DB:=Example.DB)
(SS:=StableSort) 16 0 backend
(set_backends (AMap.erase Z.eqb 10
            (backends_ Example.serving))
Example.serving) = Ok st' /\
IsIdle (BackendDelegateOps:=Example.ops) backend = false /\
find_assignee (BO:=Example.ops) backend
(backends_ (set_backends (AMap.erase Z.eqb 10
  (backends_ Example.serving))
Example.serving)) = Some a /\
node_id (BackendDelegateOps:=Example.ops) (snd a) = 11 /\
node_id (BackendDelegateOps:=Example.ops) backend = 10 /\
GetModelSessions (BackendDelegateOps:=Example.ops) backend
= ["vgg16"%string])
by (eexists; eexists; eexists; split; [reflexivity|];
split; [vm_compute; reflexivity|]; split; [reflexivity|];
split; [vm_compute; reflexivity|]; split; [reflexivity|];
split; reflexivity).
destruct Hrun as (backend & st' & a & Hb & Hrun & Hidle & Ha & Hn & Hl & Hms).
exists backend, st'. split; [exact Hb|]. split; [exact Hrun|].
destruct (RemoveBackend_hands_over (BO:=Example.ops) (FL:=Example.FL) (DB:=Example.DB)
(SS:=StableSort) 16 0 backend _ st' a Hidle Ha Hrun)
as [_ H].
destruct (H "vgg16"%string) as (p & Hp & _ & Hlisted & Herased).
{ rewrite Hms. now left. }
vm_compute in Hp. inversion Hp. subst p.
rewrite Hn in Hlisted, Herased. rewrite Hl in Herased.
split; [exact Hlisted|]. apply Herased. discriminate.
Defined.

(** ** The frontends and their subscriptions under backend changes *)

Section RegistryFrames.
Context {B : Type} {BO : BackendDelegateOps B} {FL : Float32}
        {DB : ModelDatabase} {SS : StdSort}.

Local Notation reg st := (frontends_ st, session_subscribers_ st).

Lemma update_model_tables_registry keys (st : Scheduler B) :
  reg (update_model_tables keys st) = reg st.
Proof.
  unfold update_model_tables.
  apply (fold_left_inv (fun s => reg s = reg st)); [|reflexivity].
  intros a x Ha. exact Ha.
Qed.

Lemma push_changes_registry (st st' : Scheduler B) cs cb :
  push_changes st cs cb = Ok st' -> reg st' = reg st.
Proof.
  unfold push_changes. intro H.
  destruct (UpdateModelRoutes _ _); try discriminate.
  simpl in H. inversion H. apply update_model_tables_registry.
Qed.

Lemma Allocate_assign_registry p head siblings backend inst
      (acc : Scheduler B * Changed) :
  reg (fst (Allocate_assign p head siblings backend inst acc))
  = reg (fst acc).
Proof.
  unfold Allocate_assign. simpl. unfold load_siblings.
  change (reg (fst acc))
    with (reg (issue (fst backend) (ILoadModel inst)
                 (on_backend (fst backend)
                    (fun b => LoadModel_inst b inst) (fst acc)))).
  apply (fold_left_inv
           (fun s => reg s
                     = reg (issue (fst backend) (ILoadModel inst)
                              (on_backend (fst backend)
                                 (fun b => LoadModel_inst b inst)
                                 (fst acc)))));
    [|reflexivity].
  intros a x Ha. exact Ha.
Qed.

Lemma Allocate_while_registry fuel p head siblings now :
  forall rate (acc : Scheduler B * Changed) r,
    Allocate_while fuel p head siblings now rate acc = Ok r ->
    reg (fst (snd r)) = reg (fst acc).
Proof.
  induction fuel as [|fuel IH]; intros rate acc r H; simpl in H.
  - destruct (Qltb 0 rate); [discriminate | now inversion H].
  - destruct (Qltb 0 rate); [|now inversion H].
    destruct (FindBestBackend (fst acc) head rate [] now)
      as [[backend|] inst]; [|now inversion H].
    rewrite (IH _ _ _ H). apply Allocate_assign_registry.
Qed.

Lemma Allocate_session_registry fuel now
      (acc acc' : Scheduler B * Changed) p :
  Allocate_session fuel now acc p = Ok acc' ->
  reg (fst acc') = reg (fst acc).
Proof.
  unfold Allocate_session. intro H.
  destruct (deref (fst acc) p) as [si|]; [|discriminate]. simpl in H.
  destruct (model_sessions si) as [|head siblings].
  - destruct (Qltb 0 _); [discriminate | now inversion H].
  - destruct (Allocate_while _ _ _ _ _ _ _) as [r| |] eqn:E;
      try discriminate.
    simpl in H. inversion H. simpl.
    exact (Allocate_while_registry _ _ _ _ _ _ _ _ E).
Qed.

Lemma AllocateUnassignedWorkloads_registry fuel now
      (acc acc' : Scheduler B * Changed) :
  AllocateUnassignedWorkloads fuel now acc = Ok acc' ->
  reg (fst acc') = reg (fst acc).
Proof.
  unfold AllocateUnassignedWorkloads. intro H.
  destruct (collect_unassigned _ _ _); [now inversion H|].
  revert H.
  apply (result_fold_inv (fun a => reg (fst a) = reg (fst acc)));
    [|reflexivity].
  intros a x a' Ha Hx. rewrite <- Ha.
  exact (Allocate_session_registry _ _ _ _ _ Hx).
Qed.

Lemma RemoveBackend_registry fuel now (backend : B) (st st' : Scheduler B) :
  RemoveBackend fuel now backend st = Ok st' -> reg st' = reg st.
Proof.
  intro H. unfold RemoveBackend in H.
  destruct (IsIdle backend); [now inversion H|]. cbv zeta in H.
  assert (H1 : reg (fst (fold_left (RemoveBackend_detach backend)
                                   (GetModelSessions backend) (st, [])))
               = reg st).
  { apply (fold_left_inv
             (fun a : Scheduler B * list SessionInfoPtr =>
                reg (fst a) = reg st)); [|reflexivity].
    intros a x Ha. unfold RemoveBackend_detach.
    destruct (AMap.find String.eqb x (session_table_ (fst a)));
      [|exact Ha].
    destruct (NSet.mem _ _); exact Ha. }
  set (r1 := fold_left (RemoveBackend_detach backend)
                       (GetModelSessions backend) (st, [])) in *.
  destruct (find_assignee backend (backends_ (fst r1))) as [a|].
  - match type of H with
    | bind (result_fold ?g ?l ?x) _ = _ =>
        destruct (result_fold g l x) as [st3| |] eqn:E3; try discriminate
    end.
    simpl in H.
    assert (H3 : reg st3 = reg st).
    { revert E3.
      apply (result_fold_inv (fun x : Scheduler B => reg x = reg st));
        [|exact H1].
      intros x id x' Hx Hstep. unfold RemoveBackend_reattach in Hstep.
      destruct (session_at x id) as [ps| |]; try discriminate.
      simpl in Hstep.
      destruct (GetBackend x (fst a)); [|discriminate].
      simpl in Hstep. inversion Hstep. exact Hx. }
    unfold RemoveBackend_record_slot in H.
    destruct (GetBackend st3 (fst a)) as [asg|]; [|discriminate].
    simpl in H.
    match type of H with
    | bind ?m _ = _ =>
        assert (Hs4 : exists st4, m = Ok st4 /\ reg st4 = reg st)
    end.
    { destruct (negb _); eexists; (split; [reflexivity | exact H3]). }
    destruct Hs4 as (st4 & Em & Hs4). rewrite Em in H. simpl in H.
    match type of H with
    | bind (result_fold ?g ?l ?x) _ = _ =>
        destruct (result_fold g l x) as [r5| |] eqn:E5; try discriminate
    end.
    simpl in H. apply push_changes_registry in H. rewrite H.
    revert E5.
    apply (result_fold_inv
             (fun x : Scheduler B * list NodeId => reg (fst x) = reg st));
      [|exact Hs4].
    intros x id x' Hx Hstep. unfold RemoveBackend_move_backup in Hstep.
    destruct (session_at (fst x) id) as [ps| |]; try discriminate.
    simpl in Hstep.
    destruct (GetBackend (fst x) (fst a)); [|discriminate].
    simpl in Hstep.
    destruct (negb _ && negb _); inversion Hstep; subst x'; [exact Hx|].
    apply (fold_left_inv
             (fun y : Scheduler B * list NodeId => reg (fst y) = reg st));
      [|exact Hx].
    intros y z Hy. unfold swap_backup_on.
    destruct (GetBackend (fst y) (fst z)); exact Hy.
  - match type of H with
    | bind (result_fold ?g ?l ?x) _ = _ =>
        destruct (result_fold g l x) as [r2| |] eqn:E2; try discriminate
    end.
    simpl in H.
    assert (H2 : reg (fst r2) = reg st).
    { revert E2.
      apply (result_fold_inv
               (fun x : Scheduler B * list NodeId => reg (fst x) = reg st));
        [|exact H1].
      intros x id x' Hx Hstep. unfold RemoveBackend_drop_backup in Hstep.
      destruct (session_at (fst x) id) as [ps| |]; try discriminate.
      simpl in Hstep.
      destruct (negb _); inversion Hstep; subst x'; [exact Hx|].
      apply (fold_left_inv
               (fun y : Scheduler B * list NodeId => reg (fst y) = reg st));
        [|exact Hx].
      intros y z Hy. unfold remove_backup_on.
      destruct (GetBackend (fst y) (fst z)); exact Hy. }
    destruct (0 <=? workload_id backend).
    + apply push_changes_registry in H. rewrite H. exact H2.
    + match type of H with
      | bind (result_fold ?g ?l ?x) _ = _ =>
          destruct (result_fold g l x) as [st3| |] eqn:E3; try discriminate
      end.
      simpl in H.
      destruct (AllocateUnassignedWorkloads _ _ _) as [r4| |] eqn:E4;
        try discriminate.
      simpl in H. apply push_changes_registry in H. rewrite H.
      apply AllocateUnassignedWorkloads_registry in E4. cbn [fst] in E4.
      rewrite E4. revert E3.
      apply (result_fold_inv (fun x : Scheduler B => reg x = reg st));
        [|exact H2].
      intros x id x' Hx Hstep.
      unfold RemoveBackend_return_workload in Hstep.
      destruct (session_at x id) as [ps| |]; try discriminate.
      simpl in Hstep. inversion Hstep. exact Hx.
Qed.

Lemma RemoveFrontend_frontends (f : FrontendDelegate.t)
      (st st' : Scheduler B) :
  RemoveFrontend f st = Ok st' -> frontends_ st' = frontends_ st.
Proof.
  unfold RemoveFrontend. intro H.
  destruct (result_fold (RemoveFrontend_session f)
              (FrontendDelegate.subscribe_models f) (st, []))
    as [r| |] eqn:Er; try discriminate.
  simpl in H. inversion H.
  destruct (update_model_tables_frame (snd r) (fst r))
    as (_ & _ & _ & Hf & _).
  rewrite Hf. revert Er.
  apply (result_fold_inv
           (fun x : Scheduler B * list NodeId =>
              frontends_ (fst x) = frontends_ st)); [|reflexivity].
  intros x id x' Hx Hstep. unfold RemoveFrontend_session in Hstep.
  destruct (AMap.find String.eqb id (session_subscribers_ (fst x)));
    [|discriminate].
  simpl in Hstep. destruct (ZSet.erase _ _).
  - match type of Hstep with
    | bind (session_at ?s ?i) _ = _ =>
        destruct (session_at s i) as [ps| |]; try discriminate
    end.
    simpl in Hstep. destruct (has_static_workload (snd ps)).
    + inversion Hstep. exact Hx.
    + match type of Hstep with
      | bind (result_fold ?g ?l ?a) _ = _ =>
          destruct (result_fold g l a) as [r0| |] eqn:E0; try discriminate
      end.
      simpl in Hstep. inversion Hstep. simpl.
      apply unload_on_fold in E0. simpl in E0.
      destruct E0 as (_ & _ & _ & Hf0 & _). now rewrite Hf0.
  - inversion Hstep. exact Hx.
Qed.
End RegistryFrames.

(** ** [BeaconCheck]: dead frontends *)

Section BeaconCheckFrontends.
Context {B : Type} {BO : BackendDelegateOps B} {FL : Float32}
        {DB : ModelDatabase} {SS : StdSort}.

Local Notation FD := FrontendDelegate.t.

Lemma erase_as_filter {V} (k : Z) (m : list (Z * V)) :
  AMap.erase Z.eqb k m = filter (fun e => negb (k =? fst e)) m.
Proof.
  induction m as [|[k' v] m IH]; simpl; [reflexivity|].
  destruct (k =? k'); simpl; now rewrite IH.
Qed.

Lemma filter_filter {A} (p q : A -> bool) (l : list A) :
  filter p (filter q l) = filter (fun x => q x && p x) l.
Proof.
  induction l as [|x l IH]; simpl; [reflexivity|].
  destruct (q x); simpl; [destruct (p x)|]; now rewrite IH.
Qed.

Lemma erase_all_as_filter (fs : list FD) :
  forall m : list (NodeId * FD),
    fold_left (fun m f => AMap.erase Z.eqb (FrontendDelegate.node_id f) m)
              fs m
    = filter (fun e =>
                negb (existsb
                        (fun f => FrontendDelegate.node_id f =? fst e) fs))
             m.
Proof.
  induction fs as [|f fs IH]; intro m; simpl.
  - induction m as [|e m IHm]; simpl; [reflexivity|]. now rewrite <- IHm.
  - rewrite IH, erase_as_filter, filter_filter.
    apply filter_ext. intro e.
    now destruct (FrontendDelegate.node_id f =? fst e).
Qed.

Lemma NoDup_keys_inj {V} (m : list (Z * V)) :
  NoDup (map fst m) ->
  forall e e', In e m -> In e' m -> fst e = fst e' -> e = e'.
Proof.
  induction m as [|x m IH]; intros Hnd e e' He He' Hk; [destruct He|].
  inversion Hnd as [|? ? Hx Hnd']. subst.
  destruct He as [<- | He], He' as [<- | He'].
  - reflexivity.
  - exfalso. apply Hx. rewrite Hk. now apply in_map.
  - exfalso. apply Hx. rewrite <- Hk. now apply in_map.
  - now apply IH.
Qed.

Lemma BeaconCheck_frontend_fold (dead : list FD) :
  forall st st1 : Scheduler B,
    result_fold BeaconCheck_frontend dead st = Ok st1 ->
    frontends_ st1
    = fold_left (fun m f => AMap.erase Z.eqb (FrontendDelegate.node_id f) m)
                dead (frontends_ st).
Proof.
  induction dead as [|f dead IH]; intros st st1 H; simpl in H.
  - now inversion H.
  - destruct (BeaconCheck_frontend st f) as [s| |] eqn:E;
      try discriminate.
    simpl in H. rewrite (IH _ _ H). simpl.
    unfold BeaconCheck_frontend in E.
    apply RemoveFrontend_frontends in E. now rewrite E.
Qed.

Lemma BeaconCheck_frontends_erased fuel now (st st' : Scheduler B) :
  BeaconCheck fuel now st = Ok st' ->
  frontends_ st'
  = filter (fun e =>
              negb (existsb
                      (fun f => FrontendDelegate.node_id f =? fst e)
                      (filter
                         (fun f => negb (FrontendDelegate.IsAlive f now))
                         (map snd (frontends_ st)))))
           (frontends_ st).
Proof.
  intro H. unfold BeaconCheck in H. cbv zeta in H.
  set (dead := filter (fun f => negb (FrontendDelegate.IsAlive f now))
                      (map snd (frontends_ st))) in *.
  destruct (result_fold BeaconCheck_frontend dead st) as [st1| |] eqn:E1;
    try discriminate.
  simpl in H.
  destruct (result_fold BeaconCheck_session (session_table_ st1) st1)
    as [st2| |] eqn:E2; try discriminate.
  simpl in H.
  assert (H2 : frontends_ st2 = frontends_ st1).
  { revert E2.
    apply (result_fold_inv
             (fun a : Scheduler B => frontends_ a = frontends_ st1));
      [|reflexivity].
    intros a x a' Ha Hx.
    destruct (BeaconCheck_session_frame _ _ _ Hx) as [Hf _]. congruence. }
  assert (H3 : frontends_ st' = frontends_ st2).
  { revert H.
    apply (result_fold_inv
             (fun a : Scheduler B => frontends_ a = frontends_ st2)).
    - intros a x a' Ha Hx. apply RemoveBackend_registry in Hx.
      pose proof (f_equal fst Hx) as Hf. cbn [fst] in Hf. congruence.
    - apply (fold_left_inv
               (fun a : Scheduler B => frontends_ a = frontends_ st2));
        [|reflexivity].
      intros a x Ha. exact Ha. }
  rewrite H3, H2, (BeaconCheck_frontend_fold _ _ _ E1).
  apply erase_all_as_filter.
Qed.

(** X21.  [BeaconCheck] unregisters exactly the frontends that are not
    alive: afterwards [frontends_] holds the frontends that were alive,
    unchanged and in their order.  Neither the aggregation of the
    request rates nor the removal of dead backends touches
    [frontends_].  (The frontends are stored under their node ids, as
    [RegisterFrontend] stores them.) *)
Theorem BeaconCheck_drops_dead_frontends :
  forall fuel now (st st' : Scheduler B),
    (forall e, In e (frontends_ st) ->
               FrontendDelegate.node_id (snd e) = fst e) ->
    NoDup (map fst (frontends_ st)) ->
    BeaconCheck fuel now st = Ok st' ->
    frontends_ st'
    = filter (fun e => FrontendDelegate.IsAlive (snd e) now)
             (frontends_ st).
Proof.
  intros fuel now st st' Hkeys Hnd H.
  rewrite (BeaconCheck_frontends_erased _ _ _ _ H).
  set (dead := filter (fun f => negb (FrontendDelegate.IsAlive f now))
                      (map snd (frontends_ st))).
  apply filter_ext_in. intros e He.
  destruct (FrontendDelegate.IsAlive (snd e) now) eqn:Ea.
  - apply negb_true_iff.
    destruct (existsb _ dead) eqn:Ex; [|reflexivity].
    apply existsb_exists in Ex. destruct Ex as [f [Hf Hid]].
    apply Z.eqb_eq in Hid. unfold dead in Hf. apply filter_In in Hf.
    destruct Hf as [Hf Hdead]. apply in_map_iff in Hf.
    destruct Hf as [e' [<- He']].
    rewrite (Hkeys e' He') in Hid.
    pose proof (NoDup_keys_inj _ Hnd e' e He' He Hid) as ->.
    rewrite Ea in Hdead. discriminate.
  - apply negb_false_iff. apply existsb_exists. exists (snd e). split.
    + unfold dead. apply filter_In. split; [now apply in_map|].
      now rewrite Ea.
    + apply Z.eqb_eq. now apply Hkeys.
Qed.
End BeaconCheckFrontends.

(** At instant 100 frontend 1 of [Example.lapsed] has been silent since
    instant 0 and frontend 2 since 98: only frontend 2 stays. *)
Lemma BeaconCheck_drops_dead_frontends_witness :
  exists st',
    BeaconCheck (BO:=Example.ops) (FL:=Example.FL) (DB:=Example.DB) (SS:=StableSort)
                16 100 Example.lapsed = Ok st' /\
    map fst (frontends_ Example.lapsed) = [1; 2] /\
    map fst (frontends_ st') = [2].
Proof.
  assert (Hrun : exists st',
             BeaconCheck (BO:=Example.ops) (FL:=Example.FL) (DB:=Example.DB) (SS:=StableSort)
                         16 100 Example.lapsed = Ok st')
    by (eexists; vm_compute; reflexivity).
  destruct Hrun as (st' & Hrun). exists st'. split; [exact Hrun|].
  split; [reflexivity|].
  rewrite (BeaconCheck_drops_dead_frontends
             (BO:=Example.ops) (FL:=Example.FL) (DB:=Example.DB) (SS:=StableSort)
             16 100 Example.lapsed st').
  - reflexivity.
  - intros e He. simpl in He.
    repeat (destruct He as [<- | He]; [reflexivity|]). destruct He.
  - simpl. constructor; [intros [H | []]; discriminate|].
    constructor; [intros [] | constructor].
  - exact Hrun.
Defined.

(** ** The frontend registry *)

Section FrontendsKeyed.
Context {B : Type} {BO : BackendDelegateOps B} {FL : Float32}
        {DB : ModelDatabase} {SS : StdSort} {LM : Libm}.
Variable BEACON_INTERVAL_SEC : Z.

Local Notation FD := FrontendDelegate.t.
Local Notation keyed m :=
  ((forall e : NodeId * FD,
       In e m -> FrontendDelegate.node_id (snd e) = fst e) /\
   NoDup (map fst m)).

Lemma keyed_filter (p : NodeId * FD -> bool) (m : list (NodeId * FD)) :
  keyed m -> keyed (filter p m).
Proof.
  intros [Hk Hnd]. split.
  - intros e He. apply filter_In in He. now apply Hk.
  - clear Hk. induction m as [|x m IH]; simpl; [constructor|].
    inversion Hnd as [|? ? Hx Hnd']. subst.
    destruct (p x); simpl; [|now apply IH].
    constructor; [|now apply IH].
    intro H. apply Hx. apply in_map_iff in H.
    destruct H as [e [He Hin]]. apply filter_In in Hin.
    rewrite <- He. apply in_map. tauto.
Qed.

Lemma keyed_update k (f : FD -> FD) (m : list (NodeId * FD)) :
  (forall v, FrontendDelegate.node_id (f v) = FrontendDelegate.node_id v) ->
  keyed m -> keyed (AMap.update Z.eqb k f m).
Proof.
  intros Hf [Hk Hnd].
  assert (Hfst : map fst (AMap.update Z.eqb k f m) = map fst m).
  { clear. induction m as [|[k' v] m IH]; simpl; [reflexivity|].
    destruct (k =? k'); simpl; [reflexivity | now rewrite IH]. }
  split; [|now rewrite Hfst].
  clear Hnd Hfst. induction m as [|[k' v] m IH]; intros e He;
    [destruct He|].
  simpl in He. destruct (k =? k').
  - destruct He as [<- | He]; [|apply Hk; now right].
    simpl. rewrite Hf. apply (Hk (k', v)). now left.
  - destruct He as [<- | He]; [apply Hk; now left|].
    apply IH; [|exact He]. intros e' He'. apply Hk. now right.
Qed.

Lemma keyed_set_fresh (f : FD) (m : list (NodeId * FD)) :
  AMap.mem Z.eqb (FrontendDelegate.node_id f) m = false ->
  keyed m ->
  keyed (AMap.set Z.eqb (FrontendDelegate.node_id f) f m).
Proof.
  intros Hfresh [Hk Hnd]. unfold AMap.set. rewrite Hfresh. split.
  - intros e He. apply in_app_or in He.
    destruct He as [He | [<- | []]]; [now apply Hk | reflexivity].
  - rewrite map_app. simpl.
    apply Permutation_NoDup
      with (l := FrontendDelegate.node_id f :: map fst m);
      [apply Permutation_cons_append|].
    constructor; [|exact Hnd].
    intro Hin. apply in_map_iff in Hin. destruct Hin as [[k v] [Hkv Hin]].
    simpl in Hkv. subst k. unfold AMap.mem in Hfresh.
    clear Hk Hnd. induction m as [|[k' v'] m IH]; [destruct Hin|].
    simpl in Hfresh.
    destruct (FrontendDelegate.node_id f =? k') eqn:E; [discriminate|].
    destruct Hin as [Hin | Hin]; [|now apply IH].
    inversion Hin. subst. now rewrite Z.eqb_refl in E.
Qed.

Lemma LoadModel_frontends (st : Scheduler B) request now r :
  LoadModel st request now = Ok r ->
  frontends_ (fst r) = frontends_ st \/
  exists id,
    frontends_ (fst r)
    = AMap.update Z.eqb (req_node_id request)
        (fun f => FrontendDelegate.SubscribeModel f id) (frontends_ st).
Proof.
  intro H. unfold LoadModel in H.
  destruct (GetModelInfo _) as [info|]; [|inversion H; now left].
  destruct (GetFrontend st (req_node_id request));
    [|inversion H; now left].
  cbv zeta in H.
  set (model_sess := LoadModel_session info (req_model_session request))
    in *.
  set (id := ModelSessionToString model_sess) in *.
  destruct (AMap.mem String.eqb id (session_table_ st)).
  - unfold LoadModel_existing in H.
    destruct (GetModelRoute st id); try discriminate.
    simpl in H. inversion H. right. now exists id.
  - destruct (share_session_of st model_sess) as [[p share]|].
    + unfold LoadModel_prefix in H.
      destruct (deref st p) as [si|]; [|discriminate]. simpl in H.
      destruct (LoadModel_share_loop (backend_throughputs si) model_sess
                  share st) as [st1| |] eqn:Eloop; try discriminate.
      simpl in H.
      destruct (LoadModel_share_loop_frame _ _ _ _ _ Eloop) as (Hf1 & _).
      match type of H with
      | bind (GetModelRoute ?s ?i) _ = _ =>
          destruct (GetModelRoute s i); try discriminate
      end.
      simpl in H. inversion H. right. exists id. simpl. now rewrite Hf1.
    + unfold LoadModel_new in H.
      destruct (LoadModel_allocate st model_sess now
                  (estimate_workload request)) as [[l|]| |];
        try discriminate; simpl in H.
      2:{ inversion H. now left. }
      match type of H with
      | bind (GetModelRoute ?s ?i) _ = _ =>
          destruct (GetModelRoute s i); try discriminate
      end.
      simpl in H. inversion H. right. exists id. simpl.
      now rewrite (proj1 (LoadModel_load_fold_frame _ l _)).
Qed.

Lemma AddBackend_frontends fuel now key (st st' : Scheduler B) :
  AddBackend fuel now key st = Ok st' -> frontends_ st' = frontends_ st.
Proof.
  intro H. unfold AddBackend in H.
  destruct (first_free_slot st) as [id|].
  - destruct (GetBackend st key) as [backend0|]; [|discriminate].
    simpl in H.
    match type of H with
    | bind (of_option (GetBackend ?s3 key)) _ = _ =>
        assert (Hs3 : frontends_ s3 = frontends_ st);
        [|destruct (GetBackend s3 key) as [backend|]; [|discriminate]]
    end.
    { unfold on_backend. simpl.
      match goal with
      | |- frontends_ (fold_left ?g ?l ?a) = ?c =>
          apply (fold_left_inv
                   (fun s : Scheduler B => frontends_ s = c) g l);
            [|reflexivity]
      end.
      intros a x Ha. exact Ha. }
    simpl in H.
    match type of H with
    | bind (result_fold ?g ?l ?a) _ = _ =>
        destruct (result_fold g l a) as [r4| |] eqn:E4; try discriminate
    end.
    simpl in H.
    match type of H with
    | bind (result_fold ?g ?l ?a) _ = _ =>
        destruct (result_fold g l a) as [r5| |] eqn:E5; try discriminate
    end.
    simpl in H. apply push_changes_registry in H.
    pose proof (f_equal fst H) as Hf. cbn [fst] in Hf. rewrite Hf.
    revert E5.
    apply (result_fold_inv
             (fun a : Scheduler B * list NodeId =>
                frontends_ (fst a) = frontends_ st)).
    + intros a x a' Ha Hx. unfold AddBackend_backup in Hx.
      destruct (GetBackend (fst a) key); [|discriminate]. simpl in Hx.
      destruct (AMap.find String.eqb x (session_table_ (fst a)));
        [|inversion Hx; now subst].
      destruct (deref (fst a) s) as [si|]; [|discriminate]. simpl in Hx.
      destruct (ZSet.mem _ _); [inversion Hx; now subst|].
      inversion Hx.
      apply (fold_left_inv
               (fun u : Scheduler B * list NodeId =>
                  frontends_ (fst u) = frontends_ st)); [|exact Ha].
      intros u y Hu. unfold add_backup_on.
      destruct (GetBackend (fst u) (fst y)); exact Hu.
    + cbn [fst]. revert E4.
      apply (result_fold_inv
               (fun a : Scheduler B * list SessionInfoPtr =>
                  frontends_ (fst a) = frontends_ st)); [|exact Hs3].
      intros a x a' Ha Hx. unfold AddBackend_session in Hx.
      destruct (GetBackend (fst a) key); [|discriminate]. simpl in Hx.
      match type of Hx with
      | bind (session_at ?s ?i) _ = _ =>
          assert (Hs : frontends_ s = frontends_ st)
            by (destruct (negb _); exact Ha);
          destruct (session_at s i) as [ps| |]; try discriminate
      end.
      simpl in Hx. inversion Hx. exact Hs.
  - destruct (AllocateUnassignedWorkloads fuel now (st, ([], Some [])))
      as [r| |] eqn:Er; try discriminate.
    simpl in H. apply push_changes_registry in H.
    apply AllocateUnassignedWorkloads_registry in Er.
    pose proof (f_equal fst H) as Hf. pose proof (f_equal fst Er) as Hr.
    cbn [fst] in Hf, Hr. congruence.
Qed.

Lemma EpochSchedule_session_frontends (acc acc' : EpochAcc) iter :
  EpochSchedule_session acc iter = Ok acc' ->
  frontends_ (e_state acc') = frontends_ (e_state acc).
Proof.
  intro H. unfold EpochSchedule_session in H.
  destruct (NSet.mem _ _); [now inversion H|].
  destruct (deref (e_state acc) (snd iter)) as [si|]; [|discriminate].
  simpl in H. destruct (_ <? _); [now inversion H|].
  unfold EpochSchedule_adjust in H. cbv zeta in H.
  destruct (estimate_rps_of _) as [est| |]; try discriminate.
  simpl in H. unfold EpochSchedule_resize in H. cbv zeta in H.
  cbn [e_state e_visited e_changed_sessions e_overload_backends] in H.
  destruct (Qltb est _).
  - destruct (split_static _ _ _ _) as [sp| |]; try discriminate.
    simpl in H.
    match type of H with
    | bind (result_fold ?g ?l ?a) _ = _ =>
        destruct (result_fold g l a) as [r| |] eqn:Er; try discriminate
    end.
    simpl in H. inversion H. simpl. revert Er.
    apply (result_fold_inv
             (fun a : Scheduler B * Q =>
                frontends_ (fst a) = frontends_ (e_state acc)));
      [|reflexivity].
    intros a x a' Ha Hx. unfold shrink_step in Hx.
    destruct (Qle_bool (snd a) 0).
    + destruct (AMap.find Z.eqb (fst x) (backends_ (fst a)));
        [|discriminate].
      simpl in Hx. inversion Hx. exact Ha.
    + destruct (Qltb (snd a) (snd x)); [|inversion Hx; exact Ha].
      destruct (AMap.find Z.eqb (fst x) (backends_ (fst a)));
        [|discriminate].
      simpl in Hx. inversion Hx. exact Ha.
  - destruct (Qltb _ est); [|now inversion H].
    destruct (split_static _ _ _ _) as [sp| |]; try discriminate.
    simpl in H.
    match type of H with
    | bind (result_fold ?g ?l ?a) _ = _ =>
        destruct (result_fold g l a) as [r| |] eqn:Er; try discriminate
    end.
    simpl in H. inversion H. simpl.
    assert (Hr : frontends_ (fst (fst r)) = frontends_ (e_state acc)).
    { revert Er.
      apply (result_fold_inv
               (fun a : Scheduler B * Q * list NodeId =>
                  frontends_ (fst (fst a)) = frontends_ (e_state acc)));
        [|reflexivity].
      intros a x a' Ha Hx. unfold grow_step in Hx.
      destruct (AMap.find Z.eqb (fst x) (backends_ (fst (fst a))));
        [|discriminate].
      simpl in Hx. inversion Hx. exact Ha. }
    destruct (Qltb 0 _); exact Hr.
Qed.

Lemma EpochSchedule_frontends fuel now (st st' : Scheduler B) :
  EpochSchedule fuel now st = Ok st' -> frontends_ st' = frontends_ st.
Proof.
  intro H. unfold EpochSchedule in H.
  destruct (result_fold EpochSchedule_session (session_table_ st)
                        (mkEpochAcc st [] [] [])) as [r1| |] eqn:E1;
    try discriminate.
  simpl in H.
  destruct (result_fold EpochSchedule_spill (e_overload_backends r1)
                        (e_state r1)) as [st2| |] eqn:E2;
    try discriminate.
  simpl in H.
  destruct (AllocateUnassignedWorkloads fuel now
              (st2, (e_changed_sessions r1, None))) as [r3| |] eqn:E3;
    try discriminate.
  simpl in H. cbv zeta in H.
  destruct (UpdateModelRoutes _ _); try discriminate.
  simpl in H. inversion H.
  pose proof (f_equal fst (update_model_tables_registry
                             (map fst (backends_ (fst r3))) (fst r3)))
    as Htab.
  cbn [fst] in Htab. rewrite Htab.
  apply AllocateUnassignedWorkloads_registry in E3.
  pose proof (f_equal fst E3) as Hall. cbn [fst] in Hall. rewrite Hall.
  assert (Hloop : frontends_ (e_state r1) = frontends_ st).
  { revert E1.
    apply (result_fold_inv
             (fun w : EpochAcc => frontends_ (e_state w) = frontends_ st));
      [|reflexivity].
    intros w x w' Hw Hx.
    rewrite (EpochSchedule_session_frontends _ _ _ Hx). exact Hw. }
  rewrite <- Hloop. revert E2.
  apply (result_fold_inv
           (fun w : Scheduler B => frontends_ w = frontends_ (e_state r1)));
    [|reflexivity].
  intros w x w' Hw Hx. unfold EpochSchedule_spill in Hx.
  destruct (GetBackend w x) as [backend|]; [|discriminate].
  simpl in Hx. revert Hx.
  apply (result_fold_inv
           (fun u : Scheduler B => frontends_ u = frontends_ (e_state r1)));
    [|exact Hw].
  intros u y u' Hu Hy. unfold spill_entry in Hy.
  destruct (fst y); [discriminate|].
  destruct (session_at u _) as [ps| |]; try discriminate.
  simpl in Hy. inversion Hy. exact Hu.
Qed.

(** X22.  The frontend registry stays well keyed: in the scheduler as
    constructed, and after every handler and every periodic pass that
    returns, each frontend of [frontends_] is stored under its own
    node id and no node id occurs twice. *)
Theorem frontends_keyed_preserved :
  (forall beacon epoch es pb,
      frontends_keyed (Scheduler_new (B:=B) beacon epoch es pb)) /\
  forall st : Scheduler B,
    frontends_keyed st ->
    (forall fuel now ip request r,
        Register BEACON_INTERVAL_SEC fuel now ip request st = Ok r ->
        frontends_keyed (fst r)) /\
    (forall id st', UnregisterFrontend id st = Ok st' ->
                    frontends_keyed st') /\
    (forall fuel now id st',
        UnregisterBackend fuel now id st = Ok st' ->
        frontends_keyed st') /\
    (forall request now r,
        LoadModel st request now = Ok r -> frontends_keyed (fst r)) /\
    (forall fuel now st',
        BeaconCheck fuel now st = Ok st' -> frontends_keyed st') /\
    (forall fuel now st',
        EpochSchedule fuel now st = Ok st' -> frontends_keyed st').
Proof.
  split.
  { intros. split; [intros e [] | constructor]. }
  intros st Hk. unfold frontends_keyed in *.
  split; [|split; [|split; [|split; [|split]]]].
  - intros fuel now ip request r H. unfold Register in H.
    destruct (node_type request).
    + unfold RegisterBackend in H.
      destruct (AMap.mem Z.eqb _ (backends_ st));
        [inversion H; exact Hk|].
      match type of H with
      | bind (AddBackend ?f ?n ?k ?s) _ = _ =>
          destruct (AddBackend f n k s) as [st2| |] eqn:Ea;
            try discriminate
      end.
      simpl in H. inversion H. cbn [fst].
      rewrite (AddBackend_frontends _ _ _ _ _ Ea). exact Hk.
    + inversion H.
      set (f := FrontendDelegate.new (reg_node_id request) ip
                  (reg_server_port request) (reg_rpc_port request)
                  (beacon_interval_sec_ st) now).
      unfold RegisterFrontend.
      destruct (AMap.mem Z.eqb (FrontendDelegate.node_id f)
                         (frontends_ st)) eqn:Em; [exact Hk|].
      cbn [fst]. unfold set_frontends. cbn [frontends_].
      now apply keyed_set_fresh.
  - intros id st' H. unfold UnregisterFrontend in H.
    destruct (GetFrontend st id) as [f|]; [|inversion H; now subst].
    apply RemoveFrontend_frontends in H. rewrite H. simpl.
    rewrite erase_as_filter. now apply keyed_filter.
  - intros fuel now id st' H. unfold UnregisterBackend in H.
    destruct (GetBackend st id) as [b|]; [|inversion H; now subst].
    apply RemoveBackend_registry in H.
    pose proof (f_equal fst H) as Hf. cbn [fst] in Hf. rewrite Hf.
    exact Hk.
  - intros request now r H.
    destruct (LoadModel_frontends _ _ _ _ H) as [-> | [id ->]];
      [exact Hk|].
    now apply keyed_update.
  - intros fuel now st' H.
    rewrite (BeaconCheck_frontends_erased _ _ _ _ H).
    now apply keyed_filter.
  - intros fuel now st' H.
    rewrite (EpochSchedule_frontends _ _ _ _ H). exact Hk.
Qed.
End FrontendsKeyed.

(** [Example.serving] is well keyed, and so is the state after frontend
    2 has loaded [vgg16]. *)
Lemma frontends_keyed_preserved_witness :
  exists r,
    LoadModel (BO:=Example.ops) (FL:=Example.FL) (DB:=Example.DB) Example.serving
              (Example.load_request 2 "vgg16" 10%Q) 0 = Ok r /\
    frontends_keyed Example.serving /\
    frontends_keyed (fst r).
Proof.
  assert (Hrun : exists r,
             LoadModel (BO:=Example.ops) (FL:=Example.FL) (DB:=Example.DB) Example.serving
                       (Example.load_request 2 "vgg16" 10%Q) 0 = Ok r)
    by (eexists; vm_compute; reflexivity).
  destruct Hrun as (r & Hrun). exists r. split; [exact Hrun|].
  assert (Hk : frontends_keyed Example.serving).
  { split.
    - intros e He. simpl in He.
      repeat (destruct He as [<- | He]; [reflexivity|]). destruct He.
    - simpl. constructor; [intros [H | []]; discriminate|].
      constructor; [intros [] | constructor]. }
  split; [exact Hk|].
  destruct (proj2 (frontends_keyed_preserved
                     (BO:=Example.ops) (FL:=Example.FL) (DB:=Example.DB) (SS:=StableSort)
                     (LM:=Example.LM) Example.BEACON_INTERVAL_SEC)
Example.serving Hk)
as (_ & _ & _ & HL & _).
exact (HL _ _ _ Hrun).
Defined.

(** ** [BeaconCheck]: the request-rate history over the whole pass *)

Section HistoryFrames.
Context {B : Type} {BO : BackendDelegateOps B} {FL : Float32}
        {DB : ModelDatabase} {SS : StdSort}.

Local Notation hist st := (map rps_history (heap_ st), history_len_ st).

Lemma map_history_list_update (f : SessionInfo -> SessionInfo) l :
  (forall s, rps_history (f s) = rps_history s) ->
  forall q, map rps_history (list_update q f l) = map rps_history l.
Proof.
  intro Hf. induction l as [|x l IH]; intros [|q]; simpl;
    try reflexivity.
  - now rewrite Hf.
  - now rewrite IH.
Qed.

Lemma hist_on_session (st : Scheduler B) q f :
  (forall s, rps_history (f s) = rps_history s) ->
  hist (on_session q f st) = hist st.
Proof.
  intro Hf. simpl. f_equal. now apply map_history_list_update.
Qed.

Ltac hist_frame H :=
  (etransitivity; [|exact H]); cbn [fst snd];
  repeat (rewrite hist_on_session by (intros; reflexivity));
  reflexivity.

Lemma update_model_tables_history keys (st : Scheduler B) :
  hist (update_model_tables keys st) = hist st.
Proof.
  unfold update_model_tables.
  apply (fold_left_inv (fun s => hist s = hist st)); [|reflexivity].
  intros a x Ha. exact Ha.
Qed.

Lemma push_changes_history (st st' : Scheduler B) cs cb :
  push_changes st cs cb = Ok st' -> hist st' = hist st.
Proof.
  unfold push_changes. intro H.
  destruct (UpdateModelRoutes _ _); try discriminate.
  simpl in H. inversion H. apply update_model_tables_history.
Qed.

Lemma Allocate_assign_history p head siblings backend inst
      (acc : Scheduler B * Changed) :
  hist (fst (Allocate_assign p head siblings backend inst acc))
  = hist (fst acc).
Proof.
  unfold Allocate_assign. cbv zeta. cbn [fst].
  rewrite hist_on_session by (intros; reflexivity).
  unfold load_siblings.
  apply (fold_left_inv (fun s => hist s = hist (fst acc)));
    [|reflexivity].
  intros a x Ha. exact Ha.
Qed.

Lemma Allocate_while_history fuel p head siblings now :
  forall rate (acc : Scheduler B * Changed) r,
    Allocate_while fuel p head siblings now rate acc = Ok r ->
    hist (fst (snd r)) = hist (fst acc).
Proof.
  induction fuel as [|fuel IH]; intros rate acc r H; simpl in H.
  - destruct (Qltb 0 rate); [discriminate | now inversion H].
  - destruct (Qltb 0 rate); [|now inversion H].
    destruct (FindBestBackend (fst acc) head rate [] now)
      as [[backend|] inst]; [|now inversion H].
    rewrite (IH _ _ _ H). apply Allocate_assign_history.
Qed.

Lemma Allocate_session_history fuel now
      (acc acc' : Scheduler B * Changed) p :
  Allocate_session fuel now acc p = Ok acc' ->
  hist (fst acc') = hist (fst acc).
Proof.
  unfold Allocate_session. intro H.
  destruct (deref (fst acc) p) as [si|]; [|discriminate]. simpl in H.
  destruct (model_sessions si) as [|head siblings].
  - destruct (Qltb 0 _); [discriminate|]. inversion H. cbn [fst].
    now rewrite hist_on_session by (intros; reflexivity).
  - destruct (Allocate_while _ _ _ _ _ _ _) as [r| |] eqn:E;
      try discriminate.
    simpl in H. inversion H. cbn [fst].
    rewrite hist_on_session by (intros; reflexivity).
    exact (Allocate_while_history _ _ _ _ _ _ _ _ E).
Qed.

Lemma AllocateUnassignedWorkloads_history fuel now
      (acc acc' : Scheduler B * Changed) :
  AllocateUnassignedWorkloads fuel now acc = Ok acc' ->
  hist (fst acc') = hist (fst acc).
Proof.
  unfold AllocateUnassignedWorkloads. intro H.
  destruct (collect_unassigned _ _ _); [now inversion H|].
  revert H.
  apply (result_fold_inv (fun a => hist (fst a) = hist (fst acc)));
    [|reflexivity].
  intros a x a' Ha Hx. rewrite <- Ha.
  exact (Allocate_session_history _ _ _ _ _ Hx).
Qed.

Lemma RemoveBackend_history fuel now (backend : B) (st st' : Scheduler B) :
  RemoveBackend fuel now backend st = Ok st' -> hist st' = hist st.
Proof.
  intro H. unfold RemoveBackend in H.
  destruct (IsIdle backend); [now inversion H|]. cbv zeta in H.
  assert (H1 : hist (fst (fold_left (RemoveBackend_detach backend)
                                    (GetModelSessions backend) (st, [])))
               = hist st).
  { apply (fold_left_inv
             (fun a : Scheduler B * list SessionInfoPtr =>
                hist (fst a) = hist st)); [|reflexivity].
    intros a x Ha. unfold RemoveBackend_detach.
    destruct (AMap.find String.eqb x (session_table_ (fst a)));
      [|exact Ha].
    destruct (NSet.mem _ _); [exact Ha|]. hist_frame Ha. }
  set (r1 := fold_left (RemoveBackend_detach backend)
                       (GetModelSessions backend) (st, [])) in *.
  destruct (find_assignee backend (backends_ (fst r1))) as [a|].
  - match type of H with
    | bind (result_fold ?g ?l ?x) _ = _ =>
        destruct (result_fold g l x) as [st3| |] eqn:E3; try discriminate
    end.
    simpl in H.
    assert (H3 : hist st3 = hist st).
    { revert E3.
      apply (result_fold_inv (fun x : Scheduler B => hist x = hist st));
        [|exact H1].
      intros x id x' Hx Hstep. unfold RemoveBackend_reattach in Hstep.
      destruct (session_at x id) as [ps| |]; try discriminate.
      simpl in Hstep.
      destruct (GetBackend x (fst a)); [|discriminate].
      simpl in Hstep. inversion Hstep. hist_frame Hx. }
    unfold RemoveBackend_record_slot in H.
    destruct (GetBackend st3 (fst a)) as [asg|]; [|discriminate].
    simpl in H.
    match type of H with
    | bind ?m _ = _ =>
        assert (Hs4 : exists st4, m = Ok st4 /\ hist st4 = hist st)
    end.
    { destruct (negb _); eexists; (split; [reflexivity | exact H3]). }
    destruct Hs4 as (st4 & Em & Hs4). rewrite Em in H. simpl in H.
    match type of H with
    | bind (result_fold ?g ?l ?x) _ = _ =>
        destruct (result_fold g l x) as [r5| |] eqn:E5; try discriminate
    end.
    simpl in H. apply push_changes_history in H. rewrite H.
    revert E5.
    apply (result_fold_inv
             (fun x : Scheduler B * list NodeId => hist (fst x) = hist st));
      [|exact Hs4].
    intros x id x' Hx Hstep. unfold RemoveBackend_move_backup in Hstep.
    destruct (session_at (fst x) id) as [ps| |]; try discriminate.
    simpl in Hstep.
    destruct (GetBackend (fst x) (fst a)); [|discriminate].
    simpl in Hstep.
    match type of Hstep with
    | context [on_session ?q ?f (fst x)] =>
        assert (Hs : hist (on_session q f (fst x)) = hist st)
          by hist_frame Hx
    end.
    destruct (negb _ && negb _); inversion Hstep; subst x'; [exact Hs|].
    apply (fold_left_inv
             (fun y : Scheduler B * list NodeId => hist (fst y) = hist st));
      [|exact Hs].
    intros y z Hy. unfold swap_backup_on.
    destruct (GetBackend (fst y) (fst z)); exact Hy.
  - match type of H with
    | bind (result_fold ?g ?l ?x) _ = _ =>
        destruct (result_fold g l x) as [r2| |] eqn:E2; try discriminate
    end.
    simpl in H.
    assert (H2 : hist (fst r2) = hist st).
    { revert E2.
      apply (result_fold_inv
               (fun x : Scheduler B * list NodeId => hist (fst x) = hist st));
        [|exact H1].
      intros x id x' Hx Hstep. unfold RemoveBackend_drop_backup in Hstep.
      destruct (session_at (fst x) id) as [ps| |]; try discriminate.
      simpl in Hstep.
      match type of Hstep with
      | context [on_session ?q ?f (fst x)] =>
          assert (Hs : hist (on_session q f (fst x)) = hist st)
            by hist_frame Hx
      end.
      destruct (negb _); inversion Hstep; subst x'; [exact Hx|].
      apply (fold_left_inv
               (fun y : Scheduler B * list NodeId => hist (fst y) = hist st));
        [|exact Hs].
      intros y z Hy. unfold remove_backup_on.
      destruct (GetBackend (fst y) (fst z)); exact Hy. }
    destruct (0 <=? workload_id backend).
    + apply push_changes_history in H. rewrite H. exact H2.
    + match type of H with
      | bind (result_fold ?g ?l ?x) _ = _ =>
          destruct (result_fold g l x) as [st3| |] eqn:E3; try discriminate
      end.
      simpl in H.
      destruct (AllocateUnassignedWorkloads _ _ _) as [r4| |] eqn:E4;
        try discriminate.
      simpl in H. apply push_changes_history in H. rewrite H.
      apply AllocateUnassignedWorkloads_history in E4. cbn [fst] in E4.
      rewrite E4. revert E3.
      apply (result_fold_inv (fun x : Scheduler B => hist x = hist st));
        [|exact H2].
      intros x id x' Hx Hstep.
      unfold RemoveBackend_return_workload in Hstep.
      destruct (session_at x id) as [ps| |]; try discriminate.
      simpl in Hstep. inversion Hstep. hist_frame Hx.
Qed.

Lemma RemoveFrontend_history (f : FrontendDelegate.t)
      (st st' : Scheduler B) :
  RemoveFrontend f st = Ok st' -> hist st' = hist st.
Proof.
  unfold RemoveFrontend. intro H.
  destruct (result_fold (RemoveFrontend_session f)
              (FrontendDelegate.subscribe_models f) (st, []))
    as [r| |] eqn:Er; try discriminate.
  simpl in H. inversion H.
  rewrite update_model_tables_history. revert Er.
  apply (result_fold_inv
           (fun x : Scheduler B * list NodeId => hist (fst x) = hist st));
    [|reflexivity].
  intros x id x' Hx Hstep. unfold RemoveFrontend_session in Hstep.
  destruct (AMap.find String.eqb id (session_subscribers_ (fst x)));
    [|discriminate].
  simpl in Hstep. destruct (ZSet.erase _ _).
  - match type of Hstep with
    | bind (session_at ?s ?i) _ = _ =>
        destruct (session_at s i) as [ps| |]; try discriminate
    end.
    simpl in Hstep. destruct (has_static_workload (snd ps)).
    + inversion Hstep. exact Hx.
    + match type of Hstep with
      | bind (result_fold ?g ?l ?a) _ = _ =>
          destruct (result_fold g l a) as [r0| |] eqn:E0; try discriminate
      end.
      simpl in Hstep. inversion Hstep. cbn [fst].
      change (hist (fst r0) = hist st).
      revert E0.
      apply (result_fold_inv
               (fun y : Scheduler B * list NodeId =>
                  hist (fst y) = hist st)).
      * intros y z y' Hy Hz. unfold unload_on in Hz.
        destruct (GetBackend (fst y) (fst z)); [|discriminate].
        inversion Hz. exact Hy.
      * hist_frame Hx.
  - inversion Hstep. exact Hx.
Qed.
End HistoryFrames.

Section BeaconCheckPass.
Context {B : Type} {BO : BackendDelegateOps B} {FL : Float32}
        {DB : ModelDatabase} {SS : StdSort}.

Lemma session_rps_serving (st : Scheduler B) id tps :
  forall from rps,
    session_rps st id tps from = Ok rps ->
    exists bs,
      serving_backends st tps = Some bs /\ rps = rps_sum id bs from.
Proof.
  induction tps as [|e rest IH]; intros from rps H; simpl in H.
  - inversion H. exists []. now split.
  - simpl.
    destruct (AMap.find Z.eqb (fst e) (backends_ st)) as [b|];
      [|discriminate].
    simpl in H. destruct (IH _ _ H) as (bs & -> & ->).
    exists (b :: bs). now split.
Qed.

Lemma serving_backends_ext (st st' : Scheduler B) tps :
  backends_ st' = backends_ st ->
  serving_backends st' tps = serving_backends st tps.
Proof.
  intro Hb. induction tps as [|e rest IH]; simpl; [reflexivity|].
  now rewrite Hb, IH.
Qed.

Lemma ids_of_cons id q (table : list (string * SessionInfoPtr)) p :
  ids_of ((id, q) :: table) p
  = if Nat.eqb q p then id :: ids_of table p else ids_of table p.
Proof.
  unfold ids_of. simpl. now destruct (Nat.eqb q p).
Qed.

Lemma pushed_history_length history_len (bs : list B) ids :
  forall h,
    0 <= history_len ->
    Z.of_nat (List.length h) <= history_len ->
    Z.of_nat (List.length (pushed_history history_len bs ids h))
    <= history_len.
Proof.
  induction ids as [|id ids IH]; intros h H0 Hh; simpl; [exact Hh|].
  apply IH; [exact H0|]. now apply push_rps_length.
Qed.

(** Step 2 of [BeaconCheck] on the whole table. *)
Lemma BeaconCheck_sessions_spec table :
  forall (st st2 : Scheduler B),
    result_fold BeaconCheck_session table st = Ok st2 ->
    history_len_ st2 = history_len_ st /\
    List.length (heap_ st2) = List.length (heap_ st) /\
    forall p si,
      deref st p = Some si ->
      exists si2,
        deref st2 p = Some si2 /\
        ((ids_of table p = [] /\ rps_history si2 = rps_history si) \/
         (exists bs,
             serving_backends st (backend_throughputs si) = Some bs /\
             rps_history si2
             = pushed_history (history_len_ st) bs (ids_of table p)
                              (rps_history si))).
Proof.
  induction table as [|[id q] rest IH]; intros st st2 H; simpl in H.
  - inversion H. subst st2. split; [reflexivity|]. split; [reflexivity|].
    intros p si Hp. exists si. split; [exact Hp|]. left. now split.
  - destruct (BeaconCheck_session st (id, q)) as [sta| |] eqn:E;
      try discriminate.
    simpl in H. destruct (IH sta st2 H) as (Hl & Hn & Hrec).
    unfold BeaconCheck_session in E. cbn [fst snd] in E.
    destruct (deref st q) as [sq|] eqn:Hq; [|discriminate].
    simpl in E.
    destruct (session_rps st id (backend_throughputs sq) 0%Q)
      as [rps| |] eqn:Erps; try discriminate.
    simpl in E. inversion E. clear E.
    destruct (session_rps_serving _ _ _ _ _ Erps) as (bs & Hbs & Hrps).
    assert (Hla : history_len_ sta = history_len_ st)
      by (subst sta; reflexivity).
    assert (Hba : backends_ sta = backends_ st)
      by (subst sta; reflexivity).
    split; [congruence|].
    split.
    { rewrite Hn. subst sta. simpl. apply length_list_update. }
    intros p si Hp. rewrite ids_of_cons.
    assert (Hpa : deref sta p
                  = if Nat.eqb q p
                    then Some (set_rps_history
                                 (push_rps (history_len_ st)
                                           (rps_history si) rps) si)
                    else Some si).
    { subst sta. rewrite deref_on_session.
      destruct (Nat.eqb q p) eqn:Eqp; [|exact Hp].
      rewrite Hp. reflexivity. }
    destruct (Nat.eqb q p) eqn:Eqp.
    + apply Nat.eqb_eq in Eqp. subst p.
      assert (sq = si) by congruence. subst sq.
      destruct (Hrec _ _ Hpa) as (si2 & Hsi2 & Hcase).
      exists si2. split; [exact Hsi2|]. right. exists bs.
      split; [exact Hbs|].
      destruct Hcase as [[Hnil Hh] | (bs' & Hbs' & Hh)].
      * rewrite Hnil, Hh. simpl. now rewrite Hrps.
      * simpl in Hbs'. rewrite (serving_backends_ext st sta _ Hba) in Hbs'.
        assert (bs' = bs) by congruence. subst bs'.
        rewrite Hh, Hla. simpl. now rewrite Hrps.
    + destruct (Hrec _ _ Hpa) as (si2 & Hsi2 & Hcase).
      exists si2. split; [exact Hsi2|].
      destruct Hcase as [Hcase | (bs' & Hbs' & Hh)]; [now left|].
      right. exists bs'.
      rewrite (serving_backends_ext st sta _ Hba) in Hbs'.
      split; [exact Hbs'|]. now rewrite Hh, Hla.
Qed.

Local Notation hist st := (map rps_history (heap_ st), history_len_ st).

Lemma hist_deref (st st' : Scheduler B) p si :
  hist st' = hist st ->
  deref st p = Some si ->
  exists si', deref st' p = Some si' /\ rps_history si' = rps_history si.
Proof.
  intros H Hp. pose proof (f_equal fst H) as Hh. cbn [fst] in Hh.
  pose proof (f_equal (fun l => nth_error l p) Hh) as Hn.
  cbv beta in Hn. rewrite !nth_error_map in Hn.
  unfold deref in *. rewrite Hp in Hn.
  destruct (nth_error (heap_ st') p) as [si'|]; [|discriminate].
  simpl in Hn. inversion Hn. now exists si'.
Qed.

(** C7.  The scheduler is constructed with
    [history_len_ = 2 * ceil(epoch / beacon)] (for intervals whose sum
    the integer arithmetic of the constructor holds) and without
    session records.  A reading [rps] is appended to a history when
    the history is not empty or [rps] is positive, and nothing is
    appended to an empty history otherwise; when the appended history
    is longer than [history_len_] its oldest entry is dropped, so that
    a history of at most [history_len_] entries stays so.  A
    [BeaconCheck] that returns first removes the dead frontends, which
    leaves every history as it is.  Then, for every session record,
    and for every session id that the session table maps to the
    record, in the order of the table, the sum of [GetModelRps] of
    that id over the record's serving backends (all of them
    registered) is pushed to the record's history in this way; a
    record no session id maps to keeps its history.  The removal of
    the dead backends changes no history.  If no history was longer
    than [history_len_] before the pass, none is after it. *)
Theorem BeaconCheck_rps_history :
  (forall beacon epoch es pb (st : Scheduler B),
      Scheduler_construct beacon epoch es pb = Ok st ->
      0 <= beacon -> 0 <= epoch -> beacon + epoch <= 2 ^ 30 ->
      history_len_ st = 2 * min_history_len_ st /\
      (min_history_len_ st - 1) * beacon < epoch
                                         <= min_history_len_ st * beacon /\
      heap_ st = []) /\
  (forall history_len h rps,
      (h <> [] \/ (0 < rps)%Q ->
       push_rps history_len h rps
       = if history_len <? Z.of_nat (List.length h) + 1
         then tl (h ++ [rps]) else h ++ [rps]) /\
      (0 <= history_len -> h = [] -> ~ (0 < rps)%Q ->
       push_rps history_len h rps = []) /\
      (0 <= history_len -> Z.of_nat (List.length h) <= history_len ->
       Z.of_nat (List.length (push_rps history_len h rps))
       <= history_len)) /\
  forall fuel now (st st' : Scheduler B),
    BeaconCheck fuel now st = Ok st' ->
    exists st1,
      result_fold BeaconCheck_frontend
        (filter (fun f => negb (FrontendDelegate.IsAlive f now))
                (map snd (frontends_ st))) st = Ok st1 /\
      history_len_ st' = history_len_ st /\
      List.length (heap_ st') = List.length (heap_ st) /\
      (forall p si,
          deref st p = Some si ->
          exists si1 si',
            deref st1 p = Some si1 /\
            rps_history si1 = rps_history si /\
            deref st' p = Some si' /\
            ((ids_of (session_table_ st1) p = [] /\
              rps_history si' = rps_history si) \/
             (exists bs,
                 serving_backends st1 (backend_throughputs si1)
                 = Some bs /\
                 rps_history si'
                 = pushed_history (history_len_ st) bs
                     (ids_of (session_table_ st1) p) (rps_history si)))) /\
      (0 <= history_len_ st -> history_bounded st -> history_bounded st').
Proof.
  split; [|split].
  - intros beacon epoch es pb st Hc Hb He Hsum.
    unfold Scheduler_construct in Hc.
    destruct (to_uint32 beacon =? 0) eqn:Ez; [discriminate|].
    inversion Hc. clear Hc.
    assert (Hpos : 0 < beacon).
    { apply Z.eqb_neq in Ez. unfold to_uint32 in Ez.
      assert (P30 : 2 ^ 30 = 1073741824) by reflexivity.
      assert (P32 : 2 ^ 32 = 4294967296) by reflexivity.
      rewrite P32 in Ez. rewrite P30 in Hsum.
      rewrite Z.mod_small in Ez by lia. lia. }
    destruct (Scheduler_new_history_len (B:=B) beacon epoch es pb
                Hpos He Hsum) as [H1 H2].
    split; [exact H1|]. split; [exact H2 | reflexivity].
  - intros history_len h rps. split; [apply push_rps_pushed|].
    split.
    + intros H0 -> Hr. now apply push_rps_skipped.
    + now apply push_rps_length.
  - intros fuel now st st' H. unfold BeaconCheck in H.
    match type of H with
    | bind (result_fold ?g ?l ?a) _ = _ =>
        destruct (result_fold g l a) as [st1| |] eqn:E1; try discriminate
    end.
    cbn [bind] in H.
    destruct (result_fold BeaconCheck_session (session_table_ st1) st1)
      as [st2| |] eqn:E2; try discriminate.
    cbn [bind] in H. cbv zeta in H.
    exists st1. split; [reflexivity|].
    assert (H1 : hist st1 = hist st).
    { revert E1.
      apply (result_fold_inv (fun x : Scheduler B => hist x = hist st));
        [|reflexivity].
      intros x f x' Hx Hstep. unfold BeaconCheck_frontend in Hstep.
      apply RemoveFrontend_history in Hstep. rewrite Hstep. exact Hx. }
    destruct (BeaconCheck_sessions_spec _ _ _ E2) as (Hl2 & Hn2 & Hrec).
    assert (H3 : hist st' = hist st2).
    { revert H.
      apply (result_fold_inv (fun x : Scheduler B => hist x = hist st2)).
      - intros x b x' Hx Hstep.
        apply RemoveBackend_history in Hstep. rewrite Hstep. exact Hx.
      - apply (fold_left_inv (fun x : Scheduler B => hist x = hist st2));
          [|reflexivity].
        intros a x Ha. exact Ha. }
    assert (Hlen : history_len_ st' = history_len_ st).
    { pose proof (f_equal snd H3) as Ha. pose proof (f_equal snd H1) as Hb.
      cbn [snd] in Ha, Hb. congruence. }
    assert (Hheap : List.length (heap_ st') = List.length (heap_ st)).
    { pose proof (f_equal (fun x => List.length (fst x)) H3) as Ha.
      pose proof (f_equal (fun x => List.length (fst x)) H1) as Hb.
      cbn [fst] in Ha, Hb. rewrite !length_map in Ha, Hb. congruence. }
    assert (Hall :
              forall p si,
                deref st p = Some si ->
                exists si1 si',
                  deref st1 p = Some si1 /\
                  rps_history si1 = rps_history si /\
                  deref st' p = Some si' /\
                  ((ids_of (session_table_ st1) p = [] /\
                    rps_history si' = rps_history si) \/
                   (exists bs,
                       serving_backends st1 (backend_throughputs si1)
                       = Some bs /\
                       rps_history si'
                       = pushed_history (history_len_ st) bs
                           (ids_of (session_table_ st1) p)
                           (rps_history si)))).
    { intros p si Hp.
      destruct (hist_deref st st1 p si H1 Hp) as (si1 & Hp1 & Hh1).
      destruct (Hrec p si1 Hp1) as (si2 & Hp2 & Hcase).
      destruct (hist_deref st2 st' p si2 H3 Hp2) as (si' & Hp' & Hh').
      exists si1, si'. split; [exact Hp1|]. split; [exact Hh1|].
      split; [exact Hp'|].
      pose proof (f_equal snd H1) as Hl1. cbn [snd] in Hl1.
      destruct Hcase as [[Hnil Hh] | (bs & Hbs & Hh)].
      - left. split; [exact Hnil | congruence].
      - right. exists bs. split; [exact Hbs|].
        rewrite Hh', Hh, Hh1, Hl1. reflexivity. }
    split; [exact Hlen|]. split; [exact Hheap|]. split; [exact Hall|].
    intros H0 Hb p si' Hp'.
    destruct (deref st p) as [si|] eqn:Hp.
    + destruct (Hall p si Hp) as (si1 & si'' & _ & _ & Hp'' & Hcase).
      assert (si'' = si') by congruence. subst si''.
      rewrite Hlen. specialize (Hb p si Hp).
      destruct Hcase as [[_ Hh] | (bs & _ & Hh)]; rewrite Hh.
      * exact Hb.
      * now apply pushed_history_length.
    + exfalso. unfold deref in Hp, Hp'.
      apply nth_error_None in Hp.
      assert (Hsome : nth_error (heap_ st') p <> None) by congruence.
      apply nth_error_Some in Hsome. lia.
Qed.
End BeaconCheckPass.

(** [BeaconCheck_rps_history] on the example cluster: every node is
    alive, and the first positive reading of [vgg16], 42 requests per
    second on backend 10, starts the history of its record. *)
Lemma BeaconCheck_rps_history_witness :
  exists st' si',
    BeaconCheck (BO:=Example.ops) (FL:=Example.FL) (DB:=Example.DB)
                (SS:=StableSort) 16 0 Example.reporting = Ok st' /\
    deref st' 0%nat = Some si' /\
    rps_history si' = [42%Q].
Proof.
  assert (Hrun : exists st',
             BeaconCheck (BO:=Example.ops) (FL:=Example.FL)
                         (DB:=Example.DB) (SS:=StableSort) 16 0
Example.reporting = Ok st')
by (eexists; vm_compute; reflexivity).
destruct Hrun as [st' Hrun].
destruct (BeaconCheck_rps_history (BO:=Example.ops) (FL:=Example.FL)
(DB:=Example.DB) (SS:=StableSort)) as (_ & _ & Hpass).
destruct (Hpass 16%nat 0 Example.reporting st' Hrun)
as (st1 & E1 & _ & _ & Hrec & _).
vm_compute in E1. inversion E1 as [Est1]. clear E1.
destruct (Hrec 0%nat (nth 0 (heap_ Example.reporting) SessionInfo_new)
eq_refl)
as (si1 & si' & Hp1 & _ & Hp' & Hcase).
exists st', si'. split; [exact Hrun|]. split; [exact Hp'|].
rewrite <- Est1 in Hp1, Hcase.
vm_compute in Hp1. inversion Hp1 as [Esi1]. clear Hp1.
destruct Hcase as [[Hnil _] | (bs & Hbs & Hh)].
- vm_compute in Hnil. discriminate Hnil.
- rewrite <- Esi1 in Hbs. vm_compute in Hbs. inversion Hbs as [Ebs].
rewrite Hh, <- Ebs. vm_compute. reflexivity.
Defined.
